(** * stuff-time: period aggregation, text merging and consistency checks

    A shallow embedding of the aggregation engine of stuff-time
    (internal/task/executor.go), of its SQLite metadata store, of the hybrid
    report storage (internal/storage/report.go) and of the validate command
    (internal/cmd/validate.go), followed by the properties of the
    specification that are stated about them.

    Conventions.
    - A Go [string] is a sequence of bytes; it is a Rocq [string], whose
      literals hold the same UTF-8 bytes as the Go source. [len] is
      [String.length].
    - A [time.Time] is a number of seconds since the Unix epoch, in one fixed
      location (UTC); nanoseconds are not modelled.
    - A call that can fail returns a [result].
    - A Go [map] used as a set is the list of its keys without duplicates; the
      order in which [range] visits the keys is not specified by the language
      and is a parameter of the run. *)

From Stdlib Require Import String Ascii List ZArith Lia Bool Arith.
From Stdlib Require Import Permutation Sorted DecimalString.
Import ListNotations.

Open Scope list_scope.
Open Scope string_scope.

(** ** Results of fallible calls *)

Inductive result (A : Type) : Type :=
| Ok (a : A)
| Err (msg : string).
Arguments Ok {A} a.
Arguments Err {A} msg.

Definition isOk {A} (r : result A) : bool :=
  match r with Ok _ => true | Err _ => false end.

(** ** The functions of Go's [strings] package that the program calls *)

Module GoStrings.

Definition chr (n : nat) : string := String (ascii_of_nat n) "".

Definition NL : string := chr 10.
Definition CR : string := chr 13.

Fixpoint bytes (l : list nat) : string :=
  match l with
  | [] => ""
  | b :: l' => String (ascii_of_nat b) (bytes l')
  end.

Definition len (s : string) : nat := String.length s.

(** [strings.HasPrefix(s, p)] *)
Definition HasPrefix (s p : string) : bool := String.prefix p s.

(** [strings.Contains(s, sub)] *)
Fixpoint Contains (s sub : string) : bool :=
  if String.prefix sub s then true
  else match s with
       | EmptyString => false
       | String _ s' => Contains s' sub
       end.

(** [strings.Index(s, sub)]; [None] stands for Go's -1. *)
Fixpoint Index (s sub : string) : option nat :=
  if String.prefix sub s then Some 0
  else match s with
       | EmptyString => None
       | String _ s' => option_map S (Index s' sub)
       end.

(** [strings.ReplaceAll(s, old, new)]: the occurrences of [old] are found
    from left to right and do not overlap. [skip] counts the bytes of a
    match that are still to be dropped. Every call site passes a non-empty
    [old]. *)
Fixpoint replaceFrom (old new : string) (skip : nat) (s : string) : string :=
  match s with
  | EmptyString => EmptyString
  | String c s' =>
      match skip with
      | S k => replaceFrom old new k s'
      | O =>
          if String.prefix old s
          then new ++ replaceFrom old new (String.length old - 1) s'
          else String c (replaceFrom old new 0 s')
      end
  end.

Definition ReplaceAll (s old new : string) : string :=
  match old with
  | EmptyString => s
  | _ => replaceFrom old new 0 s
  end.

(** [strings.Split(s, sep)] for a non-empty separator. *)
Fixpoint splitFrom (sep : string) (skip : nat) (acc : string) (s : string)
  : list string :=
  match s with
  | EmptyString => [acc]
  | String c s' =>
      match skip with
      | S k => splitFrom sep k acc s'
      | O =>
          if String.prefix sep s
          then acc :: splitFrom sep (String.length sep - 1) "" s'
          else splitFrom sep 0 (acc ++ String c "") s'
      end
  end.

Definition Split (s sep : string) : list string := splitFrom sep 0 "" s.

(** [strings.Join(l, sep)] *)
Definition Join (l : list string) (sep : string) : string :=
  String.concat sep l.

(** [strings.ToLower]. The ASCII capitals are mapped to small letters. On
    text outside ASCII Go decodes the text and applies [unicode.ToLower]
    rune by rune; the model keeps the bytes outside ASCII. This is what Go
    does on valid UTF-8 whose characters outside ASCII have no case: the
    Chinese text and punctuation of the program's own patterns and of the
    summaries it is written for ([Residue.plain] delimits such text). On
    characters that have a lower case outside ASCII, and on bytes that are
    not UTF-8, Go's result differs and the model does not follow it. *)
Definition lowerByte (c : ascii) : ascii :=
  let n := nat_of_ascii c in
  if ((65 <=? n) && (n <=? 90))%nat then ascii_of_nat (n + 32) else c.

Fixpoint ToLower (s : string) : string :=
  match s with
  | EmptyString => EmptyString
  | String c s' => String (lowerByte c) (ToLower s')
  end.

(** The white space of [unicode.IsSpace], in UTF-8: the six ASCII ones,
    U+0085, U+00A0, U+1680, U+2000 to U+200A, U+2028, U+2029, U+202F,
    U+205F and U+3000. *)
Definition spaceSeqs : list string :=
  [ chr 9; chr 10; chr 11; chr 12; chr 13; chr 32;
    bytes [194; 133]; bytes [194; 160]; bytes [225; 154; 128];
    bytes [226; 128; 128]; bytes [226; 128; 129]; bytes [226; 128; 130];
    bytes [226; 128; 131]; bytes [226; 128; 132]; bytes [226; 128; 133];
    bytes [226; 128; 134]; bytes [226; 128; 135]; bytes [226; 128; 136];
    bytes [226; 128; 137]; bytes [226; 128; 138]; bytes [226; 128; 168];
    bytes [226; 128; 169]; bytes [226; 128; 175]; bytes [226; 129; 159];
    bytes [227; 128; 128] ].

Fixpoint revString (acc s : string) : string :=
  match s with
  | EmptyString => acc
  | String c s' => revString (String c acc) s'
  end.

Definition rev (s : string) : string := revString "" s.

(** Length of the white-space sequence of [seqs] that [s] starts with, 0
    when there is none. *)
Fixpoint leading (seqs : list string) (s : string) : nat :=
  match seqs with
  | [] => 0
  | w :: seqs' =>
      if String.prefix w s then String.length w else leading seqs' s
  end.

Fixpoint trimLeftFrom (seqs : list string) (skip : nat) (s : string)
  : string :=
  match s with
  | EmptyString => EmptyString
  | String c s' =>
      match skip with
      | S k => trimLeftFrom seqs k s'
      | O =>
          match leading seqs s with
          | O => s
          | S k => trimLeftFrom seqs k s'
          end
      end
  end.

Definition TrimLeftSpace (s : string) : string :=
  trimLeftFrom spaceSeqs 0 s.

Definition TrimRightSpace (s : string) : string :=
  rev (trimLeftFrom (map rev spaceSeqs) 0 (rev s)).

(** [strings.TrimSpace] *)
Definition TrimSpace (s : string) : string :=
  TrimRightSpace (TrimLeftSpace s).

(** [strings.TrimSuffix] *)
Definition TrimSuffix (s suffix : string) : string :=
  if String.prefix (rev suffix) (rev s)
  then String.substring 0 (String.length s - String.length suffix) s
  else s.

(** [s[i:j]] for [i <= j <= len(s)] *)
Definition slice (s : string) (i j : nat) : string :=
  String.substring i (j - i) s.

(** [fmt.Sprintf("%d", n)] *)
Definition itoa (n : Z) : string :=
  NilZero.string_of_int (Z.to_int n).

(** A decimal number written with at least [w] digits, as the reference
    layouts [01], [02], [15], [04], [05] and [2006] of [Time.Format] do. *)
Fixpoint zeros (n : nat) : string :=
  match n with O => "" | S k => String "0" (zeros k) end.

Definition pad (w : nat) (n : Z) : string :=
  let s := itoa n in zeros (w - String.length s) ++ s.

End GoStrings.

Import GoStrings.

(** ** Data model (internal/storage) *)

Definition Time := Z.

(** [storage.PeriodSummary]: one row of the table [period_summaries]. *)
Record PeriodSummary : Type := mkPeriodSummary {
  PeriodKey : string;
  PeriodType : string;
  StartTime : Time;
  EndTime : Time;
  Screenshots : string;
  Summary : string;
  Analysis : string
}.

(** [storage.ScreenshotRecord]: one row of the table [screenshots]. The
    field [Analysis] of a screenshot is written [SAnalysis]. *)
Record ScreenshotRecord : Type := mkScreenshotRecord {
  ID : string;
  Timestamp : Time;
  ScreenID : Z;
  ImagePath : string;
  SAnalysis : string;
  HourKey : string
}.

(** [storage.HourSummary]: one row of the table [hour_summaries]. *)
Record HourSummary : Type := mkHourSummary {
  HHourKey : string;
  HDate : Time;
  HHour : Z;
  HScreenshots : string;
  HSummary : string
}.

Definition PLACEHOLDER : string := "__NO_WORK_ACTIVITY_PLACEHOLDER__".

(** ** Content validity classification (internal/task/executor.go) *)

Module Classifier.

(** The seven replacements and the trim that [isInvalidSummary] and
    [hasValidWorkActivity] apply to the lower-cased text. *)
Definition stripMarkup (lowered : string) : string :=
  let normalized := ReplaceAll lowered NL " " in
  let normalized := ReplaceAll normalized CR " " in
  let normalized := ReplaceAll normalized "  " " " in
  let normalized := ReplaceAll normalized "【" "" in
  let normalized := ReplaceAll normalized "】" "" in
  let normalized := ReplaceAll normalized "*" "" in
  let normalized := ReplaceAll normalized "#" "" in
  TrimSpace normalized.

(** The nine replacements and the trim that [isInvalidSummary] and
    [hasValidContent] apply to what is left once the no-activity phrases
    are removed. *)
Definition stripPunctuation (remaining : string) : string :=
  let remaining := ReplaceAll remaining "（" "" in
  let remaining := ReplaceAll remaining "）" "" in
  let remaining := ReplaceAll remaining "(" "" in
  let remaining := ReplaceAll remaining ")" "" in
  let remaining := ReplaceAll remaining "。" "" in
  let remaining := ReplaceAll remaining "." "" in
  let remaining := ReplaceAll remaining "，" "" in
  let remaining := ReplaceAll remaining "," "" in
  let remaining := ReplaceAll remaining " " "" in
  TrimSpace remaining.

(** The same nine replacements in the order in which
    [hasValidWorkActivity] makes them: stops and commas first. *)
Definition stripPunctuationAndBrackets (remaining : string) : string :=
  let remaining := ReplaceAll remaining "。" "" in
  let remaining := ReplaceAll remaining "." "" in
  let remaining := ReplaceAll remaining "，" "" in
  let remaining := ReplaceAll remaining "," "" in
  let remaining := ReplaceAll remaining "（" "" in
  let remaining := ReplaceAll remaining "）" "" in
  let remaining := ReplaceAll remaining "(" "" in
  let remaining := ReplaceAll remaining ")" "" in
  let remaining := ReplaceAll remaining " " "" in
  TrimSpace remaining.

Definition invalidPatterns : list string :=
  [ "该时间段内没有检测到有效工作活动（所有截图均为桌面或锁屏状态）";
    "该时间段内没有检测到有效工作活动";
    "没有检测到有效工作活动（所有截图均为桌面或锁屏状态）";
    "没有检测到有效工作活动";
    "没有有效工作活动";
    "未检测到新的有效工作活动";
    "未检测到有效工作活动" ].

(** What is left of [summary] for one pattern of [isInvalidSummary]. *)
Definition invalidRemaining (summary pattern : string) : string :=
  let normalized := stripMarkup (ToLower summary) in
  stripPunctuation (ReplaceAll normalized (ToLower pattern) "").

Definition isInvalidSummary (summary : string) : bool :=
  if summary =? "" then true
  else if summary =? PLACEHOLDER then true
  else
    let summaryLower := ToLower summary in
    existsb
      (fun pattern =>
         Contains summaryLower (ToLower pattern)
         && (len (invalidRemaining summary pattern) <? 50)%nat)
      invalidPatterns.

Definition noWorkIndicators : list string :=
  [ "没有检测到有效工作活动";
    "没有有效工作活动";
    "未检测到新的有效工作活动";
    "未检测到有效工作活动";
    "no work activity";
    "没有检测到新的有效工作活动" ].

Definition desktopLockScreenIndicators : list string :=
  [ "桌面或锁屏状态";
    "桌面或锁屏";
    "均为桌面或锁屏";
    "所有截图内容均为桌面或锁屏状态";
    "desktop or lock screen";
    "lock screen";
    "desktop" ].

Definition workIndicators : list string :=
  [ "代码"; "开发"; "编写"; "调试"; "测试"; "部署"; "提交"; "修复";
    "项目"; "任务"; "工作"; "完成"; "实现"; "优化"; "设计";
    "code"; "develop"; "write"; "debug"; "test"; "deploy"; "commit"; "fix";
    "project"; "task"; "work"; "complete"; "implement"; "optimize";
    "design" ].

Definition removeAll (s : string) (olds : list string) : string :=
  fold_left (fun r old => ReplaceAll r (ToLower old) "") olds s.

(** The body of the first loop of [hasValidWorkActivity] for one
    indicator: [true] when the function returns [false] there. *)
Definition noWorkVerdict (summary indicator : string) : bool :=
  let summaryLower := ToLower summary in
  let summaryTrimmed := TrimSpace summary in
  Contains summaryLower (ToLower indicator)
  && (let normalized := stripMarkup (ToLower summaryTrimmed) in
      (len normalized <? 200)%nat
      || existsb (fun d => Contains summaryLower (ToLower d))
           desktopLockScreenIndicators
      || (let remaining := removeAll normalized noWorkIndicators in
          let remaining := removeAll remaining desktopLockScreenIndicators in
          (len (stripPunctuationAndBrackets remaining) <? 50)%nat)).

Definition hasValidWorkActivity (summary : string) : bool :=
  if summary =? "" then false
  else
    let summaryLower := ToLower summary in
    let summaryTrimmed := TrimSpace summary in
    if existsb (noWorkVerdict summary) noWorkIndicators then false
    else
      let hasDesktopLockScreen :=
        existsb (fun d => Contains summaryLower (ToLower d))
          desktopLockScreenIndicators in
      if hasDesktopLockScreen then
        let hasWorkContent :=
          existsb (fun w => Contains summaryLower (ToLower w))
            workIndicators in
        if negb hasWorkContent && (len summaryTrimmed <? 300)%nat
        then false else true
      else true.

(** The loop over the lines of [cleanSummaryIfNoWorkActivity]. *)
Fixpoint cleanLines (lines : list string) (inEfficiencySection
  inImprovementSection : bool) : list string :=
  match lines with
  | [] => []
  | line :: rest =>
      let lineTrimmed := TrimSpace line in
      let lineLower := ToLower lineTrimmed in
      if Contains lineLower "【效率分析】" || Contains lineLower "效率分析"
      then cleanLines rest true inImprovementSection
      else if Contains lineLower "【改进建议】"
              || Contains lineLower "改进建议"
      then cleanLines rest inEfficiencySection true
      else
        let reset :=
          HasPrefix lineTrimmed "【" && negb inEfficiencySection
          && negb inImprovementSection in
        let inEff := if reset then false else inEfficiencySection in
        let inImp := if reset then false else inImprovementSection in
        if inEff || inImp then cleanLines rest inEff inImp
        else line :: cleanLines rest inEff inImp
  end.

Definition cleanSummaryIfNoWorkActivity (summary : string) : string :=
  if summary =? "" then summary
  else if negb (hasValidWorkActivity summary) then ""
  else
    let summaryLower := ToLower summary in
    let hasNoWorkIndicator :=
      existsb (fun i => Contains summaryLower (ToLower i))
        [ "没有检测到有效工作活动"; "没有有效工作活动";
          "未检测到新的有效工作活动"; "未检测到有效工作活动" ] in
    if hasNoWorkIndicator then
      let lines := Split summary NL in
      let cleanedLines := cleanLines lines false false in
      let cleanedSummary := TrimSpace (Join cleanedLines NL) in
      if (len cleanedSummary <? 100)%nat then "" else cleanedSummary
    else summary.

Definition noActivityPatterns : list string :=
  [ "没有检测到有效工作活动"; "没有有效工作活动"; "no work activity";
    "no work activity in segment" ].

Definition hasValidContent (summary : PeriodSummary) : bool :=
  if Summary summary =? PLACEHOLDER then false
  else
    let summaryValid :=
      if Summary summary =? "" then false
      else
        let summaryText := TrimSpace (Summary summary) in
        let normalizedText := ToLower summaryText in
        let normalizedText := ReplaceAll normalizedText NL " " in
        let normalizedText := ReplaceAll normalizedText CR " " in
        let normalizedText := ReplaceAll normalizedText "  " " " in
        let normalizedText := TrimSpace normalizedText in
        let isOnlyNoActivity :=
          existsb
            (fun pattern =>
               let patternLower := ToLower pattern in
               Contains normalizedText patternLower
               && (len (stripPunctuation
                          (ReplaceAll normalizedText patternLower ""))
                   <? 50)%nat)
            noActivityPatterns in
        negb isOnlyNoActivity in
    let analysisValid :=
      if Analysis summary =? "" then false
      else
        let analysisText := TrimSpace (Analysis summary) in
        if HasPrefix analysisText "分析失败"
           || HasPrefix analysisText "分析失败:"
           || Contains analysisText "API call failed"
           || Contains analysisText "failed to"
        then false else true in
    summaryValid || analysisValid.

Definition strictPatterns : list string :=
  [ "锁屏界面"; "锁屏状态"; "处于锁屏"; "电脑桌面"; "桌面界面";
    "桌面状态"; "系统登录"; "系统锁屏"; "等待解锁"; "等待输入密码";
    "没有打开任何应用程序"; "没有打开任何应用"; "lock screen";
    "lockscreen"; "desktop" ].

Definition isDesktopOrLockScreenAnalysis (analysis : string) : bool :=
  if analysis =? "" then true
  else
    let lowerAnalysis := ToLower analysis in
    let summaryPart :=
      match Index lowerAnalysis "【摘要】" with
      | Some summaryStart =>
          match Index lowerAnalysis "【详细论述】" with
          | Some summaryEnd =>
              if (summaryStart <? summaryEnd)%nat
              then slice lowerAnalysis summaryStart summaryEnd
              else slice lowerAnalysis summaryStart (len lowerAnalysis)
          | None => slice lowerAnalysis summaryStart (len lowerAnalysis)
          end
      | None =>
          if (200 <? len lowerAnalysis)%nat
          then slice lowerAnalysis 0 200
          else lowerAnalysis
      end in
    if existsb (fun pattern => Contains summaryPart pattern) strictPatterns
    then true
    else if Contains summaryPart "登录界面"
            && negb (Contains summaryPart "游戏")
            && negb (Contains summaryPart "应用")
            && negb (Contains summaryPart "软件")
    then true
    else if Contains summaryPart "输入密码"
            && (Contains summaryPart "解锁"
                || Contains summaryPart "锁屏"
                || Contains summaryPart "系统")
    then true
    else if Contains summaryPart "输入密码"
            && (Contains summaryPart "游戏" || Contains summaryPart "应用")
    then false
    else if (len summaryPart <? 100)%nat
            && (Contains summaryPart "锁屏" || Contains summaryPart "桌面")
    then true
    else false.

Definition shouldGenerateAnalysis (periodType : string) : bool :=
  (periodType =? "week") || (periodType =? "month")
  || (periodType =? "quarter") || (periodType =? "year").

End Classifier.

Import Classifier.

(** ** Collaborators and configuration *)

(** The operations of [analyzer.OpenAI] that the executor calls. Each is an
    HTTP request to the summarization service; it is a parameter of the
    model, and it may fail. *)
Record Analyzer : Type := mkAnalyzer {
  GenerateSummary : string -> string -> result string;
  GenerateRollingSummaryWithContext :
    string -> string -> string -> result string;
  AnalyzeBehavior : string -> result string;
  IsDesktopOrLockScreen : string -> result bool;
  AnalyzeScreenshot : string -> result string
}.

(** The external calls made during a run, in the order they are issued. *)
Inductive Call : Type :=
| CallGenerateSummary (content periodType : string)
| CallRollingSummary (previousSummary newContent timeContext : string)
| CallAnalyzeBehavior (summary : string)
| CallIsDesktopOrLockScreen (imagePath : string)
| CallAnalyzeScreenshot (imagePath : string).

(** [config.WorkHoursConfig] *)
Record WorkHoursConfig : Type := mkWorkHours {
  StartHour : Z;
  StartMinute : Z;
  EndHour : Z;
  EndMinute : Z
}.

(** The fields of [config.Config] that the modelled functions read. *)
Record Config : Type := mkConfig {
  ReportsPath : string;
  WorkHours : WorkHoursConfig;
  MaxParallelTreeAggregation : Z;
  MaxParallelFifteenmins : Z;
  AnalysisWorkers : Z
}.

(** ** Text merger (internal/task/executor.go) *)

Module Merger.

(** The loop of [processRollingSummaryWithTimeContext]: [i] is the loop
    index and [rest] is [summaries[i:]]. *)
Fixpoint rollingLoop (a : Analyzer) (timeContext : string) (i : nat)
  (previousSummary : string) (rest : list string)
  : result string * list Call :=
  match rest with
  | [] => (Ok previousSummary, [])
  | newContent :: rest' =>
      let call :=
        CallRollingSummary previousSummary newContent timeContext in
      match GenerateRollingSummaryWithContext a previousSummary newContent
              timeContext with
      | Err msg =>
          (Err ("failed at step " ++ itoa (Z.of_nat i) ++ ": " ++ msg),
           [call])
      | Ok rolledSummary =>
          let '(r, calls) :=
            rollingLoop a timeContext (S i) rolledSummary rest' in
          (r, call :: calls)
      end
  end.

(** [pairResult]: what a pair sends on [resultChan]. *)
Record pairResult : Type := mkPairResult {
  index : nat;
  combined : string
}.

(** The order in which the results of one level arrive on [resultChan]: it
    depends on how the goroutines are scheduled. *)
Definition Arrival := list pairResult -> list pairResult.

(** What the goroutine of the pair at [pairIndex] computes. *)
Definition combinePair (a : Analyzer) (timeContext : string)
  (first second : string) : string :=
  match GenerateRollingSummaryWithContext a first second timeContext with
  | Ok c => c
  | Err _ => first ++ NL ++ NL ++ second
  end.

(** The loop [for i := 0; i < len(currentLevel); i += 2]: [i] is the loop
    index and [rest] is [currentLevel[i:]]. The results are listed in the
    order of [i]; the calls of a level run concurrently. *)
Fixpoint levelPairs (a : Analyzer) (timeContext : string) (i : nat)
  (rest : list string) : list pairResult * list Call :=
  match rest with
  | [] => ([], [])
  | [odd] => ([mkPairResult (i / 2) odd], [])
  | first :: second :: rest' =>
      let '(rs, calls) := levelPairs a timeContext (i + 2) rest' in
      (mkPairResult (i / 2) (combinePair a timeContext first second) :: rs,
       CallRollingSummary first second timeContext :: calls)
  end.

(** [nextLevel[i] = v]; the indices sent by [levelPairs] are all below
    [pairsInLevel], so that the assignment never panics. *)
Fixpoint assign (nextLevel : list string) (i : nat) (v : string)
  : list string :=
  match nextLevel, i with
  | [], _ => []
  | _ :: t, O => v :: t
  | h :: t, S k => h :: assign t k v
  end.

(** [nextLevel := make([]string, pairsInLevel)] and the loop over
    [resultChan]. *)
Definition collect (pairsInLevel : nat) (arrived : list pairResult)
  : list string :=
  fold_left (fun nextLevel r => assign nextLevel (index r) (combined r))
    arrived (repeat "" pairsInLevel).

(** One iteration of [for len(currentLevel) > 1]. *)
Definition treeLevel (a : Analyzer) (arrival : Arrival)
  (timeContext : string) (currentLevel : list string)
  : list string * list Call :=
  let pairsInLevel := (length currentLevel + 1) / 2 in
  let '(results, calls) := levelPairs a timeContext 0 currentLevel in
  (collect pairsInLevel (arrival results), calls).

(** The loop [for len(currentLevel) > 1]; a level is at most as long as
    half of the one before, rounded up, so that [fuel = len(summaries)]
    iterations are never used up (lemma [treeAggregation_result]). *)
Fixpoint treeLoop (a : Analyzer) (arrival : Arrival) (timeContext : string)
  (fuel : nat) (currentLevel : list string) : list string * list Call :=
  match fuel with
  | O => (currentLevel, [])
  | S fuel' =>
      if (1 <? length currentLevel)%nat then
        let '(nextLevel, calls) :=
          treeLevel a arrival timeContext currentLevel in
        let '(final, calls') :=
          treeLoop a arrival timeContext fuel' nextLevel in
        (final, (calls ++ calls')%list)
      else (currentLevel, [])
  end.

Definition processTreeAggregationWithTimeContext (a : Analyzer)
  (arrival : Arrival) (summaries : list string)
  (periodKey context timeContext : string) : result string * list Call :=
  let '(currentLevel, calls) :=
    treeLoop a arrival timeContext (length summaries) summaries in
  match currentLevel with
  | [] => (Err "tree aggregation resulted in empty output", calls)
  | first :: _ => (Ok first, calls)
  end.

Definition treeAggregationThreshold : nat := 20.

Definition processRollingSummaryWithTimeContext (a : Analyzer)
  (arrival : Arrival) (summaries : list string)
  (periodKey context timeContext : string) : result string * list Call :=
  match summaries with
  | [] => (Err "no summaries to process", [])
  | [only] => (Ok only, [])
  | first :: rest =>
      if (treeAggregationThreshold <? length summaries)%nat
      then processTreeAggregationWithTimeContext a arrival summaries
             periodKey context timeContext
      else rollingLoop a timeContext 1 first rest
  end.

(** The pairwise-merge operation of the summarizer, for one time
    context. *)
Definition pairwiseMerge (a : Analyzer) (timeContext : string)
  (first second : string) : result string :=
  GenerateRollingSummaryWithContext a first second timeContext.

(** *** The reductions as the specification words them *)

(** Rolling reduction: the first fragment seeds the running result, and
    each later fragment is merged into it. *)
Definition rollingSpec (merge : string -> string -> result string)
  (first : string) (rest : list string) : result string :=
  fold_left
    (fun running next =>
       match running with
       | Ok r => merge r next
       | Err m => Err m
       end)
    rest (Ok first).

(** The merge of the pair of fragments, or their concatenation across a
    blank line when the merge fails. *)
Definition mergeOrConcat (merge : string -> string -> result string)
  (first second : string) : string :=
  match merge first second with
  | Ok c => c
  | Err _ => first ++ NL ++ NL ++ second
  end.

(** One level of the tree: entry [i] of the next level comes from the
    fragments at [2i] and [2i+1], and an odd trailing fragment is carried
    unchanged. *)
Definition treeLevelSpec (merge : string -> string -> result string)
  (level : list string) : list string :=
  map
    (fun i =>
       match nth_error level (2 * i + 1) with
       | Some second => mergeOrConcat merge (nth (2 * i) level "") second
       | None => nth (2 * i) level ""
       end)
    (seq 0 ((length level + 1) / 2)).

(** Levels repeat until one fragment remains: [log2_up n] of them. *)
Definition treeSpec (merge : string -> string -> result string)
  (fragments : list string) : list string :=
  Nat.iter (Nat.log2_up (length fragments)) (treeLevelSpec merge)
    fragments.

(** Two results agree when both succeed with the same text or both fail. *)
Definition sameOutcome (r1 r2 : result string) : Prop :=
  match r1, r2 with
  | Ok x, Ok y => x = y
  | Err _, Err _ => True
  | _, _ => False
  end.

End Merger.

Import Merger.

(** ** The functions of Go's [time] package that the program calls *)

Module GoTime.

Local Open Scope Z_scope.

(** Days since 1970-01-01 of the civil date [y]-[m]-[d], [1 <= m <= 12]. *)
Definition daysFromCivil (y m d : Z) : Z :=
  let y' := if m <=? 2 then y - 1 else y in
  let era := y' / 400 in
  let yoe := y' - era * 400 in
  let mp := if 2 <? m then m - 3 else m + 9 in
  let doy := (153 * mp + 2) / 5 + d - 1 in
  let doe := yoe * 365 + yoe / 4 - yoe / 100 + doy in
  era * 146097 + doe - 719468.

(** The civil date (year, month, day) of a number of days since
    1970-01-01. *)
Definition civilFromDays (z : Z) : Z * Z * Z :=
  let z := z + 719468 in
  let era := z / 146097 in
  let doe := z - era * 146097 in
  let yoe := (doe - doe / 1460 + doe / 36524 - doe / 146096) / 365 in
  let doy := doe - (365 * yoe + yoe / 4 - yoe / 100) in
  let mp := (5 * doy + 2) / 153 in
  let d := doy - (153 * mp + 2) / 5 + 1 in
  let m := if mp <? 10 then mp + 3 else mp - 9 in
  let y := yoe + era * 400 in
  (if m <=? 2 then y + 1 else y, m, d).

(** [time.Date(year, month, day, hour, min, sec, 0, loc)]: values outside
    their usual ranges are normalized. *)
Definition Date (year month day hour min sec : Z) : Time :=
  let m0 := month - 1 in
  let year := year + m0 / 12 in
  let month := m0 mod 12 + 1 in
  (daysFromCivil year month 1 + (day - 1)) * 86400
  + hour * 3600 + min * 60 + sec.

Definition Year (t : Time) : Z := fst (fst (civilFromDays (t / 86400))).
Definition Month (t : Time) : Z := snd (fst (civilFromDays (t / 86400))).
Definition Day (t : Time) : Z := snd (civilFromDays (t / 86400)).
Definition Hour (t : Time) : Z := (t mod 86400) / 3600.
Definition Minute (t : Time) : Z := (t mod 3600) / 60.
Definition Second (t : Time) : Z := t mod 60.

(** [int(t.Weekday())]: Sunday is 0. *)
Definition Weekday (t : Time) : Z := (t / 86400 + 4) mod 7.

(** [t.Add(d)], [d] in seconds. *)
Definition Add (t : Time) (d : Z) : Time := t + d.

Definition minutes (n : Z) : Z := n * 60.
Definition hours (n : Z) : Z := n * 3600.

(** [t.AddDate(years, months, days)] *)
Definition AddDate (t : Time) (years months days : Z) : Time :=
  Date (Year t + years) (Month t + months) (Day t + days)
    (Hour t) (Minute t) (Second t).

Definition Before (t u : Time) : bool := t <? u.
Definition After (t u : Time) : bool := u <? t.
Definition Equal (t u : Time) : bool := t =? u.

(** [t.Format(layout)] for layouts made of the reference elements [2006],
    [01], [02], [15], [04], [05] and of literal text. [skip] counts the
    bytes of a reference element that are still to be dropped. *)
Fixpoint formatFrom (t : Time) (skip : nat) (layout : string) : string :=
  match layout with
  | EmptyString => EmptyString
  | String c layout' =>
      match skip with
      | S k => formatFrom t k layout'
      | O =>
          if String.prefix "2006" layout
          then (pad 4 (Year t) ++ formatFrom t 3 layout')%string
          else if String.prefix "01" layout
          then (pad 2 (Month t) ++ formatFrom t 1 layout')%string
          else if String.prefix "02" layout
          then (pad 2 (Day t) ++ formatFrom t 1 layout')%string
          else if String.prefix "15" layout
          then (pad 2 (Hour t) ++ formatFrom t 1 layout')%string
          else if String.prefix "04" layout
          then (pad 2 (Minute t) ++ formatFrom t 1 layout')%string
          else if String.prefix "05" layout
          then (pad 2 (Second t) ++ formatFrom t 1 layout')%string
          else String c (formatFrom t 0 layout')
      end
  end.

Definition Format (t : Time) (layout : string) : string :=
  formatFrom t 0 layout.

(** [(w *WorkHoursConfig) IsWorkTime(t)] (internal/config/config.go) *)
Definition IsWorkTime (w : WorkHoursConfig) (t : Time) : bool :=
  if (StartHour w =? 0) && (StartMinute w =? 0) && (EndHour w =? 0)
     && (EndMinute w =? 0)
  then true
  else
    let currentMinutes := Hour t * 60 + Minute t in
    let startMinutes := StartHour w * 60 + StartMinute w in
    let endMinutes := EndHour w * 60 + EndMinute w in
    if endMinutes <? startMinutes
    then (startMinutes <=? currentMinutes) || (currentMinutes <? endMinutes)
    else (startMinutes <=? currentMinutes) && (currentMinutes <? endMinutes).

End GoTime.

(** ** The stored state and the state monad *)

(** The three tables of the SQLite database, the report files under the
    reports directory (path and content), and the external calls issued so
    far. Database and file-system calls do not fail in the model: in the
    program their error branches log a warning or return the error. *)
Record World : Type := mkWorld {
  screenshots : list ScreenshotRecord;
  hour_summaries : list HourSummary;
  period_summaries : list PeriodSummary;
  reports : list (string * string);
  calls : list Call
}.

Definition M (A : Type) : Type := World -> A * World.

Definition ret {A} (a : A) : M A := fun w => (a, w).

Definition bind {A B} (m : M A) (f : A -> M B) : M B :=
  fun w => let '(a, w') := m w in f a w'.

Notation "x <- m ;; k" := (bind m (fun x => k))
  (at level 61, m at next level, right associativity).
Notation "m ;;; k" := (bind m (fun _ => k))
  (at level 61, right associativity).

Definition gets {A} (f : World -> A) : M A := fun w => (f w, w).
Definition modify (f : World -> World) : M unit := fun w => (tt, f w).

(** An external call: it is recorded, and its answer is returned. *)
Definition external {A} (c : Call) (answer : result A) : M (result A) :=
  fun w =>
    (answer,
     mkWorld (screenshots w) (hour_summaries w) (period_summaries w)
       (reports w) (calls w ++ [c])).

(** ** SQLite metadata store ([SQLiteStorage]) *)

Module SQLite.

Local Open Scope Z_scope.

(** [ORDER BY ... ASC]: a stable insertion sort on the key, rows with
    equal keys staying in table order. *)
Fixpoint insertBy {A} (key : A -> Z) (x : A) (l : list A) : list A :=
  match l with
  | [] => [x]
  | y :: l' => if key x <? key y then x :: l else y :: insertBy key x l'
  end.

Definition orderBy {A} (key : A -> Z) (l : list A) : list A :=
  fold_right (insertBy key) [] l.

Definition setPeriods (w : World) (ps : list PeriodSummary) : World :=
  mkWorld (screenshots w) (hour_summaries w) ps (reports w) (calls w).

Definition setScreenshots (w : World) (ss : list ScreenshotRecord)
  : World :=
  mkWorld ss (hour_summaries w) (period_summaries w) (reports w) (calls w).

Definition setHours (w : World) (hs : list HourSummary) : World :=
  mkWorld (screenshots w) hs (period_summaries w) (reports w) (calls w).

(** [INSERT OR REPLACE INTO period_summaries]: [period_key] is the primary
    key. *)
Definition SavePeriodSummary (summary : PeriodSummary) : M unit :=
  modify (fun w =>
    setPeriods w
      (filter (fun r => negb (PeriodKey r =? PeriodKey summary)%string)
              (period_summaries w) ++ [summary])%list).

Definition GetPeriodSummary (periodKey : string)
  : M (option PeriodSummary) :=
  gets (fun w =>
    find (fun r => (PeriodKey r =? periodKey)%string)
         (period_summaries w)).

Definition DeletePeriodSummary (periodKey : string) : M unit :=
  modify (fun w =>
    setPeriods w
      (filter (fun r => negb (PeriodKey r =? periodKey)%string)
              (period_summaries w))).

(** [WHERE period_type = ? AND start_time >= ? AND end_time <= ?
    ORDER BY start_time ASC] *)
Definition QueryPeriodSummaries (periodType : string) (start end_ : Time)
  : M (list PeriodSummary) :=
  gets (fun w =>
    orderBy StartTime
      (filter (fun r => (PeriodType r =? periodType)%string
                        && (start <=? StartTime r)
                        && (EndTime r <=? end_))
              (period_summaries w))).

(** [WHERE timestamp >= ? AND timestamp <= ? ORDER BY timestamp ASC] *)
Definition QueryByDateRange (start end_ : Time)
  : M (list ScreenshotRecord) :=
  gets (fun w =>
    orderBy Timestamp
      (filter (fun r => (start <=? Timestamp r) && (Timestamp r <=? end_))
              (screenshots w))).

(** [WHERE hour_key = ? ORDER BY timestamp ASC] *)
Definition GetScreenshotsByHourKey (hourKey : string)
  : M (list ScreenshotRecord) :=
  gets (fun w =>
    orderBy Timestamp
      (filter (fun r => (HourKey r =? hourKey)%string) (screenshots w))).

(** [UPDATE screenshots SET analysis = ? WHERE id = ?] *)
Definition UpdateScreenshotAnalysis (id analysis : string) : M unit :=
  modify (fun w =>
    setScreenshots w
      (map (fun r =>
              if (ID r =? id)%string
              then mkScreenshotRecord (ID r) (Timestamp r) (ScreenID r)
                     (ImagePath r) analysis (HourKey r)
              else r)
           (screenshots w))).

Definition GetHourSummary (hourKey : string) : M (option HourSummary) :=
  gets (fun w =>
    find (fun r => (HHourKey r =? hourKey)%string) (hour_summaries w)).

(** [INSERT OR REPLACE INTO hour_summaries] *)
Definition SaveHourSummary (summary : HourSummary) : M unit :=
  modify (fun w =>
    setHours w
      (filter (fun r => negb (HHourKey r =? HHourKey summary)%string)
              (hour_summaries w) ++ [summary])%list).

(** Keys of a Go [map[string]bool] filled by inserting [ids] in turn. *)
Fixpoint insertAll (set : list string) (ids : list string) : list string :=
  match ids with
  | [] => set
  | id :: ids' =>
      insertAll
        (if existsb (String.eqb id) set then set else (set ++ [id])%list)
        ids'
  end.

Definition isDigit (c : ascii) : bool :=
  let n := nat_of_ascii c in ((48 <=? n) && (n <=? 57))%nat.

Fixpoint digitsValue (acc : Z) (s : string) : option Z :=
  match s with
  | EmptyString => Some acc
  | String c s' =>
      if isDigit c
      then digitsValue (acc * 10 + Z.of_nat (nat_of_ascii c - 48)) s'
      else None
  end.

Definition number (width : nat) (s : string) : option Z :=
  if (String.length s =? width)%nat then digitsValue 0 s else None.

(** [time.Parse("2006-01-02-15", hourKey)]: four numbers of 4, 2, 2 and 2
    digits that name an existing day and hour. *)
Definition parseHourKey (hourKey : string) : option Time :=
  match Split hourKey "-" with
  | [y; m; d; h] =>
      match number 4 y, number 2 m, number 2 d, number 2 h with
      | Some y, Some m, Some d, Some h =>
          let t := GoTime.Date y m d h 0 0 in
          if (GoTime.Year t =? y) && (GoTime.Month t =? m)
             && (GoTime.Day t =? d) && (GoTime.Hour t =? h)
          then Some t else None
      | _, _, _, _ => None
      end
  | _ => None
  end.

(** [UpdateHourSummary]: the ids already stored and the new ones are put
    in a map, whose keys are then listed in the order [rangeOrder] of the
    [range] statement. *)
Definition UpdateHourSummary (rangeOrder : list string -> list string)
  (hourKey : string) (screenshotIDs : list string) (summary : string)
  : M (result unit) :=
  existing <- GetHourSummary hourKey ;;
  let start :=
    match existing with
    | Some h => Some h
    | None =>
        match parseHourKey hourKey with
        | Some t => Some (mkHourSummary hourKey t (GoTime.Hour t) "" "")
        | None => None
        end
    end in
  match start with
  | None => ret (Err "invalid hour key")
  | Some hourSummary =>
      let existingIDs := Split (HScreenshots hourSummary) "," in
      let idMap :=
        insertAll [] (filter (fun id => negb (id =? "")%string)
                             existingIDs) in
      let idMap := insertAll idMap screenshotIDs in
      let allIDs := rangeOrder idMap in
      SaveHourSummary
        (mkHourSummary (HHourKey hourSummary) (HDate hourSummary)
           (HHour hourSummary) (Join allIDs ",") summary) ;;;
      ret (Ok tt)
  end.

End SQLite.

(** ** Hybrid report storage (internal/storage/report.go) *)

(** [FileSystemStorage.GetPeriodSummary], which reads a period summary back
    from its report file, is not among the sources: it is a parameter, a
    function of the report files and of the period key, [None] when it
    returns an error or no summary. The constant function [None] gives the
    behaviour of a plain [SQLiteStorage]. *)
Definition ContentReader : Type :=
  list (string * string) -> string -> option PeriodSummary.

Module ReportStorage.

Definition withScreenshots (content metadata : PeriodSummary)
  : PeriodSummary :=
  mkPeriodSummary (PeriodKey content) (PeriodType content)
    (StartTime content) (EndTime content) (Screenshots metadata)
    (Summary content) (Analysis content).

(** The choice made for one metadata row by [GetPeriodSummary] and by the
    loop of [QueryPeriodSummaries]. *)
Definition enrich (contentStorage : ContentReader)
  (files : list (string * string)) (metadataSummary : PeriodSummary)
  : PeriodSummary :=
  if Summary metadataSummary =? PLACEHOLDER then metadataSummary
  else
    match contentStorage files (PeriodKey metadataSummary) with
    | Some contentSummary => withScreenshots contentSummary metadataSummary
    | None => metadataSummary
    end.

Definition SavePeriodSummary (summary : PeriodSummary) : M unit :=
  SQLite.SavePeriodSummary summary.

Definition GetPeriodSummary (contentStorage : ContentReader)
  (periodKey : string) : M (option PeriodSummary) :=
  metadataSummary <- SQLite.GetPeriodSummary periodKey ;;
  files <- gets reports ;;
  ret (option_map (enrich contentStorage files) metadataSummary).

Definition QueryPeriodSummaries (contentStorage : ContentReader)
  (periodType : string) (start end_ : Time) : M (list PeriodSummary) :=
  metadataSummaries <- SQLite.QueryPeriodSummaries periodType start end_ ;;
  files <- gets reports ;;
  ret (map (enrich contentStorage files) metadataSummaries).

Definition QueryByDateRange := SQLite.QueryByDateRange.
Definition GetScreenshotsByHourKey := SQLite.GetScreenshotsByHourKey.
Definition UpdateScreenshotAnalysis := SQLite.UpdateScreenshotAnalysis.
Definition UpdateHourSummary := SQLite.UpdateHourSummary.

End ReportStorage.

(** ** Period aggregator (internal/task/executor.go) *)

(** The executor: its configuration, the analyzer it calls and the content
    store behind its storage. *)
Record Executor : Type := mkExecutor {
  config : Config;
  analyzer : Analyzer;
  contentStorage : ContentReader
}.

(** What a run depends on besides the executor and the stored state: the
    value of [time.Now()], the order in which [range] lists the keys of a
    map, and what the nested generation calls [generateLowerLevelSummaries]
    and [generateSinglePeriodSummary] (on the lower level) do to the store.
    The nested calls start goroutines, retry and sleep; a run takes each of
    them as some state transformer. Every property of a run below is proved
    for all runs, that is for all state transformers in their place: none
    assumes anything of what a nested call does or returns. *)
Record Run : Type := mkRun {
  clock : Time;
  rangeOrder : list string -> list string;
  nestedLowerLevel : string -> Time -> Time -> bool -> bool -> M (result unit);
  nestedSingle : Time -> string -> bool -> bool -> M (result unit)
}.

(** The [return] statement by which [generateSinglePeriodSummary] leaves.
    Go sees the error of [ExitError] and [nil] for all the others. *)
Inductive Exit : Type :=
| ExitError (msg : string)
| ExitNotEnded
| ExitNoData
| ExitNothingCollected
| ExitNoScreenshots
| ExitPlaceholder (placeholderSummary : PeriodSummary)
| ExitSaved (summary : PeriodSummary).

Definition exitError (x : Exit) : result unit :=
  match x with
  | ExitError msg => Err msg
  | _ => Ok tt
  end.

Module Aggregator.

Import GoTime.

Definition getLowerLevelPeriodType (periodType : string) : string :=
  if periodType =? "year" then "quarter"
  else if periodType =? "quarter" then "month"
  else if periodType =? "month" then "week"
  else if periodType =? "week" then "day"
  else if periodType =? "day" then "work-segment"
  else if periodType =? "work-segment" then "hour"
  else if periodType =? "hour" then "fifteenmin"
  else "".

Definition getHigherLevelPeriodType (periodType : string) : string :=
  if periodType =? "fifteenmin" then "hour"
  else if periodType =? "hour" then "work-segment"
  else if periodType =? "work-segment" then "day"
  else if periodType =? "day" then "week"
  else if periodType =? "week" then "month"
  else if periodType =? "month" then "quarter"
  else if periodType =? "quarter" then "year"
  else "".

(** [weekday := int(t.Weekday()); if weekday == 0 { weekday = 7 }] *)
Definition isoWeekday (t : Time) : Z :=
  if (Weekday t =? 0)%Z then 7%Z else Weekday t.

Definition startOfDay (t : Time) : Time :=
  Date (Year t) (Month t) (Day t) 0 0 0.

(** The first [switch] of [generateSinglePeriodSummary]: the theoretical
    start, the theoretical end and the period key. *)
Definition periodWindow (now : Time) (periodType : string)
  : result (Time * Time * string) :=
  if periodType =? "fifteenmin" then
    let minute := Minute now in
    let roundedMinute := ((minute / 15) * 15)%Z in
    let startTime :=
      Date (Year now) (Month now) (Day now) (Hour now) roundedMinute 0 in
    Ok (startTime, Add startTime (minutes 15),
        Format startTime "2006-01-02-15-04")
  else if periodType =? "hour" then
    let startTime :=
      Date (Year now) (Month now) (Day now) (Hour now) 0 0 in
    Ok (startTime, Add startTime (hours 1),
        Format startTime "2006-01-02-15")
  else if periodType =? "work-segment" then
    Err "work-segment should be generated via generateWorkSegmentSummary"
  else if periodType =? "day" then
    let startTime := startOfDay now in
    Ok (startTime, AddDate startTime 0 0 1, Format startTime "2006-01-02")
  else if periodType =? "week" then
    let weekday := isoWeekday now in
    let startTime := startOfDay now in
    let startTime := AddDate startTime 0 0 (- (weekday - 1)) in
    Ok (startTime, AddDate startTime 0 0 7,
        Format startTime "2006-01-02" ++ "-week")
  else if periodType =? "month" then
    let startTime := Date (Year now) (Month now) 1 0 0 0 in
    Ok (startTime, AddDate startTime 0 1 0, Format startTime "2006-01")
  else if periodType =? "quarter" then
    let quarter := ((Month now - 1) / 3 + 1)%Z in
    let quarterStartMonth := ((quarter - 1) * 3 + 1)%Z in
    let startTime := Date (Year now) quarterStartMonth 1 0 0 0 in
    Ok (startTime, AddDate startTime 0 3 0,
        itoa (Year now) ++ "-Q" ++ itoa quarter)
  else if periodType =? "year" then
    let startTime := Date (Year now) 1 1 0 0 0 in
    Ok (startTime, AddDate startTime 1 0 0, Format startTime "2006")
  else Err ("unsupported summary period: " ++ periodType).

(** The test that automatic runs make first: a week, month, quarter or
    year that has not ended is skipped. *)
Definition notEnded (r : Run) (periodType : string) (isManual : bool)
  (endTime : Time) : bool :=
  negb isManual
  && ((periodType =? "week") || (periodType =? "month")
      || (periodType =? "quarter") || (periodType =? "year"))
  && Before (clock r) endTime.

Definition filterWorkTimeScreenshots (e : Executor)
  (screenshots : list ScreenshotRecord) : list ScreenshotRecord :=
  filter (fun s => IsWorkTime (WorkHours (config e)) (Timestamp s))
    screenshots.

Definition earliest {A} (key : A -> Time) (first : Time) (l : list A)
  : Time :=
  fold_left (fun acc s => if Before (key s) acc then key s else acc)
    l first.

Definition latest {A} (key : A -> Time) (first : Time) (l : list A)
  : Time :=
  fold_left (fun acc s => if After (key s) acc then key s else acc)
    l first.

(** The last [switch] of [determineActualTimeRange]: the span of the data
    rounded to the boundaries of the period type. *)
Definition roundToPeriod (periodType : string) (theoreticalStart
  theoreticalEnd earliestTime latestTime : Time) : Time * Time :=
  if periodType =? "day" then
    (startOfDay earliestTime,
     Date (Year latestTime) (Month latestTime) (Day latestTime) 23 59 59)
  else if periodType =? "hour" then
    (Date (Year earliestTime) (Month earliestTime) (Day earliestTime)
       (Hour earliestTime) 0 0,
     Date (Year latestTime) (Month latestTime) (Day latestTime)
       (Hour latestTime) 59 59)
  else if periodType =? "fifteenmin" then
    (Date (Year earliestTime) (Month earliestTime) (Day earliestTime)
       (Hour earliestTime) ((Minute earliestTime / 15) * 15)%Z 0,
     Date (Year latestTime) (Month latestTime) (Day latestTime)
       (Hour latestTime) ((Minute latestTime / 15) * 15 + 14)%Z 59)
  else if periodType =? "week" then
    (AddDate (startOfDay earliestTime) 0 0
       (- (isoWeekday earliestTime - 1)),
     AddDate
       (Date (Year latestTime) (Month latestTime) (Day latestTime)
          23 59 59)
       0 0 (7 - isoWeekday latestTime))
  else if periodType =? "month" then
    (Date (Year earliestTime) (Month earliestTime) 1 0 0 0,
     Add (AddDate (Date (Year latestTime) (Month latestTime) 1 0 0 0)
            0 1 0) (-1))
  else if periodType =? "quarter" then
    let quarter := ((Month earliestTime - 1) / 3 + 1)%Z in
    let quarterStartMonth := ((quarter - 1) * 3 + 1)%Z in
    let quarter' := ((Month latestTime - 1) / 3 + 1)%Z in
    let quarterEndMonth := (quarter' * 3)%Z in
    (Date (Year earliestTime) quarterStartMonth 1 0 0 0,
     Add (AddDate (Date (Year latestTime) quarterEndMonth 1 0 0 0) 0 1 0)
       (-1))
  else if periodType =? "year" then
    (Date (Year earliestTime) 1 1 0 0 0,
     Date (Year latestTime) 12 31 23 59 59)
  else (theoreticalStart, theoreticalEnd).

Definition determineActualTimeRange (e : Executor) (periodType : string)
  (theoreticalStart theoreticalEnd : Time) : M (Time * Time * bool) :=
  let lowerLevelType := getLowerLevelPeriodType periodType in
  fromLower <-
    (if lowerLevelType =? "" then ret None
     else
       lowerSummaries <-
         ReportStorage.QueryPeriodSummaries (contentStorage e)
           lowerLevelType theoreticalStart theoreticalEnd ;;
       match lowerSummaries with
       | [] => ret None
       | first :: _ =>
           ret (Some (earliest StartTime (StartTime first) lowerSummaries,
                      latest EndTime (EndTime first) lowerSummaries))
       end) ;;
  span <-
    match fromLower with
    | Some span => ret (Some span)
    | None =>
        screenshots <-
          ReportStorage.QueryByDateRange theoreticalStart theoreticalEnd ;;
        match screenshots with
        | [] => ret None
        | _ :: _ =>
            let screenshots :=
              if (periodType =? "hour") || (periodType =? "day")
              then filterWorkTimeScreenshots e screenshots
              else screenshots in
            match screenshots with
            | [] => ret None
            | first :: _ =>
                ret (Some
                       (earliest Timestamp (Timestamp first) screenshots,
                        latest Timestamp (Timestamp first) screenshots))
            end
        end
    end ;;
  match span with
  | None => ret (theoreticalStart, theoreticalEnd, false)
  | Some (earliestTime, latestTime) =>
      let '(actualStart, actualEnd) :=
        roundToPeriod periodType theoreticalStart theoreticalEnd
          earliestTime latestTime in
      ret (actualStart, actualEnd, true)
  end.

(** *** Report files *)

(** [filepath.Join] of clean, non-empty elements. *)
Definition joinPath (elements : list string) : string := Join elements "/".

Definition quarterDir (t : Time) : string :=
  "Q" ++ itoa ((Month t - 1) / 3 + 1)%Z.

(** [weekNum := ((day - 1) / 7) + 1] *)
Definition weekDir (t : Time) : string :=
  "W" ++ itoa ((Day t - 1) / 7 + 1)%Z.

(** [calculateReportPath]. For a work-segment key that ends in [-segment]
    the program reads [parts[4]] out of range and panics; the keys built by
    [generateWorkSegmentSummary] carry the segment number. *)
Definition calculateReportPath (e : Executor) (summary : PeriodSummary)
  : result string :=
  let root := ReportsPath (config e) in
  if root =? "" then Err "reports path not configured"
  else
    let t := StartTime summary in
    let periodType := PeriodType summary in
    let yearDir := Format t "2006" in
    let monthDir := Format t "01" in
    let dayDir := Format t "02" in
    let hourDir := Format t "15" in
    let dayPath :=
      [root; yearDir; quarterDir t; monthDir; weekDir t; dayDir] in
    Ok
      (if periodType =? "year" then joinPath [root; yearDir; "year.md"]
       else if periodType =? "quarter" then
         joinPath [root; yearDir; quarterDir t;
                   "quarter-" ++ quarterDir t ++ ".md"]
       else if periodType =? "month" then
         joinPath [root; yearDir; quarterDir t; monthDir; "month.md"]
       else if periodType =? "week" then
         joinPath [root; yearDir; quarterDir t; monthDir;
                   "week-" ++ weekDir t ++ ".md"]
       else if periodType =? "work-segment" then
         let parts := Split (PeriodKey summary) "-" in
         let filename :=
           if (4 <=? length parts)%nat && (nth 3 parts "" =? "segment")
           then "work-segment-" ++ nth 4 parts "" ++ ".md"
           else PeriodKey summary ++ ".md" in
         joinPath (List.app dayPath [filename])
       else if periodType =? "day" then
         joinPath (List.app dayPath ["day.md"])
       else if periodType =? "hour" then
         joinPath (List.app dayPath [hourDir; "hour.md"])
       else if periodType =? "fifteenmin" then
         joinPath
           (List.app dayPath
              [hourDir; "fifteenmin-" ++ Format t "04" ++ ".md"])
       else joinPath (List.app dayPath [periodType ++ ".md"])).

Definition getPeriodTypeName (periodType : string) : string :=
  if periodType =? "hour" then "小时"
  else if periodType =? "work-segment" then "工作时间段"
  else if periodType =? "day" then "日"
  else if periodType =? "week" then "周"
  else if periodType =? "month" then "月"
  else if periodType =? "year" then "年"
  else periodType.

Definition setReports (w : World) (files : list (string * string))
  : World :=
  mkWorld (screenshots w) (hour_summaries w) (period_summaries w) files
    (calls w).

(** [os.Remove(path)] *)
Definition removeFile (path : string) : M unit :=
  modify (fun w =>
    setReports w
      (filter (fun f => negb (fst f =? path)) (reports w))).

(** [os.WriteFile(path, content)] *)
Definition writeFile (path content : string) : M unit :=
  modify (fun w =>
    setReports w
      (filter (fun f => negb (fst f =? path)) (reports w)
       ++ [(path, content)])%list).

Definition reportContent (r : Run) (summary : PeriodSummary) : string :=
  "# " ++ getPeriodTypeName (PeriodType summary) ++ "周期总结报告"
  ++ NL ++ NL
  ++ "**周期类型**: " ++ PeriodType summary ++ NL ++ NL
  ++ "**开始时间**: "
  ++ Format (StartTime summary) "2006-01-02 15:04:05" ++ NL ++ NL
  ++ "**结束时间**: "
  ++ Format (EndTime summary) "2006-01-02 15:04:05" ++ NL ++ NL
  ++ "**截图数量**: "
  ++ itoa (Z.of_nat (length (Split (Screenshots summary) ",")))
  ++ NL ++ NL
  ++ "---" ++ NL ++ NL
  ++ "## 事实总结" ++ NL ++ NL
  ++ (if Summary summary =? "" then "暂无数据" else Summary summary)
  ++ NL ++ NL
  ++ (if negb (Analysis summary =? "")
         && hasValidWorkActivity (Summary summary)
      then "---" ++ NL ++ NL ++ "## 改进建议" ++ NL ++ NL
           ++ Analysis summary ++ NL ++ NL
      else "")
  ++ "---" ++ NL ++ NL
  ++ "*报告生成时间: " ++ Format (clock r) "2006-01-02 15:04:05" ++ "*"
  ++ NL.

Definition savePeriodSummaryReport (e : Executor) (r : Run)
  (summary : PeriodSummary) : M (result unit) :=
  if ReportsPath (config e) =? "" then ret (Ok tt)
  else if negb (hasValidContent summary) then
    match calculateReportPath e summary with
    | Err _ => ret (Ok tt)
    | Ok reportPath => removeFile reportPath ;;; ret (Ok tt)
    end
  else
    match calculateReportPath e summary with
    | Err msg => ret (Err ("failed to calculate report path: " ++ msg))
    | Ok reportPath =>
        writeFile reportPath (reportContent r summary) ;;; ret (Ok tt)
    end.

(** *** [generateSinglePeriodSummary] *)

(** The local variables of [generateSinglePeriodSummary] that outlive the
    aggregation from the lower level. *)
Record Vars : Type := mkVars {
  periodSummary : string;
  improvementAnalysis : string;
  allScreenshotIDs : list string;
  screenshotIDSet : list string;
  lowerLevelType : string
}.

Inductive Flow (A : Type) : Type :=
| Return (x : Exit)
| Continue (a : A).
Arguments Return {A} x.
Arguments Continue {A} a.

(** [ids := strings.Split(s.Screenshots, ",")] and the loop that trims
    each id and puts the non-empty ones in the set. *)
Definition addScreenshotIDs (set : list string) (field : string)
  : list string :=
  if field =? "" then set
  else
    SQLite.insertAll set
      (filter (fun id => negb (id =? "")) (map TrimSpace (Split field ","))).

(** What the loop over [lowerSummaries] and the regeneration build. *)
Record Collected : Type := mkCollected {
  summaryTexts : list string;
  invalidSummaryKeys : list string;
  validLowerSummaries : list PeriodSummary;
  idSet : list string
}.

Definition classifyStep (c : Collected) (s : PeriodSummary) : Collected :=
  if Summary s =? PLACEHOLDER then c
  else if (Summary s =? "") || isInvalidSummary (Summary s) then
    mkCollected (summaryTexts c)
      (invalidSummaryKeys c ++ [PeriodKey s])%list
      (validLowerSummaries c) (idSet c)
  else
    mkCollected (summaryTexts c ++ [Summary s])%list (invalidSummaryKeys c)
      (validLowerSummaries c ++ [s])%list
      (addScreenshotIDs (idSet c) (Screenshots s)).

Definition classifyLower (set : list string)
  (lowerSummaries : list PeriodSummary) : Collected :=
  fold_left classifyStep lowerSummaries (mkCollected [] [] [] set).

(** The loops over [invalidSummaryKeys]: each invalid summary is
    regenerated by a nested run and read back. *)
Fixpoint regenerateInvalid (e : Executor) (r : Run)
  (lowerSummaries : list PeriodSummary) (lowerLevelType : string)
  (force isManual : bool) (invalidKeys : list string) (c : Collected)
  : M Collected :=
  match invalidKeys with
  | [] => ret c
  | invalidKey :: rest =>
      match find (fun s => PeriodKey s =? invalidKey) lowerSummaries with
      | None =>
          regenerateInvalid e r lowerSummaries lowerLevelType force
            isManual rest c
      | Some invalidSummary =>
          err <-
            nestedSingle r (StartTime invalidSummary) lowerLevelType force
              isManual ;;
          match err with
          | Err _ =>
              regenerateInvalid e r lowerSummaries lowerLevelType force
                isManual rest c
          | Ok _ =>
              regenerated <-
                ReportStorage.GetPeriodSummary (contentStorage e)
                  invalidKey ;;
              match regenerated with
              | Some g =>
                  if negb (Summary g =? "")
                     && negb (isInvalidSummary (Summary g))
                  then
                    regenerateInvalid e r lowerSummaries lowerLevelType
                      force isManual rest
                      (mkCollected (summaryTexts c ++ [Summary g])%list
                         (invalidSummaryKeys c)
                         (validLowerSummaries c ++ [g])%list
                         (addScreenshotIDs (idSet c) (Screenshots g)))
                  else
                    regenerateInvalid e r lowerSummaries lowerLevelType
                      force isManual rest c
              | None =>
                  regenerateInvalid e r lowerSummaries lowerLevelType
                    force isManual rest c
              end
          end
      end
  end.

Definition isEmpty {A} (l : list A) : bool :=
  match l with [] => true | _ => false end.

(** A screenshot whose analysis counts as work: it is not empty, it is
    not marked as failed, and it does not describe a desktop or lock
    screen. *)
Definition validScreenshot (s : ScreenshotRecord) : bool :=
  negb (SAnalysis s =? "")
  && negb (HasPrefix (SAnalysis s) "Analysis failed")
  && negb (isDesktopOrLockScreenAnalysis (SAnalysis s)).

(** The query of the lower-level summaries and the policy that generates
    them first: the lower-level summaries to aggregate, and the value of
    [lowerLevelType] afterwards ([""] for the fallback). *)
Definition selectLower (e : Executor) (r : Run) (lowerLevelType : string)
  (startTime endTime : Time) (force isManual : bool)
  : M (list PeriodSummary * string) :=
  lowerSummaries <-
    ReportStorage.QueryPeriodSummaries (contentStorage e) lowerLevelType
      startTime endTime ;;
  if force then
    nestedLowerLevel r lowerLevelType startTime endTime force isManual ;;;
    lowerSummaries <-
      ReportStorage.QueryPeriodSummaries (contentStorage e) lowerLevelType
        startTime endTime ;;
    ret (lowerSummaries,
         if isEmpty lowerSummaries then "" else lowerLevelType)
  else if isEmpty lowerSummaries then
    screenshots <- ReportStorage.QueryByDateRange startTime endTime ;;
    let validScreenshots := filter validScreenshot screenshots in
    if isEmpty validScreenshots then ret ([], "")
    else
      nestedLowerLevel r lowerLevelType startTime endTime force isManual ;;;
      lowerSummaries <-
        ReportStorage.QueryPeriodSummaries (contentStorage e)
          lowerLevelType startTime endTime ;;
      ret (lowerSummaries,
           if isEmpty lowerSummaries then "" else lowerLevelType)
  else ret (lowerSummaries, lowerLevelType).

Definition aggregatedLevel (periodType : string) : bool :=
  (periodType =? "work-segment") || (periodType =? "day")
  || (periodType =? "week") || (periodType =? "month")
  || (periodType =? "quarter") || (periodType =? "year").

(** The merge of a non-empty [summaryTexts]: direct concatenation, or the
    summarizer, and for a week or longer the level-specific pass. *)
Definition mergeTexts (e : Executor) (periodType lowerLevelType : string)
  (isManual : bool) (summaryTexts : list string) : M string :=
  let shouldDirectMerge :=
    negb (lowerLevelType =? "") && aggregatedLevel lowerLevelType
    && (length summaryTexts <=? 10)%nat && negb isManual in
  res <-
    (if shouldDirectMerge
     then ret (Ok (Join summaryTexts (NL ++ NL ++ "---" ++ NL ++ NL)))
     else
       match summaryTexts with
       | [only] =>
           external (CallGenerateSummary only periodType)
             (GenerateSummary (analyzer e) only periodType)
       | _ =>
           let combined := Join summaryTexts (NL ++ NL) in
           external (CallGenerateSummary combined periodType)
             (GenerateSummary (analyzer e) combined periodType)
       end) ;;
  match res with
  | Err _ => ret (Join summaryTexts (NL ++ NL))
  | Ok summaryResult =>
      if (periodType =? "week") || (periodType =? "month")
         || (periodType =? "quarter") || (periodType =? "year")
      then
        final <-
          external (CallGenerateSummary summaryResult periodType)
            (GenerateSummary (analyzer e) summaryResult periodType) ;;
        match final with
        | Err _ => ret summaryResult
        | Ok finalSummary => ret finalSummary
        end
      else ret summaryResult
  end.

(** The behavioural analysis of a week or longer period with genuine work
    activity; [current] is the value of [improvementAnalysis] before. *)
Definition behaviorAnalysis (e : Executor) (periodType periodSummary
  : string) (haveTexts : bool) (current : string) : M string :=
  if negb (periodSummary =? "") && haveTexts
     && shouldGenerateAnalysis periodType
  then
    if hasValidWorkActivity periodSummary then
      res <-
        external (CallAnalyzeBehavior periodSummary)
          (AnalyzeBehavior (analyzer e) periodSummary) ;;
      match res with
      | Err msg => ret ("分析失败: " ++ msg)
      | Ok analysisResult => ret analysisResult
      end
    else ret ""
  else ret current.

(** The block [if lowerLevelType != ""]: aggregation from the summaries
    of the lower level. *)
Definition lowerAggregation (e : Executor) (r : Run) (periodType : string)
  (startTime endTime : Time) (force isManual : bool) (v : Vars)
  : M (Flow Vars) :=
  sel <-
    selectLower e r (lowerLevelType v) startTime endTime force isManual ;;
  let '(lowerSummaries, lowerLevelType) := sel in
  let c := classifyLower (screenshotIDSet v) lowerSummaries in
  c <-
    (if isEmpty (invalidSummaryKeys c) then ret c
     else
       let force' :=
         if getLowerLevelPeriodType lowerLevelType =? "" then true
         else force in
       regenerateInvalid e r lowerSummaries lowerLevelType force' isManual
         (invalidSummaryKeys c) c) ;;
  merged <-
    (if isEmpty (summaryTexts c) then
       let allScreenshotIDs := rangeOrder r (idSet c) in
       if isEmpty allScreenshotIDs
       then ret (Return ExitNothingCollected)
       else ret (Continue ("", allScreenshotIDs))
     else
       periodSummary <-
         mergeTexts e periodType lowerLevelType isManual
           (summaryTexts c) ;;
       ret (Continue (periodSummary, allScreenshotIDs v))) ;;
  match merged with
  | Return x => ret (Return x)
  | Continue (periodSummary, allScreenshotIDs) =>
      let allScreenshotIDs :=
        if isEmpty allScreenshotIDs then rangeOrder r (idSet c)
        else allScreenshotIDs in
      let periodSummary := cleanSummaryIfNoWorkActivity periodSummary in
      if (periodSummary =? "") && isEmpty allScreenshotIDs
      then ret (Return ExitNothingCollected)
      else
        improvementAnalysis <-
          behaviorAnalysis e periodType periodSummary
            (negb (isEmpty (summaryTexts c))) (improvementAnalysis v) ;;
        ret (Continue
               (mkVars periodSummary improvementAnalysis allScreenshotIDs
                  (idSet c)
                  (if isEmpty lowerSummaries then ""
                   else lowerLevelType)))
  end.

(** The block [if lowerLevelType == ""]: aggregation from the raw
    screenshots. *)
Definition screenshotAggregation (e : Executor) (r : Run)
  (periodType : string) (startTime endTime : Time) (v : Vars)
  : M (Flow Vars) :=
  screenshots <- ReportStorage.QueryByDateRange startTime endTime ;;
  if isEmpty screenshots then ret (Return ExitNoScreenshots)
  else
    let screenshotIDSet :=
      fold_left
        (fun set s =>
           if ID s =? "" then set else SQLite.insertAll set [ID s])
        screenshots (screenshotIDSet v) in
    let screenshotSummaries :=
      map SAnalysis (filter validScreenshot screenshots) in
    let allScreenshotIDs := rangeOrder r screenshotIDSet in
    periodSummary <-
      (if isEmpty screenshotSummaries then ret ""
       else
         let rawSummaryText := Join screenshotSummaries NL in
         res <-
           external (CallGenerateSummary rawSummaryText periodType)
             (GenerateSummary (analyzer e) rawSummaryText periodType) ;;
         match res with
         | Err _ => ret rawSummaryText
         | Ok summaryResult => ret summaryResult
         end) ;;
    let periodSummary := cleanSummaryIfNoWorkActivity periodSummary in
    improvementAnalysis <-
      behaviorAnalysis e periodType periodSummary
        (negb (isEmpty screenshotSummaries)) (improvementAnalysis v) ;;
    ret (Continue
           (mkVars periodSummary improvementAnalysis allScreenshotIDs
              screenshotIDSet (lowerLevelType v))).

Definition placeholderFor (periodKey periodType : string)
  (startTime endTime : Time) : PeriodSummary :=
  mkPeriodSummary periodKey periodType startTime endTime "" PLACEHOLDER "".

(** The end of [generateSinglePeriodSummary]: the record is saved with its
    report file, or a placeholder is saved in its place. *)
Definition persist (e : Executor) (r : Run) (periodKey periodType : string)
  (startTime endTime : Time) (v : Vars) : M Exit :=
  let summary :=
    mkPeriodSummary periodKey periodType startTime endTime
      (Join (allScreenshotIDs v) ",") (periodSummary v)
      (improvementAnalysis v) in
  if negb (hasValidContent summary) then
    let placeholderSummary :=
      placeholderFor periodKey periodType startTime endTime in
    ReportStorage.SavePeriodSummary placeholderSummary ;;;
    ret (ExitPlaceholder placeholderSummary)
  else
    ReportStorage.SavePeriodSummary summary ;;;
    savePeriodSummaryReport e r summary ;;;
    ret (ExitSaved summary).

Definition generateSinglePeriodSummary (e : Executor) (r : Run)
  (now : Time) (periodType : string) (forceFromScreenshots isManual : bool)
  : M Exit :=
  match periodWindow now periodType with
  | Err msg => ret (ExitError msg)
  | Ok (startTime, endTime, periodKey) =>
      if notEnded r periodType isManual endTime then ret ExitNotEnded
      else
        range <- determineActualTimeRange e periodType startTime endTime ;;
        let '(actualStartTime, actualEndTime, hasData) := range in
        if negb hasData then ret ExitNoData
        else
          let startTime := actualStartTime in
          let endTime := actualEndTime in
          let v := mkVars "" "" [] [] (getLowerLevelPeriodType periodType) in
          fromLower <-
            (if lowerLevelType v =? "" then ret (Continue v)
             else
               lowerAggregation e r periodType startTime endTime
                 forceFromScreenshots isManual v) ;;
          match fromLower with
          | Return x => ret x
          | Continue v =>
              fromScreenshots <-
                (if lowerLevelType v =? "" then
                   screenshotAggregation e r periodType startTime endTime v
                 else ret (Continue v)) ;;
              match fromScreenshots with
              | Return x => ret x
              | Continue v =>
                  persist e r periodKey periodType startTime endTime v
              end
          end
  end.

End Aggregator.

(** ** Work segments ([generateWorkSegmentSummary]) *)

Module WorkSegment.

Import GoTime.

Record Segment : Type := mkSegment {
  segStart : Time;
  segEnd : Time;
  segKey : string
}.

(** The loop [for current.Before(workEnd)], which cuts the work hours of
    the day into segments of two hours; each turn moves [current] forward,
    and [fuel] bounds the number of turns. *)
Fixpoint segmentsFrom (fuel : nat) (dayStart workEnd current : Time)
  (segmentIndex : Z) : list Segment :=
  match fuel with
  | O => []
  | S fuel' =>
      if Before current workEnd then
        let segmentEnd := Add current (hours 2) in
        let segmentEnd :=
          if After segmentEnd workEnd then workEnd else segmentEnd in
        mkSegment current segmentEnd
          (Format dayStart "2006-01-02" ++ "-segment-" ++ itoa segmentIndex)
        :: segmentsFrom fuel' dayStart workEnd segmentEnd
             (segmentIndex + 1)%Z
      else []
  end.

Definition segments (e : Executor) (dayStart : Time) : list Segment :=
  let workHours := WorkHours (config e) in
  let workStart :=
    Date (Year dayStart) (Month dayStart) (Day dayStart)
      (StartHour workHours) (StartMinute workHours) 0 in
  let workEnd :=
    Date (Year dayStart) (Month dayStart) (Day dayStart)
      (EndHour workHours) (EndMinute workHours) 0 in
  segmentsFrom (Z.to_nat ((workEnd - workStart) / 7200 + 1)%Z) dayStart
    workEnd workStart 0%Z.

(** The ids gathered from the hour summaries of a segment: every
    non-empty [Screenshots] field is split and appended. *)
Definition gatherIDs (workHourSummaries : list PeriodSummary)
  : list string :=
  flat_map
    (fun s => if Screenshots s =? "" then [] else Split (Screenshots s) ",")
    workHourSummaries.

(** The body of the loop over the segments. *)
Definition generateSegment (e : Executor) (r : Run)
  (forceFromScreenshots : bool) (segment : Segment) : M unit :=
  existing <-
    ReportStorage.GetPeriodSummary (contentStorage e) (segKey segment) ;;
  match existing, forceFromScreenshots with
  | Some _, false => ret tt
  | _, _ =>
      hourSummaries <-
        ReportStorage.QueryPeriodSummaries (contentStorage e) "hour"
          (segStart segment) (segEnd segment) ;;
      let workHourSummaries :=
        filter (fun s => IsWorkTime (WorkHours (config e)) (StartTime s))
          hourSummaries in
      if Aggregator.isEmpty workHourSummaries then ret tt
      else
        let summaryTexts :=
          filter (fun t => negb (t =? "")) (map Summary workHourSummaries) in
        let allScreenshotIDs := gatherIDs workHourSummaries in
        periodSummary <-
          match summaryTexts with
          | [] => ret ("No work activity in segment " ++ segKey segment)
          | [only] => ret only
          | _ =>
              let combined := Join summaryTexts (NL ++ NL) in
              res <-
                external (CallGenerateSummary combined "work-segment")
                  (GenerateSummary (analyzer e) combined "work-segment") ;;
              match res with
              | Err _ => ret combined
              | Ok generatedSummary => ret generatedSummary
              end
          end ;;
        let summary :=
          mkPeriodSummary (segKey segment) "work-segment"
            (segStart segment) (segEnd segment)
            (Join allScreenshotIDs ",") periodSummary "" in
        ReportStorage.SavePeriodSummary summary ;;;
        Aggregator.savePeriodSummaryReport e r summary ;;;
        ret tt
  end.

Fixpoint forEach {A} (f : A -> M unit) (l : list A) : M unit :=
  match l with
  | [] => ret tt
  | x :: l' => f x ;;; forEach f l'
  end.

Definition generateWorkSegmentSummary (e : Executor) (r : Run)
  (dayStart : Time) (forceFromScreenshots : bool) : M (result unit) :=
  forEach (generateSegment e r forceFromScreenshots)
    (segments e dayStart) ;;;
  ret (Ok tt).

End WorkSegment.

(** ** Batch observation analyzer *)

Module BatchAnalyzer.

(** [analysisResult]; [err] is [None] for Go's [nil]. *)
Record analysisResult : Type := mkAnalysisResult {
  record : ScreenshotRecord;
  analysis : string;
  err : option string
}.

(** What [analysisWorker] does for one job. *)
Definition analysisWorker (e : Executor) (job : ScreenshotRecord)
  : M analysisResult :=
  detected <-
    external (CallIsDesktopOrLockScreen (ImagePath job))
      (IsDesktopOrLockScreen (analyzer e) (ImagePath job)) ;;
  match detected with
  | Ok true => ret (mkAnalysisResult job "" None)
  | _ =>
      res <-
        external (CallAnalyzeScreenshot (ImagePath job))
          (AnalyzeScreenshot (analyzer e) (ImagePath job)) ;;
      match res with
      | Ok text => ret (mkAnalysisResult job text None)
      | Err msg => ret (mkAnalysisResult job "" (Some msg))
      end
  end.

Definition updateHourSummary (r : Run) (rec : ScreenshotRecord)
  : M (result unit) :=
  screenshots <- ReportStorage.GetScreenshotsByHourKey (HourKey rec) ;;
  let ids := map ID screenshots in
  let screenshotSummaries :=
    map SAnalysis
      (filter
         (fun s =>
            negb (SAnalysis s =? "")
            && negb (SAnalysis s =? "Analysis failed")
            && negb (isDesktopOrLockScreenAnalysis (SAnalysis s)))
         screenshots) in
  let hourSummary := Join screenshotSummaries NL in
  let hourSummary :=
    if hourSummary =? "" then
      "Captured " ++ itoa (Z.of_nat (length ids))
      ++ " screenshot(s) during this hour"
    else hourSummary in
  ReportStorage.UpdateHourSummary (rangeOrder r) (HourKey rec) ids
    hourSummary.

(** The body of the loop that collects the results. The report file that
    [saveReport] then writes for the screenshot is outside the tables and
    is not part of the state of the model. *)
Definition collectResult (r : Run) (res : analysisResult) : M unit :=
  match analysis res, err res with
  | EmptyString, None =>
      ReportStorage.UpdateScreenshotAnalysis (ID (record res)) ""
  | _, _ =>
      let text :=
        match err res with
        | Some msg => "Analysis failed: " ++ msg
        | None => analysis res
        end in
      let rec :=
        mkScreenshotRecord (ID (record res)) (Timestamp (record res))
          (ScreenID (record res)) (ImagePath (record res)) text
          (HourKey (record res)) in
      ReportStorage.UpdateScreenshotAnalysis (ID rec) text ;;;
      updateHourSummary r rec ;;;
      ret tt
  end.

Fixpoint mapM {A B} (f : A -> M B) (l : list A) : M (list B) :=
  match l with
  | [] => ret []
  | x :: l' => y <- f x ;; ys <- mapM f l' ;; ret (y :: ys)
  end.

(** [doBatchAnalyzeWithWorkers]: the workers answer every job, and the
    results are collected in the order [arrival] in which they reach the
    channel. *)
Definition doBatchAnalyzeWithWorkers (e : Executor) (r : Run)
  (arrival : list analysisResult -> list analysisResult)
  (records : list ScreenshotRecord) : M (result unit) :=
  results <- mapM (analysisWorker e) records ;;
  WorkSegment.forEach (collectResult r) (arrival results) ;;;
  ret (Ok tt).

End BatchAnalyzer.

(** ** Consistency check (internal/cmd/validate.go) *)

Module Validate.

Import GoTime.

(** [storage.BuildPeriodKeyFromStartTime] (report_parser.go) *)
Definition BuildPeriodKeyFromStartTime (startTime : Time)
  (periodType : string) : string :=
  if periodType =? "fifteenmin" then Format startTime "2006-01-02-15-04"
  else if periodType =? "hour" then Format startTime "2006-01-02-15"
  else if periodType =? "day" then Format startTime "2006-01-02"
  else if periodType =? "week" then
    let weekday := Aggregator.isoWeekday startTime in
    let monday := AddDate startTime 0 0 (- (weekday - 1)) in
    Format monday "2006-01-02" ++ "-week"
  else if periodType =? "month" then Format startTime "2006-01"
  else if periodType =? "quarter" then
    itoa (Year startTime) ++ "-Q" ++ itoa ((Month startTime - 1) / 3 + 1)%Z
  else if periodType =? "year" then Format startTime "2006"
  else "".

(** [FileSystemStorage.QueryPeriodSummaries], which lists the period
    summaries parsed from the report files of a type and range, is not
    among the sources: it is a parameter, a function of the report
    files. *)
Definition ContentQuery : Type :=
  list (string * string) -> string -> Time -> Time
  -> result (list PeriodSummary).

Record Flags : Type := mkFlags {
  validateFix : bool;
  validateVerbose : bool;
  validateRebuildDB : bool
}.

(** A Go [map[string]*PeriodSummary]: the keys in insertion order, an
    assignment to a key that exists replacing its value. *)
Fixpoint put (m : list (string * PeriodSummary)) (k : string)
  (v : PeriodSummary) : list (string * PeriodSummary) :=
  match m with
  | [] => [(k, v)]
  | (k', v') :: m' =>
      if k' =? k then (k, v) :: m' else (k', v') :: put m' k v
  end.

Definition toMap (summaries : list PeriodSummary)
  : list (string * PeriodSummary) :=
  fold_left (fun m s => put m (PeriodKey s) s) summaries [].

Definition hasKey (m : list (string * PeriodSummary)) (k : string) : bool :=
  existsb (fun kv => fst kv =? k) m.

Record Totals : Type := mkTotals {
  totalChecked : nat;
  totalIssues : nat;
  totalFixed : nat
}.

(** The body of the loop [for periodKey, fsSummary := range fsMap]. *)
Definition checkFile (flags : Flags) (periodType : string)
  (dbMap : list (string * PeriodSummary)) (t : Totals)
  (entry : string * PeriodSummary) : M Totals :=
  let '(periodKey, fsSummary) := entry in
  if hasKey dbMap periodKey then ret t
  else
    let t := mkTotals (S (totalChecked t)) (S (totalIssues t))
               (totalFixed t) in
    if validateFix flags || validateRebuildDB flags then
      let correctedKey :=
        BuildPeriodKeyFromStartTime (StartTime fsSummary) periodType in
      let fsSummary :=
        if negb (correctedKey =? "") && negb (correctedKey =? periodKey)
        then
          mkPeriodSummary correctedKey (PeriodType fsSummary)
            (StartTime fsSummary) (EndTime fsSummary)
            (Screenshots fsSummary) (Summary fsSummary)
            (Analysis fsSummary)
        else fsSummary in
      ReportStorage.SavePeriodSummary fsSummary ;;;
      ret (mkTotals (totalChecked t) (totalIssues t) (S (totalFixed t)))
    else ret t.

Fixpoint checkFiles (flags : Flags) (periodType : string)
  (dbMap : list (string * PeriodSummary)) (t : Totals)
  (entries : list (string * PeriodSummary)) : M Totals :=
  match entries with
  | [] => ret t
  | entry :: rest =>
      t' <- checkFile flags periodType dbMap t entry ;;
      checkFiles flags periodType dbMap t' rest
  end.

(** The loop [for periodKey, dbSummary := range dbMap], which counts the
    records whose file is missing. *)
Definition checkRecords (dbMap fsMap : list (string * PeriodSummary))
  (t : Totals) : Totals :=
  fold_left
    (fun t kv =>
       let missing :=
         negb (Summary (snd kv) =? PLACEHOLDER)
         && negb (hasKey fsMap (fst kv)) in
       mkTotals (S (totalChecked t))
         (if missing then S (totalIssues t) else totalIssues t)
         (totalFixed t))
    dbMap t.

(** The body of the loop [for _, periodType := range periodTypes] of
    [runValidate], once [--rebuild-db] has switched [validateFix] on.
    [order] is the order in which [range fsMap] visits the files. *)
Definition validateType (e : Executor) (fsQuery : ContentQuery)
  (order : list (string * PeriodSummary) -> list (string * PeriodSummary))
  (flags : Flags) (periodType : string) (startTime endTime : Time)
  (t : Totals) : M Totals :=
  queried <-
    (if validateRebuildDB flags then
       if ReportsPath (config e) =? "" then ret None
       else
         files <- gets reports ;;
         match fsQuery files periodType startTime endTime with
         | Err _ => ret None
         | Ok fsSummaries =>
             dbSummaries <-
               ReportStorage.QueryPeriodSummaries (contentStorage e)
                 periodType startTime endTime ;;
             ret (Some (dbSummaries, fsSummaries))
         end
     else
       dbSummaries <-
         ReportStorage.QueryPeriodSummaries (contentStorage e) periodType
           startTime endTime ;;
       fsSummaries <-
         ReportStorage.QueryPeriodSummaries (contentStorage e) periodType
           startTime endTime ;;
       ret (Some (dbSummaries, fsSummaries))) ;;
  match queried with
  | None => ret t
  | Some (dbSummaries, fsSummaries) =>
      let dbMap := toMap dbSummaries in
      let fsMap := toMap fsSummaries in
      let t := checkRecords dbMap fsMap t in
      checkFiles flags periodType dbMap t (order fsMap)
  end.

End Validate.

(** ** Notions used to state the properties *)

(** *** Concrete text *)

Module Residue.

Fixpoint count (p : ascii -> bool) (s : string) : nat :=
  match s with
  | EmptyString => 0
  | String c s' => (if p c then 1 else 0) + count p s'
  end.

(** Everything that [isInvalidSummary] can remove from a text: its
    no-activity patterns, the markup and punctuation it strips, and white
    space. *)
Definition removable : list string :=
  (invalidPatterns
   ++ [NL; CR; " "; "【"; "】"; "*"; "#"; "（"; "）"; "("; ")"; "。"; ".";
       "，"; ","]
   ++ spaceSeqs)%list.

Definition noActivityPhrase : string := "没有检测到有效工作活动".

(** A byte of an ASCII character, a continuation byte of UTF-8, and the
    first byte of a three-byte character. *)
Definition ascii7 (c : ascii) : bool := (nat_of_ascii c <? 128)%nat.

Definition continuation (c : ascii) : bool :=
  let n := nat_of_ascii c in ((128 <=? n) && (n <? 192))%nat.

Definition lead3 (c : ascii) : bool :=
  let n := nat_of_ascii c in ((224 <=? n) && (n <? 240))%nat.

(** [utf8.RuneCountInString] on valid UTF-8: the characters of a text are
    as many as its bytes that are not continuation bytes. *)
Definition characters (s : string) : nat :=
  count (fun c => negb (continuation c)) s.

(** A three-byte character without case: general punctuation (U+2000 to
    U+203F), CJK symbols and punctuation (U+3000 to U+303F), the
    ideographs and symbols of U+4000 to U+9FFF, and the full-width
    punctuation and digits of U+FF00 to U+FF20. *)
Definition caseless (c c1 c2 : ascii) : bool :=
  let n := nat_of_ascii c in
  let n1 := nat_of_ascii c1 in
  let n2 := nat_of_ascii c2 in
  (continuation c1 && continuation c2
   && (((228 <=? n) && (n <=? 233))
       || ((n =? 226) && (n1 =? 128))
       || ((n =? 227) && (n1 =? 128))
       || ((n =? 239) && (n1 =? 188) && (n2 <=? 160))))%nat.

(** Text in the alphabet on which [ToLower] is [strings.ToLower]: valid
    UTF-8 made of ASCII characters and of three-byte characters without
    case. Chinese and English prose with their punctuation are such
    text. *)
Fixpoint plain (s : string) : bool :=
  match s with
  | EmptyString => true
  | String c rest =>
      if ascii7 c then plain rest
      else
        match rest with
        | String c1 (String c2 rest') => caseless c c1 c2 && plain rest'
        | _ => false
        end
  end.

(** A character, given by its bytes, that occurs in nothing removable. *)
Definition kept (character : string) : bool :=
  negb (existsb (fun w => Contains w character) removable).

(** The text starts with a character of concrete description: an ASCII
    character or a three-byte character that, lower-cased, occurs in
    nothing that the classifier removes: letters, digits, ideographs and
    signs that are neither markup, punctuation or white space nor a
    character of a no-activity pattern. *)
Definition workAt (s : string) : bool :=
  match s with
  | EmptyString => false
  | String c rest =>
      if ascii7 c then kept (String (lowerByte c) "")
      else if lead3 c then
        match rest with
        | String c1 (String c2 _) =>
            continuation c1 && continuation c2
            && kept (String c (String c1 (String c2 "")))
        | _ => false
        end
      else false
  end.

(** The number of characters of concrete description in a text. *)
Fixpoint workCharacters (s : string) : nat :=
  match s with
  | EmptyString => 0
  | String c rest =>
      (if workAt (String c rest) then 1 else 0) + workCharacters rest
  end.

(** None of the first [k] bytes of the text starts a character of concrete
    description. *)
Fixpoint idleBytes (k : nat) (s : string) : bool :=
  match k, s with
  | S k', String c rest => negb (workAt (String c rest)) && idleBytes k' rest
  | _, _ => true
  end.

(** The text starts with a byte that starts a character. *)
Definition cleanStart (s : string) : bool :=
  match s with
  | EmptyString => false
  | String c _ => negb (continuation c)
  end.

Definition workDescriptionZh : string :=
  String.concat ""
    (repeat
       "在编辑器中修改解析器模块的代码并运行单元测试，随后提交了两处缺陷修复。"
       10).

Definition workDescriptionEn : string :=
  String.concat " "
    (repeat "Implemented the storage layer, fixed two parser bugs." 6).

End Residue.

Import Residue.

(** *** Tree levels *)

Module Levels.

(** Adjacent pairs, in list order. *)
Fixpoint pairUp (a : Analyzer) (timeContext : string) (l : list string)
  : list string :=
  match l with
  | x :: y :: l' =>
      mergeOrConcat (pairwiseMerge a timeContext) x y
      :: pairUp a timeContext l'
  | _ => l
  end.

(** The assignment that the collecting loop makes for one result. *)
Definition store (l : list string) (r : pairResult) : list string :=
  assign l (index r) (combined r).

(** The values [vals] under the indices [n], [n+1], ... *)
Definition listed (n : nat) (vals : list string) : list pairResult :=
  map (fun iv => mkPairResult (fst iv) (snd iv))
    (combine (seq n (length vals)) vals).

End Levels.

Import Levels.

(** *** Records with the same content *)

Module Agreement.

Import Aggregator.







(** Two stores that hold the same inputs of a period: the same screenshots
    and the same summaries of the lower level, in every range. *)
Definition sameInputs (e : Executor) (lowerLevelType : string)
  (w1 w2 : World) : Prop :=
  screenshots w1 = screenshots w2
  /\ (forall s t,
        fst (ReportStorage.QueryPeriodSummaries (contentStorage e)
               lowerLevelType s t w1)
        = fst (ReportStorage.QueryPeriodSummaries (contentStorage e)
                 lowerLevelType s t w2)).



Definition addCalls (w : World) (cs : list Call) : World :=
  mkWorld (screenshots w) (hour_summaries w) (period_summaries w)
    (reports w) (calls w ++ cs).

(** A computation that only makes external calls. *)
Definition callsOnly {A} (m : M A) : Prop :=
  exists a cs, forall w, m w = (a, addCalls w cs).

(** The sentence stored for an hour without any text. *)
Definition hourSentence (n : nat) : string :=
  "Captured " ++ itoa (Z.of_nat n) ++ " screenshot(s) during this hour".

End Agreement.

Import Agreement.

(** *** Hour buckets *)

Module Buckets.

Import Aggregator BatchAnalyzer.

(** The summary of an hour, from the screenshots of its bucket: the texts
    that are not empty, not marked as failed and not classified as desktop
    or lock screen, joined by newlines, or the sentence that counts the
    screenshots when there is no such text. *)
Definition hourRollup (bucket : list ScreenshotRecord) : string :=
  let texts := map SAnalysis (filter validScreenshot bucket) in
  if isEmpty texts then hourSentence (length bucket) else Join texts NL.

(** The screenshots of an hour, in timestamp order. *)
Definition bucketOf (hourKey : string) (w : World) : list ScreenshotRecord :=
  fst (ReportStorage.GetScreenshotsByHourKey hourKey w).

Definition hourSummaryOf (hourKey : string) (w : World) : option string :=
  option_map HSummary (fst (SQLite.GetHourSummary hourKey w)).

(** The stored summary of the hour is the roll-up of its bucket. *)
Definition rolled (hourKey : string) (w : World) : Prop :=
  hourSummaryOf hourKey w = Some (hourRollup (bucketOf hourKey w)).

(** What the worker sends for a job; it does not depend on the store. *)
Definition answer (e : Executor) (job : ScreenshotRecord) : analysisResult :=
  fst (analysisWorker e job (mkWorld [] [] [] [] [])).

(** [SET analysis = ? WHERE id = ?] on one row. *)
Definition setAnalysis (id text : string) (r : ScreenshotRecord)
  : ScreenshotRecord :=
  if ID r =? id
  then mkScreenshotRecord (ID r) (Timestamp r) (ScreenID r) (ImagePath r)
         text (HourKey r)
  else r.

(** A result without failure: the analysis did not fail, its text is not
    marked as a failure, and the hour key of the screenshot is one. *)
Definition wellAnalysed (res : analysisResult) : Prop :=
  err res = None
  /\ HasPrefix (analysis res) "Analysis failed" = false
  /\ SQLite.parseHourKey (HourKey (record res)) <> None.

Definition noFailureText (w : World) : Prop :=
  forall s,
    In s (screenshots w) -> HasPrefix (SAnalysis s) "Analysis failed" = false.

End Buckets.

Import Buckets.

(** *** Scenarios *)

(** Concrete stores, collaborators and runs, around the quarter of an hour
    that starts on Friday 2025-11-21 at 15:00:00. *)
Module Scenario.

Import Aggregator.

(** A summarizer that answers every request. *)
Definition echo : Analyzer :=
  mkAnalyzer
    (fun content periodType => Ok ("Summary of " ++ content))
    (fun previous new _ => Ok (previous ++ " + " ++ new))
    (fun summary => Ok ("Advice on " ++ summary))
    (fun _ => Ok false)
    (fun imagePath => Ok ("Editing code shown in " ++ imagePath)).

(** A summarizer that finds no work in what it is given. *)
Definition idle : Analyzer :=
  mkAnalyzer
    (fun _ _ => Ok noActivityPhrase)
    (fun _ _ _ => Ok noActivityPhrase)
    (fun _ => Ok "")
    (fun _ => Ok false)
    (fun _ => Ok "desktop wallpaper only").

(** A summarizer whose every request times out. *)
Definition down : Analyzer :=
  mkAnalyzer
    (fun _ _ => Err "timeout")
    (fun _ _ _ => Err "timeout")
    (fun _ => Err "timeout")
    (fun _ => Err "timeout")
    (fun _ => Err "timeout").

Definition allDay : WorkHoursConfig := mkWorkHours 0 0 0 0.
Definition office : WorkHoursConfig := mkWorkHours 9 30 20 0.

(** An executor on a plain SQLite store, with reports under [reports]. *)
Definition executor (a : Analyzer) (workHours : WorkHoursConfig)
  : Executor :=
  mkExecutor (mkConfig "reports" workHours 0 0 0) a (fun _ _ => None).

Definition t0 : Time := GoTime.Date 2025 11 21 15 0 0.

(** A run on 2025-11-22 at 08:00:00 whose nested generation calls do
    nothing; no scenario reaches them. *)
Definition run (order : list string -> list string) : Run :=
  mkRun (GoTime.Date 2025 11 22 8 0 0) order
    (fun _ _ _ _ _ => ret (Ok tt)) (fun _ _ _ _ => ret (Ok tt)).

Definition inOrder (l : list string) : list string := l.

Definition shotA : ScreenshotRecord :=
  mkScreenshotRecord "a" (t0 + 60)%Z 0 "a.png"
    "Editing the parser module in the editor" "2025-11-21-15".


Definition emptyWorld : World := mkWorld [] [] [] [] [].

Definition stalePath : string :=
  "reports/2025/Q4/11/W3/21/15/fifteenmin-00.md".

(** One analysed screenshot, and the report file of an earlier run. *)
Definition withStaleReport : World :=
  mkWorld [shotA] [] [] [(stalePath, "an earlier report")] [].

Definition placeholderQuarter : PeriodSummary :=
  placeholderFor "2025-11-21-15-00" "fifteenmin" t0 (t0 + 899)%Z.


(** An hour whose only quarter is a placeholder. *)
Definition onlyPlaceholderChild : World :=
  mkWorld [] [] [placeholderQuarter] [] [].

(** A screenshot that is not analysed yet. *)
Definition pending : ScreenshotRecord :=
  mkScreenshotRecord "a" (t0 + 60)%Z 0 "a.png" "" "2025-11-21-15".

Definition pendingWorld : World := mkWorld [pending] [] [] [] [].

(** A second screenshot of the same hour that is not analysed yet. *)
Definition pendingB : ScreenshotRecord :=
  mkScreenshotRecord "b" (t0 + 120)%Z 0 "b.png" "" "2025-11-21-15".

Definition twoPending : World := mkWorld [pending; pendingB] [] [] [] [].

(** A summarizer whose analysis of [a.png] times out. *)
Definition flaky : Analyzer :=
  mkAnalyzer
    (fun content periodType => Ok ("Summary of " ++ content))
    (fun previous new _ => Ok (previous ++ " + " ++ new))
    (fun summary => Ok ("Advice on " ++ summary))
    (fun _ => Ok false)
    (fun imagePath =>
       if imagePath =? "a.png" then Err "timeout"
       else Ok ("Editing code shown in " ++ imagePath)).


Definition arrivalOrder (l : list BatchAnalyzer.analysisResult)
  : list BatchAnalyzer.analysisResult := l.

Definition pairsInOrder : Arrival := fun l => l.

(** An hour summary that says there was no activity, with an id. *)
Definition invalidHour : PeriodSummary :=
  mkPeriodSummary "2025-11-21-10" "hour" (GoTime.Date 2025 11 21 10 0 0)
    (GoTime.Date 2025 11 21 10 59 59) "s1" noActivityPhrase "".

Definition invalidHourWorld : World := mkWorld [] [] [invalidHour] [] [].

Definition day : Time := GoTime.Date 2025 11 21 0 0 0.

(** A day report that is filed under 2025-11-20. *)
Definition dayPath : string := "reports/2025/Q4/11/W3/20/day.md".

(** The summary that the content store reads back from that file: its key
    follows the place of the file, and the start time recorded in the file
    is 2025-11-21 00:00:00. *)
Definition fileSummary : PeriodSummary :=
  mkPeriodSummary "2025-11-20" "day" day (GoTime.Date 2025 11 21 23 59 59)
    "" "Worked on the parser all day" "".

Definition hasFile (files : list (string * string)) : bool :=
  existsb (fun f => fst f =? dayPath) files.

Definition reader : ContentReader :=
  fun files key =>
    if hasFile files && (key =? "2025-11-20") then Some fileSummary
    else None.

Definition listing : Validate.ContentQuery :=
  fun files periodType _ _ =>
    Ok (if hasFile files && (periodType =? "day") then [fileSummary]
        else []).

(** A report file without a metadata record. *)
Definition orphanFile : World :=
  mkWorld [] [] [] [(dayPath, "the day report")] [].

Definition validator : Executor :=
  mkExecutor (mkConfig "reports" allDay 0 0 0) echo reader.

Definition fileOrder (l : list (string * PeriodSummary))
  : list (string * PeriodSummary) := l.

Definition fixOnly : Validate.Flags := Validate.mkFlags true true false.
Definition rebuild : Validate.Flags := Validate.mkFlags true true true.

Definition from2020 : Time := GoTime.Date 2020 1 1 0 0 0.
Definition to2025 : Time := GoTime.Date 2025 12 31 23 59 59.






(** The local variables of a run that collected one id and no text. *)
Definition nothingToSay : Vars := mkVars "" "" ["a"] ["a"] "".

End Scenario.

Import Scenario.


(** * Properties *)

(** ** Text classification *)

(** The classifier only removes markup, punctuation, white space and its own
    patterns. Each of these starts with the first byte of a character and is
    made of characters that [workCharacters] does not count, so the count
    does not go down in any of its steps. *)

Lemma count_le_length (p : ascii -> bool) (s : string) :
  count p s <= String.length s.
Proof. induction s as [|c s IH]; simpl; [lia|destruct (p c); lia]. Qed.

Lemma workCharacters_le_length (s : string) :
  workCharacters s <= String.length s.
Proof.
  induction s as [|c s IH]; [apply Nat.le_refl|].
  cbn [workCharacters String.length].
  destruct (workAt (String c s)); lia.
Qed.

Lemma workCharacters_app_ge (a s : string) :
  workCharacters s <= workCharacters (a ++ s).
Proof.
  induction a as [|c a IH]; [apply Nat.le_refl|].
  cbn [String.append workCharacters]. lia.
Qed.

Lemma append_nil_r (s : string) : s ++ "" = s.
Proof. induction s as [|c s IH]; [reflexivity|]. cbn. rewrite IH. reflexivity. Qed.

Lemma append_assoc (a b c : string) : (a ++ b) ++ c = a ++ (b ++ c).
Proof. induction a as [|x a IH]; [reflexivity|]. cbn. rewrite IH. reflexivity. Qed.

Lemma length_append (a b : string) :
  String.length (a ++ b) = String.length a + String.length b.
Proof. induction a as [|x a IH]; [reflexivity|]. cbn. rewrite IH. reflexivity. Qed.

Lemma concat_cons (w : string) (ws : list string) :
  String.concat "" (w :: ws) = w ++ String.concat "" ws.
Proof.
  destruct ws as [|w' ws]; cbn [String.concat];
    [symmetry; apply append_nil_r|reflexivity].
Qed.

Lemma prefix_app (a s : string) :
  String.prefix a s = true -> exists rest, s = a ++ rest.
Proof.
  revert s; induction a as [|c a IH]; intros s H.
  - exists s; reflexivity.
  - destruct s as [|d s]; simpl in H; [discriminate|].
    destruct (ascii_dec c d) as [->|]; [|discriminate].
    destruct (IH s H) as [rest ->]. exists rest; reflexivity.
Qed.

Lemma prefix_continuation (old : string) (c : ascii) (s : string) :
  cleanStart old = true -> continuation c = true ->
  String.prefix old (String c s) = false.
Proof.
  destruct old as [|o old]; [discriminate|]. cbn [cleanStart String.prefix].
  intros Ho Hc. destruct (ascii_dec o c) as [->|]; [|reflexivity].
  rewrite Hc in Ho; discriminate.
Qed.

(** A character of concrete description stays one when what follows it
    keeps its first two bytes. *)
Lemma workAt_two (c : ascii) (s t : string) :
  workAt (String c s) = true ->
  (forall c1 c2 s', s = String c1 (String c2 s') ->
     continuation c1 = true -> continuation c2 = true ->
     exists t', t = String c1 (String c2 t')) ->
  workAt (String c t) = true.
Proof.
  cbn [workAt]. destruct (ascii7 c); [intros H _; exact H|].
  destruct (lead3 c); [|discriminate].
  destruct s as [|c1 [|c2 s']]; try discriminate.
  intros H Ht. apply andb_prop in H as [H Hk]. apply andb_prop in H as [H1 H2].
  destruct (Ht c1 c2 s' eq_refl H1 H2) as [t' ->].
  rewrite H1, H2, Hk. reflexivity.
Qed.

Lemma replaceFrom_continuation (old new : string) (c : ascii) (s : string) :
  cleanStart old = true -> continuation c = true ->
  replaceFrom old new 0 (String c s)
  = String c (replaceFrom old new 0 s).
Proof.
  intros Ho Hc. cbn [replaceFrom].
  rewrite (prefix_continuation old c s Ho Hc). reflexivity.
Qed.

Lemma replaceFrom_work (old new : string) :
  cleanStart old = true ->
  (forall rest, idleBytes (String.length old) (old ++ rest) = true) ->
  forall s skip, idleBytes skip s = true ->
    workCharacters s <= workCharacters (replaceFrom old new skip s).
Proof.
  intros Hstart Hidle s; induction s as [|c s IH]; intros skip Hskip.
  - apply Nat.le_refl.
  - destruct skip as [|k].
    + cbn [replaceFrom].
      destruct (String.prefix old (String c s)) eqn:Hp.
      * destruct (prefix_app _ _ Hp) as [rest Hrest].
        pose proof (Hidle rest) as Hi. rewrite <- Hrest in Hi.
        destruct old as [|o old']; [discriminate|].
        cbn [String.length idleBytes] in Hi.
        apply andb_prop in Hi as [Hc Hk].
        replace (String.length (String o old') - 1)
          with (String.length old') by (cbn [String.length]; lia).
        cbn [workCharacters].
        destruct (workAt (String c s)); [discriminate|].
        eapply Nat.le_trans; [apply (IH _ Hk)|].
        apply workCharacters_app_ge.
      * cbn [workCharacters].
        pose proof (IH 0 eq_refl) as Hle.
        destruct (workAt (String c s)) eqn:Hw; [|lia].
        rewrite (workAt_two c s (replaceFrom old new 0 s) Hw); [lia|].
        intros c1 c2 s' -> H1 H2.
        rewrite (replaceFrom_continuation old new c1 _ Hstart H1).
        rewrite (replaceFrom_continuation old new c2 _ Hstart H2).
        eexists; reflexivity.
    + cbn [idleBytes] in Hskip. apply andb_prop in Hskip as [Hc Hk].
      cbn [replaceFrom workCharacters].
      destruct (workAt (String c s)); [discriminate|].
      apply (IH _ Hk).
Qed.

Lemma ReplaceAll_work (s old new : string) :
  cleanStart old = true ->
  (forall rest, idleBytes (String.length old) (old ++ rest) = true) ->
  workCharacters s <= workCharacters (ReplaceAll s old new).
Proof.
  intros Hstart Hidle. unfold ReplaceAll.
  destruct old as [|o old']; [discriminate|].
  apply replaceFrom_work; [assumption|assumption|reflexivity].
Qed.

(** What is idle at the start of a text does not count. *)
Lemma idleBytes_app (w rest : string) :
  idleBytes (String.length w) (w ++ rest) = true ->
  workCharacters (w ++ rest) = workCharacters rest.
Proof.
  induction w as [|c w IH]; [reflexivity|].
  cbn [String.length String.append idleBytes workCharacters].
  intros H. apply andb_prop in H as [Hc Hk].
  destruct (workAt _); [discriminate|]. apply IH, Hk.
Qed.

(** What follows a text does not change its count when it starts with the
    first byte of a character. *)
Lemma workCharacters_app (a b : string) :
  b = "" \/ cleanStart b = true ->
  workCharacters (a ++ b) = workCharacters a + workCharacters b.
Proof.
  intros Hb. induction a as [|c a IH]; [reflexivity|].
  cbn [String.append workCharacters]. rewrite IH.
  assert (Hw : workAt (String c (a ++ b)) = workAt (String c a));
    [|rewrite Hw; lia].
  cbn [workAt]. destruct (ascii7 c); [reflexivity|].
  destruct (lead3 c); [|reflexivity].
  destruct a as [|c1 [|c2 a]]; cbn [String.append]; try reflexivity.
  - destruct b as [|b1 [|b2 b]]; try reflexivity.
    destruct Hb as [Hb|Hb]; [discriminate|]. cbn [cleanStart] in Hb.
    apply negb_true_iff in Hb. rewrite Hb. reflexivity.
  - destruct b as [|b1 b]; [reflexivity|].
    destruct Hb as [Hb|Hb]; [discriminate|]. cbn [cleanStart] in Hb.
    apply negb_true_iff in Hb. rewrite Hb, andb_false_r. reflexivity.
Qed.

(** *** Trimming *)

Lemma leading_app (seqs : list string) (s : string) (k : nat) :
  leading seqs s = S k ->
  exists w rest, In w seqs /\ s = w ++ rest /\ String.length w = S k.
Proof.
  induction seqs as [|w seqs IH]; cbn [leading]; [discriminate|].
  destruct (String.prefix w s) eqn:Hp; intros H.
  - destruct (prefix_app _ _ Hp) as [rest ->].
    exists w, rest. split; [left; reflexivity|]. split; auto.
  - destruct (IH H) as (w' & rest & Hin & Hs & Hl).
    exists w', rest. split; [right|]; auto.
Qed.

Lemma trimLeftFrom_skip (seqs : list string) (a rest : string) :
  trimLeftFrom seqs (String.length a) (a ++ rest)
  = trimLeftFrom seqs 0 rest.
Proof.
  induction a as [|c a IH]; [destruct rest; reflexivity|].
  cbn [String.length String.append trimLeftFrom]. exact IH.
Qed.

(** One step of the trim: nothing is removed, or one sequence is. *)
Lemma trimLeftFrom_step (seqs : list string) (s : string) :
  trimLeftFrom seqs 0 s = s
  \/ exists w rest,
       In w seqs /\ w <> "" /\ s = w ++ rest
       /\ trimLeftFrom seqs 0 s = trimLeftFrom seqs 0 rest.
Proof.
  destruct s as [|c s]; [left; reflexivity|].
  cbn [trimLeftFrom].
  destruct (leading seqs (String c s)) as [|k] eqn:Hl; [left; reflexivity|].
  right. destruct (leading_app _ _ _ Hl) as (w & rest & Hin & Hs & Hlen).
  exists w, rest. split; [assumption|].
  destruct w as [|d w]; [discriminate|]. split; [discriminate|].
  split; [assumption|].
  cbn [String.append] in Hs. injection Hs as -> ->.
  cbn [String.length] in Hlen. injection Hlen as <-.
  apply trimLeftFrom_skip.
Qed.

(** The trim removes a row of sequences from the start of the text. *)
Lemma trimLeftFrom_removed (seqs : list string) (s : string) :
  exists ws,
    Forall (fun w => In w seqs) ws
    /\ s = String.concat "" ws ++ trimLeftFrom seqs 0 s.
Proof.
  remember (String.length s) as n eqn:Hn.
  assert (Hle : String.length s <= n) by lia. clear Hn.
  revert s Hle. induction n as [|n IH]; intros s Hle.
  - destruct s; [|cbn in Hle; lia]. exists []. split; [constructor|].
    reflexivity.
  - destruct (trimLeftFrom_step seqs s)
      as [Hsame|(w & rest & Hin & Hne & -> & Hstep)].
    + exists []. split; [constructor|]. rewrite Hsame. reflexivity.
    + destruct (IH rest) as (ws & Hall & Hrest).
      { rewrite length_append in Hle.
        destruct w; [congruence|]. cbn [String.length] in Hle. lia. }
      exists (w :: ws). split; [constructor; assumption|].
      rewrite Hstep.
      rewrite concat_cons, append_assoc, <- Hrest. reflexivity.
Qed.

Lemma revString_app (acc s : string) :
  revString acc s = revString "" s ++ acc.
Proof.
  revert acc; induction s as [|c s IH]; intros acc; [reflexivity|].
  cbn [revString]. rewrite IH, (IH (String c "")).
  rewrite append_assoc. reflexivity.
Qed.

Lemma rev_cons (c : ascii) (s : string) : rev (String c s) = rev s ++ String c "".
Proof. unfold rev. cbn [revString]. apply revString_app. Qed.

Lemma rev_app (a b : string) : rev (a ++ b) = rev b ++ rev a.
Proof.
  induction a as [|c a IH]; cbn [String.append].
  - symmetry. apply append_nil_r.
  - rewrite !rev_cons, IH, <- append_assoc. reflexivity.
Qed.

Lemma rev_rev (s : string) : rev (rev s) = s.
Proof.
  induction s as [|c s IH]; [reflexivity|].
  rewrite rev_cons, rev_app, IH. reflexivity.
Qed.

Section Spaces.

Variable seqs : list string.

Hypothesis seqs_start : forall w, In w seqs -> cleanStart w = true.
Hypothesis seqs_idle :
  forall w, In w seqs ->
    forall rest, idleBytes (String.length w) (w ++ rest) = true.

Lemma concat_idle (ws : list string) (rest : string) :
  Forall (fun w => In w seqs) ws ->
  workCharacters (String.concat "" ws ++ rest) = workCharacters rest.
Proof.
  induction 1 as [|w ws Hin Hall IH]; [reflexivity|].
  rewrite concat_cons, append_assoc.
  rewrite (idleBytes_app _ _ (seqs_idle w Hin _)). exact IH.
Qed.

Lemma trimLeft_work (s : string) :
  workCharacters (trimLeftFrom seqs 0 s) = workCharacters s.
Proof.
  destruct (trimLeftFrom_removed seqs s) as (ws & Hall & Hs).
  rewrite Hs at 2. symmetry. apply concat_idle, Hall.
Qed.

(** A row of sequences, written from the right, is empty or starts with
    the first byte of a character, and counts nothing. *)
Lemma rev_concat (rws : list string) :
  Forall (fun w => In w (map rev seqs)) rws ->
  let tail := rev (String.concat "" rws) in
  (tail = "" \/ cleanStart tail = true) /\ workCharacters tail = 0.
Proof.
  induction 1 as [|rw rws Hin Hall IH]; [split; [left|]; reflexivity|].
  cbv zeta in *.
  rewrite concat_cons, rev_app.
  apply in_map_iff in Hin as (w & <- & Hin). rewrite rev_rev.
  destruct IH as [Hstart Hzero].
  pose proof (seqs_start w Hin) as Hw.
  pose proof (idleBytes_app _ _ (seqs_idle w Hin "")) as Hidle.
  rewrite append_nil_r in Hidle. cbn [workCharacters] in Hidle.
  split.
  - right. destruct (rev (String.concat "" rws)) as [|c t]; [exact Hw|].
    destruct Hstart as [Hstart|Hstart]; [discriminate|exact Hstart].
  - rewrite workCharacters_app by (right; exact Hw). lia.
Qed.

Lemma trimRight_work (s : string) :
  workCharacters (rev (trimLeftFrom (map rev seqs) 0 (rev s)))
  = workCharacters s.
Proof.
  destruct (trimLeftFrom_removed (map rev seqs) (rev s))
    as (rws & Hall & Hs).
  destruct (rev_concat rws Hall) as [Hstart Hzero].
  apply (f_equal rev) in Hs. rewrite rev_rev, rev_app in Hs.
  rewrite Hs at 2. rewrite workCharacters_app by exact Hstart. lia.
Qed.

End Spaces.

Ltac idle_literal := intros rest; vm_compute; reflexivity.

Lemma spaces_start (w : string) : In w spaceSeqs -> cleanStart w = true.
Proof.
  cbn [spaceSeqs]. intros H.
  repeat (destruct H as [<-|H]; [vm_compute; reflexivity|]). destruct H.
Qed.

Lemma spaces_idle (w : string) :
  In w spaceSeqs ->
  forall rest, idleBytes (String.length w) (w ++ rest) = true.
Proof.
  cbn [spaceSeqs]. intros H.
  repeat (destruct H as [<-|H]; [idle_literal|]). destruct H.
Qed.

Lemma patterns_start (pattern : string) :
  In pattern invalidPatterns -> cleanStart (ToLower pattern) = true.
Proof.
  cbn [invalidPatterns]. intros H.
  repeat (destruct H as [<-|H]; [vm_compute; reflexivity|]). destruct H.
Qed.

Lemma patterns_idle (pattern : string) :
  In pattern invalidPatterns ->
  forall rest,
    idleBytes (String.length (ToLower pattern)) (ToLower pattern ++ rest)
    = true.
Proof.
  cbn [invalidPatterns]. intros H.
  repeat (destruct H as [<-|H]; [idle_literal|]). destruct H.
Qed.

Lemma TrimSpace_work (s : string) :
  workCharacters (TrimSpace s) = workCharacters s.
Proof.
  unfold TrimSpace, TrimRightSpace, TrimLeftSpace.
  rewrite (trimRight_work spaceSeqs spaces_start spaces_idle).
  apply (trimLeft_work spaceSeqs spaces_idle).
Qed.

Ltac replace_step :=
  match goal with
  | |- _ <= workCharacters (ReplaceAll ?s ?old ?new) =>
      apply Nat.le_trans with (workCharacters s);
      [|apply ReplaceAll_work; [vm_compute; reflexivity|idle_literal]]
  end.

Lemma stripMarkup_work (s : string) :
  workCharacters s <= workCharacters (stripMarkup s).
Proof.
  unfold stripMarkup. rewrite TrimSpace_work.
  repeat replace_step. apply Nat.le_refl.
Qed.

Lemma stripPunctuation_work (s : string) :
  workCharacters s <= workCharacters (stripPunctuation s).
Proof.
  unfold stripPunctuation. rewrite TrimSpace_work.
  repeat replace_step. apply Nat.le_refl.
Qed.

(** *** Lower case *)

Lemma lowerByte_ascii7 (c : ascii) : ascii7 (lowerByte c) = ascii7 c.
Proof. destruct c as [[] [] [] [] [] [] [] []]; reflexivity. Qed.

Lemma lowerByte_twice (c : ascii) : lowerByte (lowerByte c) = lowerByte c.
Proof. destruct c as [[] [] [] [] [] [] [] []]; reflexivity. Qed.

Lemma lowerByte_other (c : ascii) : ascii7 c = false -> lowerByte c = c.
Proof.
  destruct c as [[] [] [] [] [] [] [] []]; intros H;
    solve [reflexivity | discriminate H].
Qed.

Lemma continuation_other (c : ascii) :
  continuation c = true -> ascii7 c = false.
Proof.
  destruct c as [[] [] [] [] [] [] [] []]; intros H;
    solve [reflexivity | discriminate H].
Qed.

Lemma lowerByte_continuation (c : ascii) :
  continuation (lowerByte c) = continuation c.
Proof. destruct c as [[] [] [] [] [] [] [] []]; reflexivity. Qed.

Lemma workAt_ToLower (s : string) : workAt (ToLower s) = workAt s.
Proof.
  destruct s as [|c s]; [reflexivity|]. cbn [ToLower workAt].
  rewrite lowerByte_ascii7, lowerByte_twice.
  destruct (ascii7 c) eqn:Hc; [reflexivity|].
  rewrite (lowerByte_other c Hc).
  destruct (lead3 c); [|reflexivity].
  destruct s as [|c1 [|c2 s]]; try reflexivity. cbn [ToLower].
  rewrite !lowerByte_continuation.
  destruct (continuation c1) eqn:H1; [|reflexivity].
  destruct (continuation c2) eqn:H2; [|reflexivity].
  rewrite (lowerByte_other c1 (continuation_other c1 H1)).
  rewrite (lowerByte_other c2 (continuation_other c2 H2)).
  reflexivity.
Qed.

Lemma ToLower_work (s : string) :
  workCharacters (ToLower s) = workCharacters s.
Proof.
  induction s as [|c s IH]; [reflexivity|].
  change (ToLower (String c s)) with (String (lowerByte c) (ToLower s)).
  cbn [workCharacters]. rewrite IH.
  change (String (lowerByte c) (ToLower s)) with (ToLower (String c s)).
  rewrite workAt_ToLower. reflexivity.
Qed.

(** *** The classifier *)

Lemma invalidRemaining_work (summary pattern : string) :
  In pattern invalidPatterns ->
  workCharacters summary <= workCharacters (invalidRemaining summary pattern).
Proof.
  intros Hin. unfold invalidRemaining.
  eapply Nat.le_trans; [|apply stripPunctuation_work].
  eapply Nat.le_trans;
    [|apply ReplaceAll_work;
      [apply patterns_start, Hin|apply patterns_idle, Hin]].
  eapply Nat.le_trans; [|apply stripMarkup_work].
  rewrite ToLower_work. apply Nat.le_refl.
Qed.

(** A text with fifty characters of concrete description is not classified
    invalid, whatever else it holds. *)
Lemma isInvalidSummary_work_text (summary : string) :
  50 <= workCharacters summary -> isInvalidSummary summary = false.
Proof.
  intros Hwork. unfold isInvalidSummary.
  destruct (summary =? "") eqn:He.
  { apply String.eqb_eq in He; subst; simpl in Hwork; lia. }
  destruct (summary =? PLACEHOLDER) eqn:Hp.
  { apply String.eqb_eq in Hp; subst.
    assert (workCharacters PLACEHOLDER <= 32)
      by (change 32 with (String.length PLACEHOLDER);
          apply workCharacters_le_length).
    lia. }
  apply not_true_is_false. intros Hex.
  apply existsb_exists in Hex as (pattern & Hin & Hok).
  apply andb_prop in Hok as [_ Hlen]. apply Nat.ltb_lt in Hlen.
  pose proof (invalidRemaining_work summary pattern Hin) as Hc.
  pose proof (workCharacters_le_length (invalidRemaining summary pattern)).
  unfold len in Hlen. lia.
Qed.

(** C8: on the phrase [noActivityPhrase] alone [isInvalidSummary] answers
    true and [hasValidWorkActivity] answers false; and when the phrase comes
    after a work description of 300 or more characters, [isInvalidSummary]
    answers false. A work description is text in Chinese or English (ASCII
    and the Chinese characters and punctuation, [plain]); it is concrete
    when fifty of its characters are none of the white space, markup and
    punctuation that the classifier strips and none of the characters of
    its no-activity patterns. *)
Theorem classifier_boundary :
  isInvalidSummary noActivityPhrase = true
  /\ hasValidWorkActivity noActivityPhrase = false
  /\ (forall workDescription : string,
        plain workDescription = true ->
        300 <= characters workDescription ->
        50 <= workCharacters workDescription ->
        isInvalidSummary (workDescription ++ noActivityPhrase) = false).
Proof.
  split; [vm_compute; reflexivity|].
  split; [vm_compute; reflexivity|].
  intros workDescription _ _ Hwork. apply isInvalidSummary_work_text.
  eapply Nat.le_trans; [exact Hwork|].
  rewrite workCharacters_app by (right; reflexivity). lia.
Qed.

Lemma classifier_boundary_witness :
  plain workDescriptionZh = true
  /\ 300 <= characters workDescriptionZh
  /\ 50 <= workCharacters workDescriptionZh
  /\ isInvalidSummary (workDescriptionZh ++ noActivityPhrase) = false.
Proof.
  assert (Hplain : plain workDescriptionZh = true)
    by (vm_compute; reflexivity).
  assert (Hlong : 300 <= characters workDescriptionZh)
    by (apply Nat.leb_le; vm_compute; reflexivity).
  assert (Hwork : 50 <= workCharacters workDescriptionZh)
    by (apply Nat.leb_le; vm_compute; reflexivity).
  split; [exact Hplain|]. split; [exact Hlong|]. split; [exact Hwork|].
  exact (proj2 (proj2 classifier_boundary) workDescriptionZh Hplain Hlong
           Hwork).
Defined.

(** An English description of 323 characters, 264 of them concrete. *)
Example english_work_description :
  plain workDescriptionEn = true
  /\ characters workDescriptionEn = 323
  /\ workCharacters workDescriptionEn = 264
  /\ isInvalidSummary (workDescriptionEn ++ noActivityPhrase) = false.
Proof. repeat split; vm_compute; reflexivity. Qed.

(** ** Text merging *)

Section Tree.

Variable a : Analyzer.
Variable timeContext : string.


Lemma pair_induction (P : list string -> Prop) :
  P [] -> (forall x, P [x]) ->
  (forall x y l, P l -> P (x :: y :: l)) -> forall l, P l.
Proof.
  intros H0 H1 H2.
  assert (H : forall l, P l /\ forall x, P (x :: l)).
  { induction l as [|y l [IH1 IH2]]; split; auto. }
  intros l; apply H.
Qed.

Lemma pairUp_length (l : list string) :
  length (pairUp a timeContext l) = (length l + 1) / 2.
Proof.
  induction l as [| x | x y l IH] using pair_induction; try reflexivity.
  cbn [pairUp length]. rewrite IH.
  replace (S (S (length l)) + 1) with ((length l + 1) + 1 * 2) by lia.
  rewrite Nat.div_add by lia. lia.
Qed.

Lemma pairUp_level (l : list string) :
  pairUp a timeContext l = treeLevelSpec (pairwiseMerge a timeContext) l.
Proof.
  induction l as [| x | x y l IH] using pair_induction; try reflexivity.
  cbn [pairUp]. rewrite IH. unfold treeLevelSpec.
  cbn [length].
  replace ((S (S (length l)) + 1) / 2) with (S ((length l + 1) / 2)).
  2:{ replace (S (S (length l)) + 1) with ((length l + 1) + 1 * 2) by lia.
      rewrite Nat.div_add by lia. lia. }
  cbn [seq map]. f_equal.
  rewrite <- seq_shift, map_map. apply map_ext. intros i.
  replace (2 * S i + 1) with (S (S (2 * i + 1))) by lia.
  replace (2 * S i) with (S (S (2 * i))) by lia.
  reflexivity.
Qed.

(** The results of a level carry the pairs of [pairUp] under the indices
    [j], [j+1], ... when the loop index starts at [2j]. *)
Lemma levelPairs_results (l : list string) (j : nat) :
  fst (levelPairs a timeContext (2 * j) l)
  = map (fun iv => mkPairResult (fst iv) (snd iv))
      (combine (seq j (length (pairUp a timeContext l)))
         (pairUp a timeContext l)).
Proof.
  revert j. induction l as [| x | x y l IH] using pair_induction; intros j.
  - reflexivity.
  - cbn [levelPairs fst pairUp length seq combine map snd].
    rewrite (Nat.mul_comm 2 j), Nat.div_mul by lia. reflexivity.
  - cbn [levelPairs].
    replace (2 * j + 2) with (2 * S j) by lia.
    specialize (IH (S j)).
    destruct (levelPairs a timeContext (2 * S j) l) as [rs cs].
    cbn [fst] in *. rewrite IH. cbn [pairUp length seq combine map fst snd].
    rewrite (Nat.mul_comm 2 j), Nat.div_mul by lia. reflexivity.
Qed.

End Tree.

Section Collect.

Lemma assign_length (l : list string) (i : nat) (v : string) :
  length (assign l i v) = length l.
Proof.
  revert i; induction l as [|h t IH]; intros [|i]; simpl; auto.
Qed.

Lemma assign_nth_error (l : list string) (i k : nat) (v : string) :
  i < length l ->
  nth_error (assign l i v) k
  = if Nat.eqb k i then Some v else nth_error l k.
Proof.
  revert i k; induction l as [|h t IH]; intros [|i] [|k] Hi; simpl in *;
    try lia; try reflexivity.
  apply IH; lia.
Qed.

Lemma fold_store_length (rs : list pairResult) (init : list string) :
  length (fold_left store rs init) = length init.
Proof.
  revert init; induction rs as [|r rs IH]; intros init; simpl; auto.
  rewrite IH. apply assign_length.
Qed.

Lemma fold_store_nth_error (rs : list pairResult) (init : list string)
  (k : nat) :
  (forall r, In r rs -> index r < length init) ->
  NoDup (map index rs) ->
  nth_error (fold_left store rs init) k
  = match find (fun r => Nat.eqb (index r) k) rs with
    | Some r => Some (combined r)
    | None => nth_error init k
    end.
Proof.
  revert init; induction rs as [|r rs IH]; intros init Hb Hnd;
    [reflexivity|].
  cbn [fold_left find]. inversion Hnd as [|? ? Hnotin Hnd']; subst.
  rewrite IH; auto.
  2:{ intros r' Hin. unfold store. rewrite assign_length.
      apply Hb; right; assumption. }
  unfold store at 1. rewrite assign_nth_error by (apply Hb; left; auto).
  rewrite (Nat.eqb_sym k).
  destruct (Nat.eqb (index r) k) eqn:Hk.
  - apply Nat.eqb_eq in Hk.
    destruct (find _ rs) as [r'|] eqn:Hf; [|reflexivity].
    apply find_some in Hf as [Hin Heq]. apply Nat.eqb_eq in Heq.
    exfalso. apply Hnotin. rewrite Hk, <- Heq. apply in_map; assumption.
  - reflexivity.
Qed.

Lemma listed_index (vals : list string) (n : nat) :
  map index (listed n vals) = seq n (length vals).
Proof.
  revert n; induction vals as [|v vals IH]; intros n; [reflexivity|].
  unfold listed in *. cbn [length seq combine map index fst].
  f_equal. apply IH.
Qed.

Lemma listed_value (vals : list string) (n i : nat) (v : string) :
  In (mkPairResult i v) (listed n vals) ->
  n <= i /\ nth_error vals (i - n) = Some v.
Proof.
  revert n; induction vals as [|x vals IH]; intros n Hin; [destruct Hin|].
  unfold listed in *. cbn [length seq combine map fst snd] in Hin.
  destruct Hin as [Heq|Hin].
  - injection Heq as <- <-. rewrite Nat.sub_diag. split; [lia|reflexivity].
  - apply IH in Hin as [Hle Hv]. split; [lia|].
    replace (i - n) with (S (i - S n)) by lia. exact Hv.
Qed.

(** Whatever the order of arrival, the values land at their indices. *)
Lemma collect_indexed (vals : list string) (arrived : list pairResult) :
  Permutation arrived (listed 0 vals) ->
  collect (length vals) arrived = vals.
Proof.
  intros Hperm. unfold collect. fold store.
  pose proof (listed_index vals 0) as Hidx.
  assert (Hnd : NoDup (map index arrived)).
  { apply (Permutation_NoDup (l := map index (listed 0 vals))).
    - apply Permutation_map, Permutation_sym; assumption.
    - rewrite Hidx. apply seq_NoDup. }
  assert (Hb : forall r, In r arrived ->
                         index r < length (repeat ""%string (length vals))).
  { intros r Hin. rewrite repeat_length.
    assert (Hin' : In (index r) (map index (listed 0 vals))).
    { apply in_map. apply (Permutation_in _ Hperm); assumption. }
    rewrite Hidx in Hin'. apply in_seq in Hin'. lia. }
  apply nth_error_ext. intros k.
  rewrite fold_store_nth_error by assumption.
  destruct (find _ arrived) as [r|] eqn:Hf.
  - apply find_some in Hf as [Hin Hk]. apply Nat.eqb_eq in Hk.
    apply (Permutation_in _ Hperm) in Hin. destruct r as [i v].
    apply listed_value in Hin as [_ Hv]. cbn in Hk |- *. subst k.
    rewrite Nat.sub_0_r in Hv. congruence.
  - destruct (nth_error vals k) as [v|] eqn:Hv.
    + exfalso.
      assert (Hk : k < length vals) by (apply nth_error_Some; congruence).
      assert (Hin : In k (map index arrived)).
      { apply (Permutation_in (l := map index (listed 0 vals))).
        - apply Permutation_map, Permutation_sym; assumption.
        - rewrite Hidx. apply in_seq; lia. }
      apply in_map_iff in Hin as (r & Hr & Hin).
      apply (find_none _ _ Hf) in Hin. rewrite Hr, Nat.eqb_refl in Hin.
      discriminate.
    + apply nth_error_None in Hv.
      apply nth_error_None. rewrite repeat_length. assumption.
Qed.

End Collect.

Section TreeLevel.

Variable a : Analyzer.
Variable arrival : Arrival.
Variable timeContext : string.
Hypothesis arrival_perm : forall l, Permutation (arrival l) l.


Lemma treeLevel_spec (currentLevel : list string) :
  fst (treeLevel a arrival timeContext currentLevel)
  = treeLevelSpec (pairwiseMerge a timeContext) currentLevel.
Proof.
  unfold treeLevel.
  pose proof (levelPairs_results a timeContext currentLevel 0) as Hr.
  change (2 * 0) with 0 in Hr.
  destruct (levelPairs a timeContext 0 currentLevel) as [results cs].
  cbn [fst] in *. rewrite <- pairUp_level.
  rewrite <- (pairUp_length a timeContext).
  apply collect_indexed. rewrite Hr. apply arrival_perm.
Qed.

Lemma treeLevelSpec_length (l : list string) :
  length (treeLevelSpec (pairwiseMerge a timeContext) l) = (length l + 1) / 2.
Proof. unfold treeLevelSpec. rewrite length_map, length_seq. reflexivity. Qed.

Lemma treeLevelSpec_short (l : list string) :
  length l <= 1 -> treeLevelSpec (pairwiseMerge a timeContext) l = l.
Proof. destruct l as [|x [|y l]]; simpl; intros; try reflexivity; lia. Qed.

Lemma treeLoop_iter (fuel : nat) (l : list string) :
  fst (treeLoop a arrival timeContext fuel l)
  = Nat.iter fuel (treeLevelSpec (pairwiseMerge a timeContext)) l.
Proof.
  revert l; induction fuel as [|fuel IH]; intros l; [reflexivity|].
  cbn [treeLoop]. rewrite Nat.iter_succ_r.
  destruct (1 <? length l)%nat eqn:Hlen.
  - pose proof (treeLevel_spec l) as Hl.
    destruct (treeLevel a arrival timeContext l) as [next cs].
    specialize (IH next).
    destruct (treeLoop a arrival timeContext fuel next) as [final cs'].
    cbn [fst] in *. rewrite IH, Hl. reflexivity.
  - apply Nat.ltb_ge in Hlen. cbn [fst].
    rewrite treeLevelSpec_short by assumption.
    clear IH. induction fuel as [|fuel IH]; [reflexivity|].
    rewrite Nat.iter_succ, <- IH.
    symmetry; apply treeLevelSpec_short; assumption.
Qed.

Lemma half_up_log2 (n : nat) :
  1 < n -> Nat.log2_up n = S (Nat.log2_up ((n + 1) / 2)).
Proof.
  intros Hn.
  assert (Hm : 2 * ((n + 1) / 2) <= n + 1 < 2 * ((n + 1) / 2) + 2).
  { pose proof (Nat.div_mod_eq (n + 1) 2).
    pose proof (Nat.mod_upper_bound (n + 1) 2). lia. }
  set (m := (n + 1) / 2) in *.
  destruct (Nat.eq_dec m 1) as [Hm1|Hm1].
  - rewrite Hm1. assert (n = 2) by lia. subst n. reflexivity.
  - assert (1 < m) by lia.
    apply Nat.log2_up_unique; [lia|].
    pose proof (Nat.log2_up_spec m ltac:(lia)) as [Hlo Hhi].
    pose proof (Nat.log2_up_pos m ltac:(lia)) as Hpos.
    cbn [Nat.pred]. rewrite Nat.pow_succ_r'.
    destruct (Nat.log2_up m) as [|k]; [lia|].
    cbn [Nat.pred] in Hlo. rewrite Nat.pow_succ_r' in *. lia.
Qed.

Lemma iter_levels (k : nat) (l : list string) :
  Nat.log2_up (length l) <= k ->
  Nat.iter k (treeLevelSpec (pairwiseMerge a timeContext)) l
  = treeSpec (pairwiseMerge a timeContext) l.
Proof.
  unfold treeSpec. revert l. induction k as [|k IH]; intros l Hk.
  - assert (H0 : Nat.log2_up (length l) = 0) by lia. rewrite H0. reflexivity.
  - destruct (Nat.le_gt_cases (length l) 1) as [Hs|Hl].
    + rewrite (Nat.log2_up_eqn0 _ Hs). change (Nat.iter 0 _ l) with l.
      clear IH Hk. induction (S k) as [|j IH]; [reflexivity|].
      rewrite Nat.iter_succ, IH. apply treeLevelSpec_short; assumption.
    + rewrite (half_up_log2 _ Hl) in *.
      rewrite !Nat.iter_succ_r.
      rewrite <- treeLevelSpec_length. apply IH.
      rewrite treeLevelSpec_length. lia.
Qed.

Lemma treeSpec_single (l : list string) :
  l <> [] -> exists merged, treeSpec (pairwiseMerge a timeContext) l = [merged].
Proof.
  unfold treeSpec.
  remember (Nat.log2_up (length l)) as k eqn:Hk.
  revert l Hk. induction k as [|k IH]; intros l Hk Hne.
  - symmetry in Hk. apply Nat.log2_up_null in Hk.
    destruct l as [|x [|y l]]; [congruence|exists x; reflexivity|].
    cbn in Hk; lia.
  - assert (Hl : 1 < length l).
    { destruct (Nat.le_gt_cases (length l) 1) as [Hs|]; [|assumption].
      rewrite (Nat.log2_up_eqn0 _ Hs) in Hk. discriminate. }
    rewrite Nat.iter_succ_r. apply IH.
    + rewrite treeLevelSpec_length. rewrite (half_up_log2 _ Hl) in Hk.
      congruence.
    + intros Hnil. apply (f_equal (@length _)) in Hnil.
      rewrite treeLevelSpec_length in Hnil.
      change (length (@nil string)) with 0 in Hnil.
      pose proof (Nat.div_mod_eq (length l + 1) 2).
      pose proof (Nat.mod_upper_bound (length l + 1) 2). lia.
Qed.

End TreeLevel.

Section Rolling.

Variable a : Analyzer.
Variable timeContext : string.

Lemma rollingSpec_failed (merge : string -> string -> result string)
  (msg : string) (rest : list string) :
  fold_left
    (fun running next =>
       match running with
       | Ok r => merge r next
       | Err m => Err m
       end) rest (Err msg) = Err msg.
Proof. induction rest as [|x rest IH]; simpl; auto. Qed.

Lemma rollingLoop_spec (rest : list string) (i : nat) (previous : string) :
  let '(merged, issued) := rollingLoop a timeContext i previous rest in
  sameOutcome merged (rollingSpec (pairwiseMerge a timeContext) previous rest)
  /\ length issued <= length rest
  /\ (isOk merged = true -> length issued = length rest).
Proof.
  revert i previous; induction rest as [|next rest IH]; intros i previous.
  - cbn. auto.
  - cbn [rollingLoop]. unfold rollingSpec. cbn [fold_left].
    unfold pairwiseMerge at 2.
    destruct (GenerateRollingSummaryWithContext a previous next timeContext)
      as [rolled|msg].
    + specialize (IH (S i) rolled).
      destruct (rollingLoop a timeContext (S i) rolled rest)
        as [merged issued].
      destruct IH as (Hsame & Hle & Hok). cbn [length].
      repeat split; [exact Hsame|lia|intros H; rewrite Hok; auto].
    + rewrite rollingSpec_failed. cbn. repeat split; [lia|discriminate].
Qed.

End Rolling.

Lemma treeAggregation_result (a : Analyzer) (arrival : Arrival)
  (summaries : list string) (periodKey context timeContext : string) :
  (forall l, Permutation (arrival l) l) ->
  summaries <> [] ->
  exists final,
    treeSpec (pairwiseMerge a timeContext) summaries = [final]
    /\ fst (processTreeAggregationWithTimeContext a arrival summaries
              periodKey context timeContext) = Ok final.
Proof.
  intros Hperm Hne.
  destruct (treeSpec_single a timeContext summaries Hne) as (final & Hfinal).
  exists final; split; [assumption|].
  unfold processTreeAggregationWithTimeContext.
  pose proof (treeLoop_iter a arrival timeContext Hperm (length summaries)
                summaries) as Hloop.
  rewrite iter_levels in Hloop by apply Nat.log2_up_le_lin, Nat.le_0_l.
  destruct (treeLoop a arrival timeContext (length summaries) summaries)
    as [currentLevel issued].
  cbn [fst] in Hloop. rewrite Hloop, Hfinal. reflexivity.
Qed.

(** C5: the text merger fails on an empty list and returns a single
    fragment as it is, without a call; it reduces 2 to 20 fragments by
    rolling merges seeded with the first fragment, one call for each
    remaining fragment; and it reduces more than 20 fragments level by
    level, pairing the indices [2i] and [2i+1] and carrying an odd trailing
    fragment unchanged, until one fragment remains. *)
Theorem text_merger_reduction (a : Analyzer) (arrival : Arrival)
  (summaries : list string) (periodKey context timeContext : string) :
  (forall l, Permutation (arrival l) l) ->
  let merge := pairwiseMerge a timeContext in
  let run :=
    processRollingSummaryWithTimeContext a arrival summaries periodKey
      context timeContext in
  match summaries with
  | [] => isOk (fst run) = false /\ snd run = []
  | [only] => run = (Ok only, [])
  | first :: rest =>
      if (length summaries <=? 20)%nat then
        sameOutcome (fst run) (rollingSpec merge first rest)
        /\ length (snd run) <= length rest
        /\ (isOk (fst run) = true -> length (snd run) = length rest)
      else
        exists final,
          treeSpec merge summaries = [final] /\ fst run = Ok final
  end.
Proof.
  intros Hperm merge run.
  destruct summaries as [|first [|second rest]];
    [split; reflexivity|reflexivity|].
  subst run. unfold processRollingSummaryWithTimeContext.
  unfold treeAggregationThreshold.
  rewrite Nat.leb_antisym.
  destruct (20 <? length (first :: second :: rest))%nat eqn:Hlen; cbn [negb].
  - apply treeAggregation_result; [assumption|discriminate].
  - pose proof (rollingLoop_spec a timeContext (second :: rest) 1 first) as H.
    destruct (rollingLoop a timeContext 1 first (second :: rest)).
    exact H.
Qed.

Lemma text_merger_reduction_witness :
  (forall l, Permutation (pairsInOrder l) l)
  /\ exists final,
       treeSpec (pairwiseMerge echo "t") (repeat "x" 21) = [final]
       /\ fst (processRollingSummaryWithTimeContext echo pairsInOrder
                 (repeat "x" 21) "k" "c" "t") = Ok final.
Proof.
  split; [intros l; apply Permutation_refl|].
  exact (text_merger_reduction echo pairsInOrder (repeat "x" 21) "k" "c" "t"
           (fun l => Permutation_refl l)).
Defined.

Lemma treeLevelSpec_pair (merge : string -> string -> result string)
  (level : list string) (i : nat) (x y : string) :
  nth_error level (2 * i) = Some x ->
  nth_error level (2 * i + 1) = Some y ->
  nth_error (treeLevelSpec merge level) i = Some (mergeOrConcat merge x y).
Proof.
  intros Hx Hy. unfold treeLevelSpec.
  assert (Hi : i < (length level + 1) / 2).
  { assert (2 * i + 1 < length level) by (apply nth_error_Some; congruence).
    pose proof (Nat.div_mod_eq (length level + 1) 2).
    pose proof (Nat.mod_upper_bound (length level + 1) 2). lia. }
  erewrite map_nth_error.
  2:{ rewrite nth_error_nth' with (d := 0) by (rewrite length_seq; lia).
      rewrite seq_nth by lia. reflexivity. }
  cbn [plus]. rewrite Hy. f_equal. f_equal.
  apply nth_error_nth; assumption.
Qed.

(** C9: in the tree reduction, the fragments after [k] turns of the loop
    are [fst (treeLoop a arrival timeContext k summaries)]. At every level,
    the pair of fragments at the indices [2i] and [2i+1] gives fragment [i]
    of the next level: their merge, or, when the merge fails, the two
    fragments concatenated as they are, across a blank line. The reduction
    of a non-empty list returns no error: it returns the one fragment that
    is left at the last level. *)
Theorem tree_reduction_failure_fallback (a : Analyzer) (arrival : Arrival)
  (summaries : list string) (periodKey context timeContext : string) :
  (forall l, Permutation (arrival l) l) ->
  summaries <> [] ->
  let level := fun k => fst (treeLoop a arrival timeContext k summaries) in
  (forall k i x y,
      nth_error (level k) (2 * i) = Some x ->
      nth_error (level k) (2 * i + 1) = Some y ->
      nth_error (level (S k)) i
      = Some match GenerateRollingSummaryWithContext a x y timeContext with
             | Ok merged => merged
             | Err _ => (x ++ NL ++ NL ++ y)%string
             end)
  /\ exists result,
       fst (processTreeAggregationWithTimeContext a arrival summaries
              periodKey context timeContext) = Ok result
       /\ level (length summaries) = [result].
Proof.
  intros Hperm Hne level. split.
  - intros k i x y Hx Hy. unfold level in *.
    rewrite treeLoop_iter in Hx, Hy |- * by assumption.
    rewrite Nat.iter_succ.
    rewrite (treeLevelSpec_pair _ _ _ _ _ Hx Hy).
    unfold mergeOrConcat, pairwiseMerge. reflexivity.
  - destruct (treeAggregation_result a arrival summaries periodKey context
                timeContext Hperm Hne) as (final & Hfinal & Hrun).
    exists final. split; [exact Hrun|]. unfold level.
    rewrite treeLoop_iter by assumption.
    rewrite iter_levels by apply Nat.log2_up_le_lin, Nat.le_0_l.
    exact Hfinal.
Qed.

Lemma tree_reduction_failure_fallback_witness :
  (forall l, Permutation (pairsInOrder l) l)
  /\ ["w"; "x"; "y"; "z"; "tail"] <> []
  /\ nth_error (fst (treeLoop down pairsInOrder "t" 1
                       ["w"; "x"; "y"; "z"; "tail"])) 1
     = Some ("y" ++ NL ++ NL ++ "z")
  /\ fst (processTreeAggregationWithTimeContext down pairsInOrder
            ["w"; "x"; "y"; "z"; "tail"] "k" "c" "t")
     = Ok ("w" ++ NL ++ NL ++ "x" ++ NL ++ NL ++ "y" ++ NL ++ NL ++ "z"
           ++ NL ++ NL ++ "tail").
Proof.
  assert (Hperm : forall l, Permutation (pairsInOrder l) l)
    by (intros l; apply Permutation_refl).
  assert (Hne : ["w"; "x"; "y"; "z"; "tail"] <> [])
    by discriminate.
  destruct (tree_reduction_failure_fallback down pairsInOrder
              ["w"; "x"; "y"; "z"; "tail"] "k" "c" "t" Hperm Hne)
    as [Hpair (result & Hrun & Hlast)].
  split; [exact Hperm|]. split; [exact Hne|]. split.
  - apply (Hpair 0 1 "y" "z"); reflexivity.
  - rewrite Hrun. f_equal.
    assert (Hl : [result]
                 = ["w" ++ NL ++ NL ++ "x" ++ NL ++ NL ++ "y" ++ NL ++ NL
                    ++ "z" ++ NL ++ NL ++ "tail"])
      by (rewrite <- Hlast; vm_compute; reflexivity).
    injection Hl as ->. reflexivity.
Defined.

(** ** Period generation *)

Import Aggregator.

(** Reads leave the world as it is. *)
Lemma query_periods_world (c : ContentReader) (periodType : string)
  (s t : Time) (w : World) :
  snd (ReportStorage.QueryPeriodSummaries c periodType s t w) = w.
Proof. reflexivity. Qed.

Lemma query_screenshots_world (s t : Time) (w : World) :
  snd (ReportStorage.QueryByDateRange s t w) = w.
Proof. reflexivity. Qed.

Lemma get_period_world (c : ContentReader) (k : string) (w : World) :
  snd (ReportStorage.GetPeriodSummary c k w) = w.
Proof. reflexivity. Qed.

Ltac split_read H :=
  match type of H with
  | ?q ?w = (?l, ?w') =>
      let E := fresh in
      assert (E : w' = w)
        by (change w' with (snd (l, w')); rewrite <- H; reflexivity);
      subst w'
  end.

Lemma determineActualTimeRange_no_data (e : Executor) (periodType : string)
  (s t : Time) (w : World) :
  (getLowerLevelPeriodType periodType <> "" ->
   fst (ReportStorage.QueryPeriodSummaries (contentStorage e)
          (getLowerLevelPeriodType periodType) s t w) = []) ->
  fst (ReportStorage.QueryByDateRange s t w) = [] ->
  determineActualTimeRange e periodType s t w = (s, t, false, w).
Proof.
  intros Hlower Hshots. unfold determineActualTimeRange, bind, ret.
  destruct (getLowerLevelPeriodType periodType =? "") eqn:Hl.
  - destruct (ReportStorage.QueryByDateRange s t w) as [shots w1] eqn:Hq.
    split_read Hq. cbn [fst] in Hshots. subst shots. reflexivity.
  - apply String.eqb_neq in Hl. specialize (Hlower Hl).
    destruct (ReportStorage.QueryPeriodSummaries _ _ s t w) as [ls w1] eqn:Hq.
    split_read Hq. cbn [fst] in Hlower. subst ls.
    destruct (ReportStorage.QueryByDateRange s t w) as [shots w1] eqn:Hq2.
    split_read Hq2. cbn [fst] in Hshots. subst shots. reflexivity.
Qed.

Lemma determineActualTimeRange_world (e : Executor) (periodType : string)
  (s t : Time) (w : World) :
  snd (determineActualTimeRange e periodType s t w) = w.
Proof.
  unfold determineActualTimeRange, bind, ret.
  destruct (getLowerLevelPeriodType periodType =? "").
  - destruct (ReportStorage.QueryByDateRange s t w) as [shots w1] eqn:Hq.
    split_read Hq. destruct shots as [|x shots]; [reflexivity|].
    destruct ((periodType =? "hour") || (periodType =? "day"));
      [destruct (filterWorkTimeScreenshots e (x :: shots));
       [reflexivity|]|];
      destruct (roundToPeriod _ _ _ _ _); reflexivity.
  - destruct (ReportStorage.QueryPeriodSummaries _ _ s t w) as [ls w1] eqn:Hq.
    split_read Hq. destruct ls as [|c ls].
    + destruct (ReportStorage.QueryByDateRange s t w) as [shots w1] eqn:Hq2.
      split_read Hq2. destruct shots as [|x shots]; [reflexivity|].
      destruct ((periodType =? "hour") || (periodType =? "day"));
        [destruct (filterWorkTimeScreenshots e (x :: shots));
         [reflexivity|]|];
        destruct (roundToPeriod _ _ _ _ _); reflexivity.
    + destruct (roundToPeriod _ _ _ _ _); reflexivity.
Qed.

(** C4: when the calendar window of the period holds no lower-level summary
    and no screenshot, [generateSinglePeriodSummary] returns without an
    error and leaves the store as it was; a key that was absent before the
    run is absent after it. *)
Theorem no_data_skip (e : Executor) (r : Run) (now : Time)
  (periodType : string) (forceFromScreenshots isManual : bool) (w : World)
  (startTime endTime : Time) (periodKey : string) :
  periodWindow now periodType = Ok (startTime, endTime, periodKey) ->
  (getLowerLevelPeriodType periodType <> "" ->
   fst (ReportStorage.QueryPeriodSummaries (contentStorage e)
          (getLowerLevelPeriodType periodType) startTime endTime w) = []) ->
  fst (ReportStorage.QueryByDateRange startTime endTime w) = [] ->
  let '(exit, w') :=
    generateSinglePeriodSummary e r now periodType forceFromScreenshots
      isManual w in
  exitError exit = Ok tt
  /\ w' = w
  /\ (fst (ReportStorage.GetPeriodSummary (contentStorage e) periodKey w)
      = None ->
      fst (ReportStorage.GetPeriodSummary (contentStorage e) periodKey w')
      = None).
Proof.
  intros Hwin Hlower Hshots. unfold generateSinglePeriodSummary.
  rewrite Hwin. destruct (notEnded r periodType isManual endTime).
  - cbn. auto.
  - unfold bind at 1.
    rewrite (determineActualTimeRange_no_data e periodType startTime endTime
               w Hlower Hshots).
    cbn. auto.
Qed.

Lemma no_data_skip_witness :
  let '(exit, w') :=
    generateSinglePeriodSummary (executor echo allDay) (run inOrder) t0
      "hour" false true emptyWorld in
  exitError exit = Ok tt
  /\ w' = emptyWorld
  /\ (fst (ReportStorage.GetPeriodSummary
             (contentStorage (executor echo allDay)) "2025-11-21-15"
             emptyWorld) = None ->
      fst (ReportStorage.GetPeriodSummary
             (contentStorage (executor echo allDay)) "2025-11-21-15" w')
      = None).
Proof.
  apply (no_data_skip (executor echo allDay) (run inOrder) t0 "hour" false
           true emptyWorld t0 (t0 + 3600)%Z "2025-11-21-15").
  - vm_compute; reflexivity.
  - intros _; reflexivity.
  - reflexivity.
Defined.

(** *** Placeholder children *)

Lemma classifyStep_placeholder (c : Collected) (s : PeriodSummary) :
  Summary s = PLACEHOLDER -> classifyStep c s = c.
Proof. intros H. unfold classifyStep. rewrite H. reflexivity. Qed.

Lemma classifyLower_placeholders (set : list string)
  (lowerSummaries : list PeriodSummary) :
  (forall s, In s lowerSummaries -> Summary s = PLACEHOLDER) ->
  classifyLower set lowerSummaries = mkCollected [] [] [] set.
Proof.
  unfold classifyLower. generalize (mkCollected [] [] [] set).
  induction lowerSummaries as [|s l IH]; intros c H; [reflexivity|].
  cbn [fold_left]. rewrite classifyStep_placeholder by (apply H; left; auto).
  apply IH. intros s' Hin. apply H; right; assumption.
Qed.

Lemma rangeOrder_nil (r : Run) :
  (forall l, Permutation (rangeOrder r l) l) -> rangeOrder r [] = [].
Proof. intros H. apply Permutation_nil, Permutation_sym, H. Qed.

(** Where the code skips a placeholder: where a run reads it as a summary of
    the lower level ("This avoids re-checking the same period repeatedly when
    generating higher-level reports"). When every lower-level summary of the
    period is a placeholder, a run without forced rebuild makes no call of
    the summarizer or of the analyzer and leaves the store unchanged. *)
Lemma placeholder_children_skipped (e : Executor) (r : Run) (now : Time)
  (periodType : string) (isManual : bool) (w : World)
  (startTime endTime actualStart actualEnd : Time) (periodKey : string)
  (children : list PeriodSummary) :
  (forall l, Permutation (rangeOrder r l) l) ->
  periodWindow now periodType = Ok (startTime, endTime, periodKey) ->
  notEnded r periodType isManual endTime = false ->
  fst (determineActualTimeRange e periodType startTime endTime w)
  = (actualStart, actualEnd, true) ->
  getLowerLevelPeriodType periodType <> "" ->
  fst (ReportStorage.QueryPeriodSummaries (contentStorage e)
         (getLowerLevelPeriodType periodType) actualStart actualEnd w)
  = children ->
  children <> [] ->
  (forall s, In s children -> Summary s = PLACEHOLDER) ->
  generateSinglePeriodSummary e r now periodType false isManual w
  = (ExitNothingCollected, w).
Proof.
  intros Hperm Hwin Hgate Hrange Hlower Hquery Hne Hall.
  unfold generateSinglePeriodSummary. rewrite Hwin, Hgate.
  unfold bind at 1.
  destruct (determineActualTimeRange e periodType startTime endTime w)
    as [range w1] eqn:Hd.
  assert (w1 = w)
    by (change w1 with (snd (range, w1)); rewrite <- Hd;
        apply determineActualTimeRange_world).
  subst w1. cbn [fst] in Hrange. subst range. cbn [negb].
  cbn [lowerLevelType].
  destruct (getLowerLevelPeriodType periodType =? "") eqn:Hl;
    [apply String.eqb_eq in Hl; contradiction|].
  unfold bind at 1. unfold lowerAggregation. unfold bind at 1.
  unfold selectLower. unfold bind at 1. cbn [lowerLevelType].
  destruct (ReportStorage.QueryPeriodSummaries (contentStorage e)
              (getLowerLevelPeriodType periodType) actualStart actualEnd w)
    as [ls w1] eqn:Hq.
  split_read Hq. cbn [fst] in Hquery. subst ls.
  destruct children as [|c0 rest]; [congruence|]. cbn [isEmpty ret].
  cbn [screenshotIDSet].
  rewrite classifyLower_placeholders by assumption.
  cbn [invalidSummaryKeys isEmpty summaryTexts idSet].
  unfold bind, ret. cbn [invalidSummaryKeys isEmpty summaryTexts idSet].
  rewrite (rangeOrder_nil r Hperm). reflexivity.
Qed.

Lemma placeholder_children_skipped_hour :
  generateSinglePeriodSummary (executor echo allDay) (run inOrder) t0 "hour"
    false true onlyPlaceholderChild
  = (ExitNothingCollected, onlyPlaceholderChild).
Proof.
  apply (placeholder_children_skipped (executor echo allDay) (run inOrder) t0
           "hour" true onlyPlaceholderChild t0 (t0 + 3600)%Z t0
           (t0 + 3599)%Z "2025-11-21-15" [placeholderQuarter]).
  - intros l; apply Permutation_refl.
  - vm_compute; reflexivity.
  - reflexivity.
  - vm_compute; reflexivity.
  - discriminate.
  - vm_compute; reflexivity.
  - discriminate.
  - intros s [<-|[]]; reflexivity.
Qed.

(** *** The persist step *)

Lemma find_saved (rows : list PeriodSummary) (p : PeriodSummary) :
  find (fun r => PeriodKey r =? PeriodKey p)
    (filter (fun r => negb (PeriodKey r =? PeriodKey p)) rows ++ [p])%list
  = Some p.
Proof.
  induction rows as [|r rows IH]; cbn [filter app find].
  - rewrite String.eqb_refl. reflexivity.
  - destruct (PeriodKey r =? PeriodKey p) eqn:Hk; cbn [negb]; [exact IH|].
    cbn [app find]. rewrite Hk. exact IH.
Qed.

Lemma get_after_save_placeholder (c : ContentReader) (p : PeriodSummary)
  (w : World) :
  Summary p = PLACEHOLDER ->
  fst (ReportStorage.GetPeriodSummary c (PeriodKey p)
         (snd (ReportStorage.SavePeriodSummary p w))) = Some p.
Proof.
  intros Hp. unfold ReportStorage.GetPeriodSummary,
    ReportStorage.SavePeriodSummary, SQLite.GetPeriodSummary,
    SQLite.SavePeriodSummary, bind, gets, modify, ret.
  cbn [fst snd SQLite.setPeriods period_summaries].
  rewrite find_saved. cbn [option_map]. unfold ReportStorage.enrich.
  rewrite Hp. reflexivity.
Qed.

Lemma persist_placeholder (e : Executor) (r : Run)
  (periodKey periodType : string) (startTime endTime : Time) (v : Vars)
  (w : World) :
  hasValidContent
    (mkPeriodSummary periodKey periodType startTime endTime
       (Join (allScreenshotIDs v) ",") (periodSummary v)
       (improvementAnalysis v)) = false ->
  let p := placeholderFor periodKey periodType startTime endTime in
  let '(exit, w') := persist e r periodKey periodType startTime endTime v w in
  exit = ExitPlaceholder p
  /\ fst (ReportStorage.GetPeriodSummary (contentStorage e) periodKey w')
     = Some p
  /\ reports w' = reports w
  /\ calls w' = calls w
  /\ screenshots w' = screenshots w.
Proof.
  intros Hinvalid p. unfold persist. rewrite Hinvalid. cbn [negb].
  unfold bind, ret.
  pose proof (get_after_save_placeholder (contentStorage e) p w eq_refl) as Hg.
  change (ReportStorage.SavePeriodSummary
            (placeholderFor periodKey periodType startTime endTime) w)
    with (tt, snd (ReportStorage.SavePeriodSummary p w)).
  cbv iota beta. repeat split; try reflexivity. exact Hg.
Qed.









(** When the run reaches its last step with content that is not valid, it
    upserts under the period key a placeholder, whose summary is the
    sentinel and whose id list and analysis are empty, and it leaves the
    report files as they are. *)
Lemma invalid_content_placeholder (e : Executor) (r : Run)
  (periodKey periodType : string) (startTime endTime : Time) (v : Vars)
  (w : World) :
  hasValidContent
    (mkPeriodSummary periodKey periodType startTime endTime
       (Join (allScreenshotIDs v) ",") (periodSummary v)
       (improvementAnalysis v)) = false ->
  let '(exit, w') := persist e r periodKey periodType startTime endTime v w in
  exists p,
    exit = ExitPlaceholder p
    /\ PeriodKey p = periodKey
    /\ Summary p = PLACEHOLDER
    /\ Screenshots p = ""
    /\ Analysis p = ""
    /\ fst (ReportStorage.GetPeriodSummary (contentStorage e) periodKey w')
       = Some p
    /\ (forall file, In file (reports w') -> In file (reports w))
    /\ calls w' = calls w.
Proof.
  intros Hinvalid.
  pose proof (persist_placeholder e r periodKey periodType startTime endTime
                v w Hinvalid) as H.
  cbv zeta in H.
  destruct (persist e r periodKey periodType startTime endTime v w)
    as [exit w'].
  destruct H as (Hexit & Hget & Hreports & Hcalls & _).
  exists (placeholderFor periodKey periodType startTime endTime).
  repeat split; try assumption. rewrite Hreports. auto.
Qed.

Lemma invalid_content_placeholder_witness :
  let '(exit, w') :=
    persist (executor idle allDay) (run inOrder) "2025-11-21-15-00"
      "fifteenmin" t0 (t0 + 899)%Z nothingToSay withStaleReport in
  exists p,
    exit = ExitPlaceholder p
    /\ PeriodKey p = "2025-11-21-15-00"
    /\ Summary p = PLACEHOLDER
    /\ Screenshots p = ""
    /\ Analysis p = ""
    /\ fst (ReportStorage.GetPeriodSummary
              (contentStorage (executor idle allDay)) "2025-11-21-15-00" w')
       = Some p
    /\ (forall file,
          In file (reports w') -> In file (reports withStaleReport))
    /\ calls w' = calls withStaleReport.
Proof.
  apply (invalid_content_placeholder (executor idle allDay) (run inOrder)
           "2025-11-21-15-00" "fifteenmin" t0 (t0 + 899)%Z nothingToSay
           withStaleReport).
  vm_compute; reflexivity.
Defined.

(** C7, at a quarter of an hour that has an analysed screenshot and the
    report file of an earlier run, with a summarizer that finds no work.
    [generateSinglePeriodSummary] finds the screenshot, ends with content
    that is not valid and saves the placeholder of the quarter, with the
    sentinel and without ids; it writes no report file, and it returns
    from the placeholder branch with the earlier report file still in
    place, at the path of the report of that quarter.
    [savePeriodSummaryReport], which the run calls for valid content only,
    is the function that removes the report file of a summary without
    valid content: called for the placeholder, it removes the file. *)
Theorem stale_report_survives_placeholder :
  let e := executor idle allDay in
  let run1 :=
    generateSinglePeriodSummary e (run inOrder) (t0 + 200)%Z "fifteenmin"
      false false withStaleReport in
  fst (determineActualTimeRange e "fifteenmin" t0 (t0 + 900)%Z
         withStaleReport) = (t0, (t0 + 899)%Z, true)
  /\ fst run1 = ExitPlaceholder placeholderQuarter
  /\ Summary placeholderQuarter = PLACEHOLDER
  /\ Screenshots placeholderQuarter = ""
  /\ fst (ReportStorage.GetPeriodSummary (contentStorage e)
            "2025-11-21-15-00" (snd run1)) = Some placeholderQuarter
  /\ calculateReportPath e placeholderQuarter = Ok stalePath
  /\ reports withStaleReport = [(stalePath, "an earlier report")]
  /\ reports (snd run1) = [(stalePath, "an earlier report")]
  /\ reports
       (snd (savePeriodSummaryReport e (run inOrder) placeholderQuarter
               withStaleReport))
     = [].
Proof. vm_compute. repeat split. Qed.

(** *** Two runs that differ in the order of map iteration *)



Lemma addCalls_nil (w : World) : addCalls w [] = w.
Proof. destruct w; unfold addCalls; cbn. rewrite app_nil_r. reflexivity. Qed.

Lemma addCalls_app (w : World) (cs cs' : list Call) :
  addCalls (addCalls w cs) cs' = addCalls w (cs ++ cs')%list.
Proof. unfold addCalls; cbn. rewrite app_assoc. reflexivity. Qed.

Lemma callsOnly_ret {A} (a : A) : callsOnly (ret a).
Proof. exists a, []. intros w. rewrite addCalls_nil. reflexivity. Qed.

Lemma callsOnly_external {A} (c : Call) (answer : result A) :
  callsOnly (external c answer).
Proof. exists answer, [c]. reflexivity. Qed.

Lemma callsOnly_bind {A B} (m : M A) (f : A -> M B) :
  callsOnly m -> (forall a, callsOnly (f a)) -> callsOnly (bind m f).
Proof.
  intros (a & cs & Hm) Hf. destruct (Hf a) as (b & cs' & Hfa).
  exists b, (cs ++ cs')%list. intros w. unfold bind.
  rewrite Hm, Hfa, addCalls_app. reflexivity.
Qed.



Lemma sameInputs_addCalls (e : Executor) (L : string) (w1 w2 : World)
  (cs1 cs2 : list Call) :
  sameInputs e L w1 w2 ->
  sameInputs e L (addCalls w1 cs1) (addCalls w2 cs2).
Proof. intros H. exact H. Qed.



Lemma get_period_eta (c : ContentReader) (k : string) (w : World) :
  ReportStorage.GetPeriodSummary c k w
  = (fst (ReportStorage.GetPeriodSummary c k w), w).
Proof. reflexivity. Qed.



Section TwoRuns.

Variable e : Executor.
Variables r1 r2 : Run.
Variables periodType periodKey : string.

Local Abbreviation L := (getLowerLevelPeriodType periodType).

Hypothesis order1 : forall l, Permutation (rangeOrder r1 l) l.
Hypothesis order2 : forall l, Permutation (rangeOrder r2 l) l.






Hypothesis later : (clock r1 <= clock r2)%Z.





End TwoRuns.



(** *** A second run for a placeholder *)



(** ** Batch analysis *)

Import BatchAnalyzer.

Section Ordering.

Context {A : Type} (key : A -> Z).

Lemma insertBy_sorted (x : A) (l : list A) :
  Sorted Z.le (map key l) -> Sorted Z.le (map key (SQLite.insertBy key x l)).
Proof.
  induction l as [|y l IH]; intros Hs; cbn [SQLite.insertBy map].
  - repeat constructor.
  - destruct (key x <? key y)%Z eqn:Hlt; cbn [map].
    + constructor; [assumption|]. constructor. apply Z.ltb_lt in Hlt. lia.
    + apply Z.ltb_ge in Hlt. inversion Hs as [|? ? Hs' Hhd]; subst.
      constructor; [auto|].
      destruct l as [|z l]; cbn [SQLite.insertBy map].
      * constructor; assumption.
      * destruct (key x <? key z)%Z; cbn [map]; constructor;
          [assumption|inversion Hhd; assumption].
Qed.

Lemma orderBy_sorted (l : list A) :
  Sorted Z.le (map key (SQLite.orderBy key l)).
Proof.
  unfold SQLite.orderBy. induction l as [|x l IH]; cbn [fold_right].
  - constructor.
  - apply insertBy_sorted; assumption.
Qed.

End Ordering.

Lemma prefix_refl (s : string) : String.prefix s s = true.
Proof.
  induction s as [|c s IH]; [reflexivity|]. cbn.
  destruct (ascii_dec c c); [assumption|congruence].
Qed.

Lemma Join_nonempty (texts : list string) (sep : string) :
  texts <> [] -> (forall t, In t texts -> t <> "") -> Join texts sep <> "".
Proof.
  destruct texts as [|t texts]; [congruence|]. intros _ Hall.
  assert (Ht : t <> "") by (apply Hall; left; reflexivity).
  unfold Join. cbn [String.concat].
  destruct texts; [assumption|]. destruct t; [congruence|discriminate].
Qed.

Lemma find_saved_hour (rows : list HourSummary) (h : HourSummary) :
  find (fun r => HHourKey r =? HHourKey h)
    (filter (fun r => negb (HHourKey r =? HHourKey h)) rows ++ [h])%list
  = Some h.
Proof.
  induction rows as [|r rows IH]; cbn [filter app find].
  - rewrite String.eqb_refl. reflexivity.
  - destruct (HHourKey r =? HHourKey h) eqn:Hk; cbn [negb]; [exact IH|].
    cbn [app find]. rewrite Hk. exact IH.
Qed.

Lemma find_hour_key (rows : list HourSummary) (k : string) (h : HourSummary) :
  find (fun r => HHourKey r =? k) rows = Some h -> HHourKey h = k.
Proof.
  intros H. apply find_some in H as [_ H]. apply String.eqb_eq; assumption.
Qed.

Lemma UpdateHourSummary_stored (order : list string -> list string)
  (hourKey : string) (ids : list string) (summary : string) (w : World) :
  (fst (SQLite.GetHourSummary hourKey w) = None ->
   SQLite.parseHourKey hourKey <> None) ->
  exists h,
    fst (SQLite.GetHourSummary hourKey
           (snd (SQLite.UpdateHourSummary order hourKey ids summary w)))
    = Some h
    /\ HSummary h = summary.
Proof.
  intros Hkey. unfold SQLite.UpdateHourSummary, bind.
  unfold SQLite.GetHourSummary at 2. unfold gets.
  unfold SQLite.GetHourSummary, gets in Hkey. cbn [fst] in Hkey.
  destruct (find _ (hour_summaries w)) as [h|] eqn:Hf.
  - pose proof (find_hour_key _ _ _ Hf) as Hk.
    set (saved := mkHourSummary (HHourKey h) (HDate h) (HHour h)
                    (Join (order (SQLite.insertAll
                       (SQLite.insertAll []
                          (filter (fun id => negb (id =? ""))
                             (Split (HScreenshots h) ","))) ids)) ",")
                    summary).
    exists saved. split; [|reflexivity].
    unfold SQLite.SaveHourSummary, SQLite.GetHourSummary, modify, gets, ret.
    cbn [fst snd SQLite.setHours hour_summaries].
    fold saved. rewrite <- Hk.
    change (HHourKey h) with (HHourKey saved).
    apply find_saved_hour.
  - destruct (SQLite.parseHourKey hourKey) as [t|];
      [|exfalso; apply (Hkey eq_refl); reflexivity].
    set (saved := mkHourSummary hourKey t (GoTime.Hour t)
                    (Join (order (SQLite.insertAll
                       (SQLite.insertAll []
                          (filter (fun id => negb (id =? ""))
                             (Split "" ","))) ids)) ",")
                    summary).
    exists saved. split; [|reflexivity].
    unfold SQLite.SaveHourSummary, SQLite.GetHourSummary, modify, gets, ret.
    cbn [fst snd SQLite.setHours hour_summaries HHourKey HDate HHour
         HScreenshots].
    fold saved.
    change hourKey with (HHourKey saved).
    apply find_saved_hour.
Qed.

Lemma insertBy_perm {A} (key : A -> Z) (x : A) (l : list A) :
  Permutation (SQLite.insertBy key x l) (x :: l).
Proof.
  induction l as [|y l IH]; cbn [SQLite.insertBy]; [apply Permutation_refl|].
  destruct (key x <? key y)%Z; [apply Permutation_refl|].
  eapply Permutation_trans; [apply perm_skip, IH|apply perm_swap].
Qed.

Lemma orderBy_perm {A} (key : A -> Z) (l : list A) :
  Permutation (SQLite.orderBy key l) l.
Proof.
  unfold SQLite.orderBy. induction l as [|x l IH]; cbn [fold_right];
    [apply Permutation_refl|].
  eapply Permutation_trans; [apply insertBy_perm|apply perm_skip, IH].
Qed.

Lemma bucketOf_in (hourKey : string) (w : World) (s : ScreenshotRecord) :
  In s (bucketOf hourKey w) -> In s (screenshots w) /\ HourKey s = hourKey.
Proof.
  intros H. apply (Permutation_in _ (orderBy_perm _ _)) in H.
  apply filter_In in H as [Hin Hk]. apply String.eqb_eq in Hk. auto.
Qed.

Lemma unique_id (l : list ScreenshotRecord) (a b : ScreenshotRecord) :
  NoDup (map ID l) -> In a l -> In b l -> ID a = ID b -> a = b.
Proof.
  induction l as [|x l IH]; intros Hnd Ha Hb Hid; [destruct Ha|].
  inversion Hnd as [|? ? Hnotin Hnd']; subst.
  destruct Ha as [->|Ha], Hb as [->|Hb]; auto.
  - exfalso. apply Hnotin. rewrite Hid. apply in_map, Hb.
  - exfalso. apply Hnotin. rewrite <- Hid. apply in_map, Ha.
Qed.

Lemma setAnalysis_other (id text : string) (r : ScreenshotRecord) :
  ID r <> id -> setAnalysis id text r = r.
Proof.
  intros H. unfold setAnalysis. apply String.eqb_neq in H. rewrite H.
  reflexivity.
Qed.

Lemma setAnalysis_same (id text : string) (r : ScreenshotRecord) :
  SAnalysis r = text -> setAnalysis id text r = r.
Proof.
  intros H. unfold setAnalysis. destruct (ID r =? id); [|reflexivity].
  destruct r; cbn in *. subst. reflexivity.
Qed.

Lemma setAnalysis_ID (id text : string) (r : ScreenshotRecord) :
  ID (setAnalysis id text r) = ID r.
Proof. unfold setAnalysis. destruct (ID r =? id); reflexivity. Qed.

Lemma setAnalysis_HourKey (id text : string) (r : ScreenshotRecord) :
  HourKey (setAnalysis id text r) = HourKey r.
Proof. unfold setAnalysis. destruct (ID r =? id); reflexivity. Qed.

Lemma UpdateScreenshotAnalysis_world (id text : string) (w : World) :
  snd (ReportStorage.UpdateScreenshotAnalysis id text w)
  = SQLite.setScreenshots w (map (setAnalysis id text) (screenshots w)).
Proof. reflexivity. Qed.

Lemma setScreenshots_same (w : World) :
  SQLite.setScreenshots w (screenshots w) = w.
Proof. destruct w; reflexivity. Qed.

Lemma filter_map_fixed {A} (p : A -> bool) (f : A -> A) (l : list A) :
  (forall x, In x l -> p (f x) = p x /\ (p x = true -> f x = x)) ->
  filter p (map f l) = filter p l.
Proof.
  induction l as [|x l IH]; intros H; [reflexivity|]. cbn [map filter].
  destruct (H x (or_introl eq_refl)) as [Hp Hf]. rewrite Hp.
  rewrite IH by (intros y Hy; apply H; right; exact Hy).
  destruct (p x); [rewrite Hf by reflexivity|]; reflexivity.
Qed.

Lemma find_other_hour (rows : list HourSummary) (saved : HourSummary)
  (k : string) :
  k <> HHourKey saved ->
  find (fun r => HHourKey r =? k)
    (filter (fun r => negb (HHourKey r =? HHourKey saved)) rows ++ [saved])%list
  = find (fun r => HHourKey r =? k) rows.
Proof.
  intros Hk. induction rows as [|r rows IH]; cbn [filter app find].
  - destruct (String.eqb_spec (HHourKey saved) k); [congruence|reflexivity].
  - destruct (String.eqb_spec (HHourKey r) (HHourKey saved)) as [He|He];
      cbn [negb].
    + rewrite IH. destruct (String.eqb_spec (HHourKey r) k);
        [congruence|reflexivity].
    + cbn [app find]. rewrite IH. reflexivity.
Qed.

Lemma UpdateHourSummary_other (order : list string -> list string)
  (hourKey : string) (ids : list string) (summary : string) (w : World)
  (k : string) :
  k <> hourKey ->
  fst (SQLite.GetHourSummary k
         (snd (SQLite.UpdateHourSummary order hourKey ids summary w)))
  = fst (SQLite.GetHourSummary k w).
Proof.
  intros Hk. unfold SQLite.UpdateHourSummary, bind.
  unfold SQLite.GetHourSummary at 2. unfold gets.
  destruct (find _ (hour_summaries w)) as [h|] eqn:Hf.
  - pose proof (find_hour_key _ _ _ Hf) as Hh.
    unfold SQLite.SaveHourSummary, SQLite.GetHourSummary, modify, gets, ret.
    cbn [fst snd SQLite.setHours hour_summaries HHourKey].
    match goal with
    | |- find _ (filter _ _ ++ [?saved])%list = _ =>
        apply (find_other_hour (hour_summaries w) saved k)
    end.
    cbn [HHourKey]. congruence.
  - destruct (SQLite.parseHourKey hourKey) as [t|]; [|reflexivity].
    unfold SQLite.SaveHourSummary, SQLite.GetHourSummary, modify, gets, ret.
    cbn [fst snd SQLite.setHours hour_summaries HHourKey].
    match goal with
    | |- find _ (filter _ _ ++ [?saved])%list = _ =>
        apply (find_other_hour (hour_summaries w) saved k)
    end.
    cbn [HHourKey]. congruence.
Qed.

Lemma UpdateHourSummary_screenshots (order : list string -> list string)
  (hourKey : string) (ids : list string) (summary : string) (w : World) :
  screenshots (snd (SQLite.UpdateHourSummary order hourKey ids summary w))
  = screenshots w.
Proof.
  unfold SQLite.UpdateHourSummary, bind.
  unfold SQLite.GetHourSummary, gets.
  destruct (find _ (hour_summaries w)) as [h|]; [reflexivity|].
  destruct (SQLite.parseHourKey hourKey); reflexivity.
Qed.

Lemma updateHourSummary_screenshots (r : Run) (rec : ScreenshotRecord)
  (w : World) :
  screenshots (snd (updateHourSummary r rec w)) = screenshots w.
Proof.
  unfold updateHourSummary, bind.
  change (ReportStorage.GetScreenshotsByHourKey (HourKey rec) w)
    with (bucketOf (HourKey rec) w, w).
  cbv iota beta. apply UpdateHourSummary_screenshots.
Qed.

Lemma updateHourSummary_other (r : Run) (rec : ScreenshotRecord) (w : World)
  (k : string) :
  k <> HourKey rec ->
  hourSummaryOf k (snd (updateHourSummary r rec w)) = hourSummaryOf k w.
Proof.
  intros Hk. unfold hourSummaryOf, updateHourSummary, bind.
  change (ReportStorage.GetScreenshotsByHourKey (HourKey rec) w)
    with (bucketOf (HourKey rec) w, w).
  cbv iota beta. unfold ReportStorage.UpdateHourSummary.
  rewrite UpdateHourSummary_other by assumption. reflexivity.
Qed.

Lemma bucketOf_screenshots (hourKey : string) (w w' : World) :
  screenshots w' = screenshots w -> bucketOf hourKey w' = bucketOf hourKey w.
Proof.
  intros H. unfold bucketOf, ReportStorage.GetScreenshotsByHourKey,
    SQLite.GetScreenshotsByHourKey, gets. cbn [fst]. rewrite H. reflexivity.
Qed.

(** One re-roll: afterwards the summary of the hour is the roll-up of its
    bucket. *)
Lemma updateHourSummary_rolled (r : Run) (rec : ScreenshotRecord) (w : World) :
  (forall s,
      In s (bucketOf (HourKey rec) w) ->
      HasPrefix (SAnalysis s) "Analysis failed" = false) ->
  (fst (SQLite.GetHourSummary (HourKey rec) w) = None ->
   SQLite.parseHourKey (HourKey rec) <> None) ->
  rolled (HourKey rec) (snd (updateHourSummary r rec w)).
Proof.
  intros Hnofail Hkey. unfold rolled.
  rewrite (bucketOf_screenshots _ _ _ (updateHourSummary_screenshots r rec w)).
  set (bucket := bucketOf (HourKey rec) w) in *.
  unfold hourSummaryOf, updateHourSummary, bind.
  change (ReportStorage.GetScreenshotsByHourKey (HourKey rec) w)
    with (bucket, w).
  cbv iota beta.
  assert (Hfilter :
    filter
      (fun s =>
         negb (SAnalysis s =? "") && negb (SAnalysis s =? "Analysis failed")
         && negb (isDesktopOrLockScreenAnalysis (SAnalysis s))) bucket
    = filter validScreenshot bucket).
  { apply filter_ext_in. intros s Hin. unfold validScreenshot.
    rewrite (Hnofail s Hin). cbn [negb].
    destruct (SAnalysis s =? "Analysis failed") eqn:He; [|reflexivity].
    apply String.eqb_eq in He. specialize (Hnofail s Hin).
    rewrite He in Hnofail. unfold HasPrefix in Hnofail.
    rewrite prefix_refl in Hnofail. discriminate. }
  rewrite Hfilter. unfold hourRollup.
  set (texts := map SAnalysis (filter validScreenshot bucket)).
  destruct (UpdateHourSummary_stored (rangeOrder r) (HourKey rec)
              (map ID bucket)
              (if Join texts NL =? "" then
                 "Captured " ++ itoa (Z.of_nat (length (map ID bucket)))
                 ++ " screenshot(s) during this hour"
               else Join texts NL) w Hkey) as (h & Hget & Hsum).
  unfold ReportStorage.UpdateHourSummary. rewrite Hget. cbn [option_map].
  f_equal. rewrite Hsum, length_map.
  destruct texts as [|t0 rest] eqn:Ht; [reflexivity|].
  cbn [isEmpty].
  destruct (Join (t0 :: rest) NL =? "") eqn:Hj; [|reflexivity].
  apply String.eqb_eq in Hj. exfalso. revert Hj. apply Join_nonempty.
  - discriminate.
  - intros t Hin. rewrite <- Ht in Hin. unfold texts in Hin.
    apply in_map_iff in Hin as (s & <- & Hs). apply filter_In in Hs as [_ Hv].
    unfold validScreenshot in Hv.
    destruct (SAnalysis s =? "") eqn:He; [discriminate|].
    apply String.eqb_neq in He. assumption.
Qed.

Lemma setAnalysis_text (id text : string) (r : ScreenshotRecord) :
  ID r = id -> SAnalysis (setAnalysis id text r) = text.
Proof.
  intros H. unfold setAnalysis. apply String.eqb_eq in H. rewrite H.
  reflexivity.
Qed.

Lemma map_setAnalysis_ID (id text : string) (l : list ScreenshotRecord) :
  map ID (map (setAnalysis id text) l) = map ID l.
Proof. rewrite map_map. apply map_ext. intros r. apply setAnalysis_ID. Qed.

Lemma map_setAnalysis_same (id text : string) (l : list ScreenshotRecord) :
  (forall s, In s l -> ID s = id -> SAnalysis s = text) ->
  map (setAnalysis id text) l = l.
Proof.
  intros H. rewrite <- (map_id l) at 2. apply map_ext_in. intros s Hin.
  destruct (String.eqb_spec (ID s) id) as [He|He].
  - apply setAnalysis_same. auto.
  - apply setAnalysis_other. assumption.
Qed.

Lemma bucket_unchanged (l : list ScreenshotRecord) (job : ScreenshotRecord)
  (text hourKey : string) :
  NoDup (map ID l) -> In job l -> hourKey <> HourKey job ->
  filter (fun r => HourKey r =? hourKey) (map (setAnalysis (ID job) text) l)
  = filter (fun r => HourKey r =? hourKey) l.
Proof.
  intros Hnd Hin Hk. apply filter_map_fixed. intros s Hs.
  rewrite setAnalysis_HourKey. split; [reflexivity|]. intros Hh.
  apply String.eqb_eq in Hh. apply setAnalysis_other. intros Hid.
  apply Hk. rewrite <- Hh. f_equal. apply (unique_id l); assumption.
Qed.

Section Batch.

Variable e : Executor.
Variable r : Run.

Lemma collectResult_skip (res : analysisResult) (w : World) :
  err res = None -> analysis res = "" ->
  snd (collectResult r res w)
  = snd (ReportStorage.UpdateScreenshotAnalysis (ID (record res)) "" w).
Proof.
  intros He Ha. unfold collectResult. rewrite He, Ha. reflexivity.
Qed.

Lemma collectResult_text (res : analysisResult) (w : World) :
  err res = None -> analysis res <> "" ->
  snd (collectResult r res w)
  = snd (updateHourSummary r
           (mkScreenshotRecord (ID (record res)) (Timestamp (record res))
              (ScreenID (record res)) (ImagePath (record res))
              (analysis res) (HourKey (record res)))
           (snd (ReportStorage.UpdateScreenshotAnalysis (ID (record res))
                   (analysis res) w))).
Proof.
  intros He Ha. unfold collectResult. rewrite He.
  destruct (analysis res) as [|c text]; [congruence|].
  unfold bind, ret.
  destruct (ReportStorage.UpdateScreenshotAnalysis _ _ w) as [u w1].
  cbn [snd]. destruct (updateHourSummary r _ w1) as [x w2]. reflexivity.
Qed.

Lemma collect_step (res : analysisResult) (w : World)
  (touched : list string) :
  wellAnalysed res ->
  NoDup (map ID (screenshots w)) ->
  In (record res) (screenshots w) ->
  SAnalysis (record res) = "" ->
  noFailureText w ->
  (forall hourKey, In hourKey touched -> rolled hourKey w) ->
  let w' := snd (collectResult r res w) in
  map ID (screenshots w') = map ID (screenshots w)
  /\ (forall s,
        In s (screenshots w) -> ID s <> ID (record res) ->
        In s (screenshots w'))
  /\ noFailureText w'
  /\ (forall hourKey, In hourKey touched -> rolled hourKey w')
  /\ (analysis res <> "" -> rolled (HourKey (record res)) w').
Proof.
  intros (Herr & Htext & Hparse) Hnd Hin Hempty Hnofail Hrolled w'.
  destruct (String.eqb_spec (analysis res) "") as [Ha|Ha].
  - assert (Hw : w' = w).
    { unfold w'. rewrite collectResult_skip by assumption.
      rewrite UpdateScreenshotAnalysis_world, map_setAnalysis_same.
      - apply setScreenshots_same.
      - intros s Hs Hid. rewrite <- Hempty. f_equal.
        apply (unique_id (screenshots w)); assumption. }
    rewrite Hw. repeat split; auto. intros Hne. contradiction.
  - set (job := record res) in *. set (text := analysis res) in *.
    set (w1 := snd (ReportStorage.UpdateScreenshotAnalysis (ID job) text w)).
    set (rec := mkScreenshotRecord (ID job) (Timestamp job) (ScreenID job)
                  (ImagePath job) text (HourKey job)).
    assert (Hw : w' = snd (updateHourSummary r rec w1))
      by (unfold w'; apply collectResult_text; assumption).
    assert (Hshots1 :
      screenshots w1 = map (setAnalysis (ID job) text) (screenshots w))
      by reflexivity.
    assert (Hshots : screenshots w' = screenshots w1)
      by (rewrite Hw; apply updateHourSummary_screenshots).
    assert (Hnofail1 : noFailureText w1).
    { intros s Hs. rewrite Hshots1 in Hs.
      apply in_map_iff in Hs as (s0 & <- & Hs0).
      destruct (String.eqb_spec (ID s0) (ID job)) as [He|He].
      - rewrite setAnalysis_text by assumption. exact Htext.
      - rewrite setAnalysis_other by assumption. apply Hnofail, Hs0. }
    assert (Hjob : rolled (HourKey job) w').
    { rewrite Hw. apply (updateHourSummary_rolled r rec w1).
      - intros s Hs. apply bucketOf_in in Hs as [Hs _]. apply Hnofail1, Hs.
      - intros _. exact Hparse. }
    split; [rewrite Hshots, Hshots1; apply map_setAnalysis_ID|].
    split.
    { intros s Hs Hid. rewrite Hshots, Hshots1. apply in_map_iff.
      exists s. split; [apply setAnalysis_other|]; assumption. }
    split; [intros s Hs; rewrite Hshots in Hs; apply Hnofail1, Hs|].
    split; [|intros _; exact Hjob].
    intros hourKey Hk.
    destruct (String.eqb_spec hourKey (HourKey job)) as [->|Hne];
      [exact Hjob|].
    unfold rolled. rewrite (bucketOf_screenshots _ _ _ Hshots), Hw.
    rewrite updateHourSummary_other by assumption.
    change (hourSummaryOf hourKey w1) with (hourSummaryOf hourKey w).
    rewrite (Hrolled hourKey Hk). f_equal. f_equal.
    unfold bucketOf, ReportStorage.GetScreenshotsByHourKey,
      SQLite.GetScreenshotsByHourKey, gets. cbn [fst].
    rewrite Hshots1, bucket_unchanged by assumption. reflexivity.
Qed.

(** The loop that collects the results keeps every hour that it has
    re-rolled in step with its bucket. *)
Lemma collect_all (pending : list analysisResult) :
  forall (w : World) (touched : list string),
    NoDup (map (fun res => ID (record res)) pending) ->
    (forall res, In res pending -> wellAnalysed res) ->
    NoDup (map ID (screenshots w)) ->
    (forall res,
        In res pending ->
        In (record res) (screenshots w) /\ SAnalysis (record res) = "") ->
    noFailureText w ->
    (forall hourKey, In hourKey touched -> rolled hourKey w) ->
    let w' := snd (WorkSegment.forEach (collectResult r) pending w) in
    (forall hourKey, In hourKey touched -> rolled hourKey w')
    /\ (forall res,
          In res pending -> analysis res <> "" ->
          rolled (HourKey (record res)) w').
Proof.
  induction pending as [|res rest IH];
    intros w touched Hids Hwell Hnd Hstore Hnofail Hrolled.
  { cbn. split; [assumption|intros res []]. }
  cbn [WorkSegment.forEach]. unfold bind.
  inversion Hids as [|? ? Hfresh Hids']; subst.
  destruct (Hstore res (or_introl eq_refl)) as [Hin Hempty].
  pose proof (collect_step res w touched (Hwell res (or_introl eq_refl)) Hnd
                Hin Hempty Hnofail Hrolled) as Hstep.
  cbv zeta in Hstep.
  destruct (collectResult r res w) as [u w1]. cbn [snd] in Hstep.
  destruct Hstep as (Hsame & Hothers & Hnofail1 & Hrolled1 & Hres).
  assert (Hstore1 : forall res',
    In res' rest ->
    In (record res') (screenshots w1) /\ SAnalysis (record res') = "").
  { intros res' Hin'.
    destruct (Hstore res' (or_intror Hin')) as [Hs He]. split; [|exact He].
    apply Hothers; [exact Hs|]. intros Hid. apply Hfresh.
    rewrite <- Hid.
    apply (in_map (fun res => ID (record res)) rest res' Hin'). }
  destruct (String.eqb_spec (analysis res) "") as [Ha|Ha].
  - destruct (IH w1 touched Hids'
                (fun res' H => Hwell res' (or_intror H))
                ltac:(rewrite Hsame; exact Hnd) Hstore1 Hnofail1 Hrolled1)
      as [Htouched Hrest].
    split; [exact Htouched|].
    intros res' [<-|Hin'] Hne; [contradiction|]. apply Hrest; assumption.
  - assert (Hrolled2 : forall hourKey,
      In hourKey (HourKey (record res) :: touched) -> rolled hourKey w1).
    { intros hourKey [<-|Hk]; [apply Hres, Ha|apply Hrolled1, Hk]. }
    destruct (IH w1 (HourKey (record res) :: touched) Hids'
                (fun res' H => Hwell res' (or_intror H))
                ltac:(rewrite Hsame; exact Hnd) Hstore1 Hnofail1 Hrolled2)
      as [Htouched Hrest].
    split; [intros hourKey Hk; apply Htouched; right; exact Hk|].
    intros res' [<-|Hin'] Hne; [apply Htouched; left; reflexivity|].
    apply Hrest; assumption.
Qed.

End Batch.

Lemma analysisWorker_callsOnly (e : Executor) (job : ScreenshotRecord) :
  callsOnly (analysisWorker e job).
Proof.
  unfold analysisWorker. apply callsOnly_bind; [apply callsOnly_external|].
  intros detected.
  assert (Hanalyse :
    callsOnly
      (bind
         (external (CallAnalyzeScreenshot (ImagePath job))
            (AnalyzeScreenshot (analyzer e) (ImagePath job)))
         (fun res =>
            match res with
            | Ok text => ret (mkAnalysisResult job text None)
            | Err msg => ret (mkAnalysisResult job "" (Some msg))
            end))).
  { apply callsOnly_bind; [apply callsOnly_external|].
    intros [text|msg]; apply callsOnly_ret. }
  destruct detected as [[|]|msg]; [apply callsOnly_ret| |]; exact Hanalyse.
Qed.

Lemma analysisWorker_answer (e : Executor) (job : ScreenshotRecord) :
  exists cs, forall w, analysisWorker e job w = (answer e job, addCalls w cs).
Proof.
  destruct (analysisWorker_callsOnly e job) as (a & cs & H).
  exists cs. intros w. unfold answer. rewrite !H. reflexivity.
Qed.

Lemma answer_record (e : Executor) (job : ScreenshotRecord) :
  record (answer e job) = job.
Proof.
  unfold answer, analysisWorker, bind, external, ret. cbn [fst snd].
  destruct (IsDesktopOrLockScreen (analyzer e) (ImagePath job))
    as [[|]|msg];
    try reflexivity;
    destruct (AnalyzeScreenshot (analyzer e) (ImagePath job));
    reflexivity.
Qed.

Lemma mapM_answers (e : Executor) (records : list ScreenshotRecord) :
  exists cs,
    forall w,
      mapM (analysisWorker e) records w
      = (map (answer e) records, addCalls w cs).
Proof.
  induction records as [|job rest (cs' & IH)].
  - exists []. intros w. cbn. unfold ret. rewrite addCalls_nil. reflexivity.
  - destruct (analysisWorker_answer e job) as (cs & Hjob).
    exists (cs ++ cs')%list. intros w. cbn [mapM map]. unfold bind, ret.
    rewrite Hjob, IH, addCalls_app. reflexivity.
Qed.

Lemma records_ids (l records : list ScreenshotRecord) :
  NoDup (map ID l) -> NoDup records ->
  (forall job, In job records -> In job l) ->
  NoDup (map ID records).
Proof.
  intros Hl. induction records as [|job rest IH]; intros Hnd Hsub;
    [constructor|].
  inversion Hnd as [|? ? Hfresh Hnd']; subst. cbn [map]. constructor.
  - intros Hin. apply in_map_iff in Hin as (other & Hid & Hother).
    apply Hfresh.
    rewrite <- (unique_id l other job Hl (Hsub other (or_intror Hother))
                  (Hsub job (or_introl eq_refl)) Hid).
    exact Hother.
  - apply IH; [exact Hnd'|]. intros j Hj. apply Hsub. right. exact Hj.
Qed.

(** The batches without a failure: take a batch of distinct screenshots of
    the store that are not analysed yet, none of whose analyses fails, on a
    store that holds no text marked as a failure. After the batch, for each hour
    bucket of a screenshot that received a text, the stored hour summary is
    the roll-up of the bucket: the texts of the bucket that are not empty,
    not marked as failed and not classified as desktop or lock screen,
    joined by newlines in timestamp order, or, when there is no such text,
    the sentence that counts the screenshots of the hour. *)
Lemma hour_summary_rollup (e : Executor) (r : Run)
  (arrival : list analysisResult -> list analysisResult)
  (records : list ScreenshotRecord) (w : World) :
  (forall l, Permutation (arrival l) l) ->
  NoDup (map ID (screenshots w)) ->
  NoDup records ->
  (forall job,
      In job records ->
      In job (screenshots w) /\ SAnalysis job = ""
      /\ wellAnalysed (answer e job)) ->
  noFailureText w ->
  let w' := snd (doBatchAnalyzeWithWorkers e r arrival records w) in
  forall job,
    In job records -> analysis (answer e job) <> "" ->
    Sorted Z.le (map Timestamp (bucketOf (HourKey job) w'))
    /\ hourSummaryOf (HourKey job) w'
       = Some (hourRollup (bucketOf (HourKey job) w')).
Proof.
  intros Harrival Hnd Hrecords Hjobs Hnofail w' job Hjob Htext.
  split; [apply orderBy_sorted|].
  destruct (mapM_answers e records) as (cs & Hworkers).
  assert (Hw : w'
    = snd (WorkSegment.forEach (collectResult r)
             (arrival (map (answer e) records)) (addCalls w cs))).
  { unfold w', doBatchAnalyzeWithWorkers, bind, ret. rewrite Hworkers.
    destruct (WorkSegment.forEach _ _ _). reflexivity. }
  set (results := map (answer e) records) in *.
  assert (Hresults : forall res,
    In res (arrival results) -> exists j, In j records /\ res = answer e j).
  { intros res Hin. apply (Permutation_in _ (Harrival results)) in Hin.
    apply in_map_iff in Hin as (j & <- & Hj). exists j. auto. }
  destruct (collect_all r (arrival results) (addCalls w cs) []) as [_ Hall].
  - apply (Permutation_NoDup
             (l := map (fun res => ID (record res)) results)).
    + apply Permutation_map, Permutation_sym, Harrival.
    + unfold results. rewrite map_map.
      rewrite (map_ext _ ID) by (intros j; rewrite answer_record; reflexivity).
      apply (records_ids (screenshots w)); [assumption|assumption|].
      intros j Hj. apply Hjobs, Hj.
  - intros res Hin. destruct (Hresults res Hin) as (j & Hj & ->).
    apply Hjobs, Hj.
  - exact Hnd.
  - intros res Hin. destruct (Hresults res Hin) as (j & Hj & ->).
    rewrite answer_record. destruct (Hjobs j Hj) as (Hs & He & _).
    split; assumption.
  - exact Hnofail.
  - intros hourKey [].
  - rewrite Hw. rewrite <- (answer_record e job) at 1 2.
    apply Hall; [|exact Htext].
    apply (Permutation_in _ (Permutation_sym (Harrival results))).
    apply in_map, Hjob.
Qed.

Lemma hour_summary_rollup_witness :
  let w' :=
    snd (doBatchAnalyzeWithWorkers (executor echo allDay) (run inOrder)
           arrivalOrder [pending] pendingWorld) in
  Sorted Z.le (map Timestamp (bucketOf (HourKey pending) w'))
  /\ hourSummaryOf (HourKey pending) w'
     = Some (hourRollup (bucketOf (HourKey pending) w')).
Proof.
  cbv zeta.
  apply (hour_summary_rollup (executor echo allDay) (run inOrder)
           arrivalOrder [pending] pendingWorld).
  - intros l; apply Permutation_refl.
  - repeat constructor. intros [].
  - repeat constructor. intros [].
  - intros job [<-|[]]. split; [left; reflexivity|].
    split; [reflexivity|].
    split; [vm_compute; reflexivity|].
    split; [vm_compute; reflexivity|].
    vm_compute; discriminate.
  - intros s [<-|[]]; reflexivity.
  - left; reflexivity.
  - vm_compute; discriminate.
Defined.

(** C6, at a batch of two screenshots of one hour, the analysis of the
    first of which fails. [doBatchAnalyzeWithWorkers] stores the text
    [Analysis failed: timeout] for it, and [updateHourSummary], which only
    leaves out a text that is equal to [Analysis failed], joins the failure
    text into the summary of the hour. The test of [validScreenshot], by
    which [generateSinglePeriodSummary] takes the texts of the same
    screenshots, is a prefix test and leaves the failure text out. *)
Theorem failure_text_reaches_hour_summary :
  let w' :=
    snd (doBatchAnalyzeWithWorkers (executor flaky allDay) (run inOrder)
           arrivalOrder [pending; pendingB] twoPending) in
  map SAnalysis (bucketOf "2025-11-21-15" w')
  = ["Analysis failed: timeout"; "Editing code shown in b.png"]
  /\ hourSummaryOf "2025-11-21-15" w'
     = Some ("Analysis failed: timeout" ++ NL
             ++ "Editing code shown in b.png")
  /\ map SAnalysis (filter validScreenshot (bucketOf "2025-11-21-15" w'))
     = ["Editing code shown in b.png"].
Proof. vm_compute. repeat split. Qed.

(** ** Consistency check *)

Import Validate.

Lemma hasKey_in (m : list (string * PeriodSummary))
  (entry : string * PeriodSummary) :
  In entry m -> hasKey m (fst entry) = true.
Proof.
  intros Hin. unfold hasKey. apply existsb_exists.
  exists entry. split; [assumption|apply String.eqb_refl].
Qed.

Lemma checkFiles_known (flags : Flags) (periodType : string)
  (dbMap : list (string * PeriodSummary)) (t : Totals)
  (entries : list (string * PeriodSummary)) (w : World) :
  (forall entry, In entry entries -> hasKey dbMap (fst entry) = true) ->
  checkFiles flags periodType dbMap t entries w = (t, w).
Proof.
  induction entries as [|entry rest IH]; intros Hknown; [reflexivity|].
  cbn [checkFiles]. unfold bind, checkFile.
  destruct entry as [periodKey fsSummary].
  pose proof (Hknown (periodKey, fsSummary) (or_introl eq_refl)) as Hk.
  cbn [fst] in Hk. rewrite Hk. unfold ret. apply IH.
  intros entry Hin. apply Hknown. right; assumption.
Qed.

Lemma checkRecords_fixed (dbMap fsMap : list (string * PeriodSummary))
  (t : Totals) :
  totalFixed (checkRecords dbMap fsMap t) = totalFixed t.
Proof.
  unfold checkRecords. revert t.
  induction dbMap as [|kv dbMap IH]; intros t; [reflexivity|].
  cbn [fold_left]. rewrite IH. reflexivity.
Qed.

(** Without the rebuild flag the files are listed by the query that lists
    the records, so that every file has its record: the check creates
    nothing, whatever the content store holds. *)
Lemma validate_fix_creates_nothing (e : Executor) (fsQuery : ContentQuery)
  (order : list (string * PeriodSummary) -> list (string * PeriodSummary))
  (flags : Flags) (periodType : string) (startTime endTime : Time)
  (t : Totals) (w : World) :
  validateRebuildDB flags = false ->
  (forall m, Permutation (order m) m) ->
  let '(t', w') :=
    validateType e fsQuery order flags periodType startTime endTime t w in
  w' = w /\ totalFixed t' = totalFixed t.
Proof.
  intros Hmode Horder. unfold validateType. rewrite Hmode.
  unfold bind at 1 2.
  destruct (ReportStorage.QueryPeriodSummaries (contentStorage e) periodType
              startTime endTime w) as [found w1] eqn:Hq.
  assert (w1 = w)
    by (change w1 with (snd (found, w1)); rewrite <- Hq; reflexivity).
  subst w1. unfold bind at 1. rewrite Hq. unfold ret.
  rewrite checkFiles_known.
  - split; [reflexivity|apply checkRecords_fixed].
  - intros entry Hin. apply hasKey_in.
    apply (Permutation_in _ (Horder (toMap found))). assumption.
Qed.

(** C10, at a day report without a record, filed under 2025-11-20 and
    with the recorded start time 2025-11-21 00:00:00: the check in fix mode
    finds nothing to fix and leaves the store without a record; in rebuild
    mode it creates one record, whose key is derived again from the start
    time of the file and differs from the key the file came with. *)
Theorem validate_fix_misses_orphan_file :
  validateType validator listing fileOrder fixOnly "day" from2020 to2025
    (mkTotals 0 0 0) orphanFile
  = (mkTotals 0 0 0, orphanFile)
  /\ PeriodKey fileSummary = "2025-11-20"
  /\ BuildPeriodKeyFromStartTime (StartTime fileSummary) "day" = "2025-11-21"
  /\ map PeriodKey
       (period_summaries
          (snd (validateType validator listing fileOrder rebuild "day"
                  from2020 to2025 (mkTotals 0 0 0) orphanFile)))
     = ["2025-11-21"].
Proof. vm_compute. repeat split. Qed.

(** ** Work segments *)

(** The fuel given to the loop over the segments is never used up: more
    fuel gives the same segments. *)
Lemma segmentsFrom_enough (fuel : nat) :
  forall (more : nat) (dayStart workEnd current : Time) (segmentIndex : Z),
    (workEnd - current <= 7200 * Z.of_nat fuel)%Z ->
    WorkSegment.segmentsFrom (fuel + more) dayStart workEnd current
      segmentIndex
    = WorkSegment.segmentsFrom fuel dayStart workEnd current segmentIndex.
Proof.
  induction fuel as [|fuel IH];
    intros more dayStart workEnd current segmentIndex Hspan.
  - destruct more as [|more]; [reflexivity|].
    cbn [Nat.add WorkSegment.segmentsFrom]. unfold GoTime.Before.
    destruct (Z.ltb_spec current workEnd); [lia|reflexivity].
  - cbn [Nat.add WorkSegment.segmentsFrom].
    destruct (GoTime.Before current workEnd) eqn:Hbefore; [|reflexivity].
    f_equal. apply IH.
    unfold GoTime.Before, GoTime.After, GoTime.Add, GoTime.hours in *.
    apply Z.ltb_lt in Hbefore.
    destruct (Z.ltb_spec workEnd (current + 2 * 3600)); lia.
Qed.

Lemma segments_fuel (workStart workEnd : Time) :
  (workEnd - workStart
   <= 7200 * Z.of_nat (Z.to_nat ((workEnd - workStart) / 7200 + 1)))%Z.
Proof.
  destruct (Z.le_gt_cases 0 (workEnd - workStart)) as [Hpos|Hneg].
  - pose proof (Z.div_pos (workEnd - workStart) 7200 Hpos ltac:(lia)).
    rewrite Z2Nat.id by lia.
    pose proof (Z.mul_succ_div_gt (workEnd - workStart) 7200 ltac:(lia)).
    lia.
  - lia.
Qed.

(** The two ways of gathering ids. The loop of
    [generateSinglePeriodSummary] takes no id from a lower-level summary
    that is empty or invalid; the loop of [generateWorkSegmentSummary]
    takes the ids of every hour summary that has some. *)
Lemma classifyStep_invalid (c : Collected) (s : PeriodSummary) :
  (Summary s =? "") || isInvalidSummary (Summary s) = true ->
  idSet (classifyStep c s) = idSet c.
Proof.
  intros H. unfold classifyStep.
  destruct (Summary s =? PLACEHOLDER); [reflexivity|].
  rewrite H. reflexivity.
Qed.

Lemma gatherIDs_all (workHourSummaries : list PeriodSummary)
  (s : PeriodSummary) (id : string) :
  In s workHourSummaries ->
  Screenshots s <> "" ->
  In id (Split (Screenshots s) ",") ->
  In id (WorkSegment.gatherIDs workHourSummaries).
Proof.
  intros Hin Hne Hid. unfold WorkSegment.gatherIDs. apply in_flat_map.
  exists s. split; [exact Hin|].
  apply String.eqb_neq in Hne. rewrite Hne. exact Hid.
Qed.

(** C2, at an hour summary that says there was no activity: the work
    segment that covers the hour is persisted with the id of that hour, and
    with its text. *)
Theorem work_segment_collects_invalid_child :
  isInvalidSummary (Summary invalidHour) = true
  /\ period_summaries invalidHourWorld = [invalidHour]
  /\ fst (ReportStorage.GetPeriodSummary
            (contentStorage (executor echo office)) "2025-11-21-segment-0"
            (snd (WorkSegment.generateWorkSegmentSummary
                    (executor echo office) (run inOrder) day false
                    invalidHourWorld)))
     = Some
         (mkPeriodSummary "2025-11-21-segment-0" "work-segment"
            (GoTime.Date 2025 11 21 9 30 0) (GoTime.Date 2025 11 21 11 30 0)
            "s1" noActivityPhrase "").
Proof. vm_compute. repeat split. Qed.
